(** * blzgo: the transaction pipeline of the Bluzelle Go client

    A shallow embedding of the transaction file of package [bluzelle]: lease
    conversion, fee resolution, signing, broadcast with sequence-conflict
    retry, and the HTTP helpers with their error envelope.

    Conventions.
    - Go's [int] and [int64] are 64-bit two's-complement integers; they are
      modelled as [Z] and every arithmetic result is passed through [wrap64].
    - A Go [string] or [[]byte] is a [string] (a sequence of bytes).
    - A pointer is an [option]; dereferencing [nil] is the outcome [Panic].
    - A Go result pair [(v, err)] is a pair whose second component is an
      [option error] ([None] is [nil]).
    - Every interaction with the outside (HTTP calls, the clock, sleeping, the
      account lookup) is appended to a trace carried by the state.
    - The logging calls ([ctx.Infof], [ctx.Warnf], [ctx.Errorf]) change no
      result and are left out. *)

From Stdlib Require Import ZArith List String Ascii Bool Lia.
Import ListNotations.
Open Scope string_scope.
Open Scope Z_scope.

(** ** Machine integers *)

Module GoInt.

Definition min_int : Z := - 2 ^ 63.
Definition max_int : Z := 2 ^ 63 - 1.

(** The value an [int64] holds after an operation whose exact result is [z]. *)
Definition wrap64 (z : Z) : Z := (z + 2 ^ 63) mod 2 ^ 64 - 2 ^ 63.

Definition in_range (z : Z) : Prop := min_int <= z <= max_int.
Definition in_rangeb (z : Z) : bool := (min_int <=? z) && (z <=? max_int).

Arguments wrap64 : simpl never.

Definition add (a b : Z) : Z := wrap64 (a + b).
Definition mul (a b : Z) : Z := wrap64 (a * b).
(** Go's [/] truncates toward zero; [MinInt64 / -1] wraps. *)
Definition quo (a b : Z) : Z := wrap64 (Z.quot a b).

End GoInt.

(** ** Lease durations *)

Definition BLOCK_TIME_IN_SECONDS : Z := 5.

Record LeaseInfo := mkLeaseInfo {
  Days : Z;
  Hours : Z;
  Minutes : Z;
  Seconds : Z
}.

(** [func (lease *LeaseInfo) ToBlocks() int64]: [seconds] starts at zero and
    grows by four [+=]; [a * 24 * 60 * 60] associates to the left. *)
Definition ToBlocks (lease : LeaseInfo) : Z :=
  let seconds := 0 in
  let seconds :=
    GoInt.add seconds
      (GoInt.mul (GoInt.mul (GoInt.mul (Days lease) 24) 60) 60) in
  let seconds := GoInt.add seconds (GoInt.mul (GoInt.mul (Hours lease) 60) 60) in
  let seconds := GoInt.add seconds (GoInt.mul (Minutes lease) 60) in
  let seconds := GoInt.add seconds (Seconds lease) in
  GoInt.quo seconds BLOCK_TIME_IN_SECONDS.

(** The duration of a lease in seconds, as an unbounded integer. *)
Definition total_seconds (lease : LeaseInfo) : Z :=
  Days lease * 86400 + Hours lease * 3600 + Minutes lease * 60 + Seconds lease.

(** ** Outcomes and errors *)

(** Go's [error] values that the pipeline produces or passes on. *)
Inductive error :=
| Errorf (msg : string)        (* fmt.Errorf("%s", msg) *)
| LibError (origin : string).  (* an error value made by a library *)

(** How a call ends: it returns, it panics (the Go runtime stops the
    process), or the model's recursion budget is used up. *)
Inductive outcome (A : Type) :=
| Done (a : A)
| Panic (msg : string)
| OutOfFuel.
Arguments Done {A} a.
Arguments Panic {A} msg.
Arguments OutOfFuel {A}.

Definition bytes := list ascii.

Definition byte_val (c : ascii) : Z := Z.of_N (N_of_ascii c).
Definition byte_of (z : Z) : ascii := ascii_of_N (Z.to_N z).
Definition zero_byte : ascii := byte_of 0.

(** ** package strings *)

Module Strings.

(** [strings.Contains(s, substr)]. *)
Fixpoint Contains (s substr : string) : bool :=
  if String.prefix substr s then true
  else match s with
       | EmptyString => false
       | String _ s' => Contains s' substr
       end.

End Strings.

(** ** package strconv *)

Module Strconv.

Definition ErrSyntax : error := LibError "strconv: invalid syntax".
Definition ErrRange : error := LibError "strconv: value out of range".

Definition is_digit (c : ascii) : bool :=
  (48 <=? byte_val c) && (byte_val c <=? 57).

(** The value of a run of decimal digits, [None] when a byte is no digit. *)
Fixpoint digits_value (acc : Z) (s : string) : option Z :=
  match s with
  | EmptyString => Some acc
  | String c s' =>
      if is_digit c then digits_value (acc * 10 + (byte_val c - 48)) s'
      else None
  end.

(** [strconv.Atoi] on a 64-bit platform: an optional sign and decimal digits.
    A syntax error returns 0; a value that does not fit returns the nearest
    bound, both with a non-nil error. *)
Definition Atoi (s : string) : Z * option error :=
  match s with
  | EmptyString => (0, Some ErrSyntax)
  | String c rest =>
      let neg := Ascii.eqb c "-" in
      let body := if neg || Ascii.eqb c "+" then rest else s in
      match body with
      | EmptyString => (0, Some ErrSyntax)
      | _ =>
          match digits_value 0 body with
          | None => (0, Some ErrSyntax)
          | Some v =>
              let n := if neg then - v else v in
              if n <? GoInt.min_int then (GoInt.min_int, Some ErrRange)
              else if GoInt.max_int <? n then (GoInt.max_int, Some ErrRange)
              else (n, None)
          end
      end
  end.

Definition digit_char (d : Z) : ascii := byte_of (48 + d).

(** The decimal digits of a positive number, most significant first. *)
Fixpoint digits_of (fuel : nat) (n : Z) (acc : string) : string :=
  match fuel with
  | O => acc
  | S fuel' =>
      let acc' := String (digit_char (n mod 10)) acc in
      if n <? 10 then acc' else digits_of fuel' (n / 10) acc'
  end.

(** [strconv.Itoa], [strconv.FormatInt(_, 10)] and [strconv.FormatUint(_, 10)]:
    at most 20 digits are needed. *)
Definition Itoa (n : Z) : string :=
  if n <? 0 then String "-" (digits_of 20 (- n) EmptyString)
  else digits_of 20 n EmptyString.

End Strconv.

(** ** package encoding/hex *)

Module Hex.

Definition ErrLength : error := LibError "encoding/hex: odd length hex string".
Definition InvalidByteError : error := LibError "encoding/hex: invalid byte".

Definition fromHexChar (c : ascii) : option Z :=
  let n := byte_val c in
  if (48 <=? n) && (n <=? 57) then Some (n - 48)
  else if (97 <=? n) && (n <=? 102) then Some (n - 97 + 10)
  else if (65 <=? n) && (n <=? 70) then Some (n - 65 + 10)
  else None.

(** [hex.Decode]: the bytes decoded before the first problem, and the
    problem. An odd length is reported after the last full pair, unless the
    dangling byte is itself no hex digit. *)
Fixpoint Decode (src : string) : bytes * option error :=
  match src with
  | EmptyString => ([], None)
  | String p EmptyString =>
      match fromHexChar p with
      | None => ([], Some InvalidByteError)
      | Some _ => ([], Some ErrLength)
      end
  | String p (String q rest) =>
      match fromHexChar p, fromHexChar q with
      | Some a, Some b =>
          let '(out, e) := Decode rest in (byte_of (a * 16 + b) :: out, e)
      | _, _ => ([], Some InvalidByteError)
      end
  end.

(** [hex.DecodeString]: the decoded prefix is returned together with the
    error. *)
Definition DecodeString (s : string) : string * option error :=
  let '(out, e) := Decode s in (string_of_list_ascii out, e).

End Hex.

(** ** package encoding/base64, standard alphabet with padding *)

Module Base64.

Definition encodeStd : string :=
  "ABCDEFGHIJKLMNOPQRSTUVWXYZabcdefghijklmnopqrstuvwxyz0123456789+/".

Definition enc_char (n : Z) : ascii :=
  nth (Z.to_nat n) (list_ascii_of_string encodeStd) "="%char.

Fixpoint index_of (c : ascii) (l : list ascii) (i : Z) : option Z :=
  match l with
  | [] => None
  | x :: l' => if Ascii.eqb c x then Some i else index_of c l' (i + 1)
  end.

Definition dec_char (c : ascii) : option Z :=
  index_of c (list_ascii_of_string encodeStd) 0.

(** [StdEncoding.EncodeToString]: three bytes become four characters; a
    tail of one or two bytes is padded with [=]. *)
Fixpoint encode (src : bytes) : list ascii :=
  match src with
  | [] => []
  | [a] =>
      let v := byte_val a * 65536 in
      [enc_char (v / 262144); enc_char ((v / 4096) mod 64); "="; "="]%char
  | [a; b] =>
      let v := byte_val a * 65536 + byte_val b * 256 in
      [enc_char (v / 262144); enc_char ((v / 4096) mod 64);
       enc_char ((v / 64) mod 64); "="%char]
  | a :: b :: c :: rest =>
      let v := byte_val a * 65536 + byte_val b * 256 + byte_val c in
      enc_char (v / 262144) :: enc_char ((v / 4096) mod 64)
        :: enc_char ((v / 64) mod 64) :: enc_char (v mod 64) :: encode rest
  end.

Definition EncodeToString (src : bytes) : string :=
  string_of_list_ascii (encode src).

(** Decoding of padded base64 text: groups of four characters, padding only
    in the last group. *)
Fixpoint decode (fuel : nat) (s : list ascii) : option bytes :=
  match fuel with
  | O => None
  | S fuel' =>
      match s with
      | [] => Some []
      | [c0; c1; c2; c3] =>
          match dec_char c0, dec_char c1 with
          | Some s0, Some s1 =>
              if Ascii.eqb c2 "=" then
                if Ascii.eqb c3 "="
                then Some [byte_of (s0 * 4 + s1 / 16)]
                else None
              else
                match dec_char c2 with
                | None => None
                | Some s2 =>
                    if Ascii.eqb c3 "=" then
                      Some [byte_of (s0 * 4 + s1 / 16);
                            byte_of ((s1 mod 16) * 16 + s2 / 4)]
                    else
                      match dec_char c3 with
                      | None => None
                      | Some s3 =>
                          Some [byte_of (s0 * 4 + s1 / 16);
                                byte_of ((s1 mod 16) * 16 + s2 / 4);
                                byte_of ((s2 mod 4) * 64 + s3)]
                      end
                end
          | _, _ => None
          end
      | c0 :: c1 :: c2 :: c3 :: rest =>
          match dec_char c0, dec_char c1, dec_char c2, dec_char c3 with
          | Some s0, Some s1, Some s2, Some s3 =>
              match decode fuel' rest with
              | None => None
              | Some out =>
                  Some (byte_of (s0 * 4 + s1 / 16)
                        :: byte_of ((s1 mod 16) * 16 + s2 / 4)
                        :: byte_of ((s2 mod 4) * 64 + s3) :: out)
              end
          | _, _, _, _ => None
          end
      | _ => None
      end
  end.

Definition DecodeString (s : string) : option bytes :=
  let l := list_ascii_of_string s in decode (S (List.length l)) l.

End Base64.

(** ** math/big: the bytes of an integer *)

Module Big.

Fixpoint be_digits (fuel : nat) (n : Z) (acc : bytes) : bytes :=
  match fuel with
  | O => acc
  | S fuel' =>
      if n <=? 0 then acc
      else be_digits fuel' (n / 256) (byte_of (n mod 256) :: acc)
  end.

(** [Bytes] of [big.Int]: the absolute value as big-endian bytes, without
    leading zeros (zero gives the empty slice). *)
Definition Bytes (x : Z) : bytes :=
  be_digits (S (Z.to_nat (Z.log2 (Z.abs x)))) (Z.abs x) [].

End Big.

(** ** package encoding/json, on syntax trees *)

Module Json.

(** A JSON text after parsing. A number literal written as an integer (an
    optional minus sign and digits) is [JInt]; any other number literal is
    kept as written. Object members keep their order and their duplicates. *)
#[local] Unset Elimination Schemes.
Inductive json :=
| JNull
| JBool (b : bool)
| JInt (n : Z)
| JFrac (literal : string)
| JStr (s : string)
| JArr (elems : list json)
| JObj (members : list (string * json)).
#[local] Set Elimination Schemes.

Definition is_upper (c : ascii) : bool := (65 <=? byte_val c) && (byte_val c <=? 90).
Definition is_lower (c : ascii) : bool := (97 <=? byte_val c) && (byte_val c <=? 122).
Definition to_upper (c : ascii) : ascii :=
  if is_lower c then byte_of (byte_val c - 32) else c.

(** How the decoder compares a struct field's JSON name [s] with an object
    key [t] when they are not equal byte for byte: ASCII letters match in
    either case, and U+017F and U+212A (in UTF-8) match the letters s and k. *)
Fixpoint equalFold (s t : string) : bool :=
  match s with
  | EmptyString => match t with EmptyString => true | _ => false end
  | String sb s' =>
      match t with
      | EmptyString => false
      | String tb t' =>
          if byte_val tb <? 128 then
            (Ascii.eqb sb tb
             || ((is_upper sb || is_lower sb)
                 && Ascii.eqb (to_upper sb) (to_upper tb)))
            && equalFold s' t'
          else if Ascii.eqb (to_upper sb) "S" then
            match t with
            | String a (String b t'') =>
                (byte_val a =? 197) && (byte_val b =? 191) && equalFold s' t''
            | _ => false
            end
          else if Ascii.eqb (to_upper sb) "K" then
            match t with
            | String a (String b (String c t'')) =>
                (byte_val a =? 226) && (byte_val b =? 132)
                && (byte_val c =? 170) && equalFold s' t''
            | _ => false
            end
          else false
      end
  end.

(** A decoder stores a JSON value into a destination that already holds a
    value; [None] is a non-nil error from [json.Unmarshal] (the callers drop
    the destination then). *)
Definition dec (T : Type) : Type := json -> T -> option T.

Definition dec_string : dec string := fun j cur =>
  match j with
  | JStr s => Some s
  | JNull => Some cur
  | _ => None
  end.

Definition dec_int : dec Z := fun j cur =>
  match j with
  | JInt n => if GoInt.in_rangeb n then Some n else None
  | JNull => Some cur
  | _ => None
  end.

(** A pointer: [null] stores nil, anything else is decoded into the struct
    the pointer holds, or into a fresh one. *)
Definition dec_ptr {T} (zero : T) (d : dec T) : dec (option T) := fun j cur =>
  match j with
  | JNull => Some None
  | _ =>
      match d j (match cur with Some v => v | None => zero end) with
      | Some v => Some (Some v)
      | None => None
      end
  end.

Fixpoint dec_elems {T} (zero : T) (d : dec T) (xs : list json) : option (list T) :=
  match xs with
  | [] => Some []
  | x :: xs' =>
      match d x zero, dec_elems zero d xs' with
      | Some v, Some vs => Some (v :: vs)
      | _, _ => None
      end
  end.

(** A slice ([None] is the nil slice): [null] stores nil, an array stores its
    elements. The destinations here start out nil, and every element is
    decoded into a zero value (elements of an earlier occurrence of the same
    member are not reused). *)
Definition dec_slice {T} (zero : T) (d : dec T) : dec (option (list T)) :=
  fun j _ =>
    match j with
    | JNull => Some None
    | JArr xs =>
        match dec_elems zero d xs with
        | Some vs => Some (Some vs)
        | None => None
        end
    | _ => None
    end.

Definition fields (T : Type) : Type := list (string * dec T).

(** The field [name] of type [A], read by [get] and written by [set]. *)
Definition fld {T A} (name : string) (d : dec A) (get : T -> A)
  (set : A -> T -> T) : string * dec T :=
  (name, fun j cur =>
           match d j (get cur) with
           | Some a => Some (set a cur)
           | None => None
           end).

Fixpoint find_exact {T} (fs : fields T) (key : string) : option (dec T) :=
  match fs with
  | [] => None
  | (name, d) :: fs' => if String.eqb name key then Some d else find_exact fs' key
  end.

Fixpoint find_fold {T} (fs : fields T) (key : string) : option (dec T) :=
  match fs with
  | [] => None
  | (name, d) :: fs' => if equalFold name key then Some d else find_fold fs' key
  end.

(** The field an object key is stored in: an exact match of the name is
    preferred to a case-insensitive one; a key that matches no field is
    skipped. *)
Definition find_field {T} (fs : fields T) (key : string) : option (dec T) :=
  match find_exact fs key with
  | Some d => Some d
  | None => find_fold fs key
  end.

Fixpoint dec_members {T} (fs : fields T) (ms : list (string * json)) (cur : T)
  : option T :=
  match ms with
  | [] => Some cur
  | (key, v) :: ms' =>
      match find_field fs key with
      | None => dec_members fs ms' cur
      | Some d =>
          match d v cur with
          | Some cur' => dec_members fs ms' cur'
          | None => None
          end
      end
  end.

(** A struct: the members of an object are stored one after the other, so
    of two members for one field the later one decides; [null] leaves the
    struct as it is; any other value is a type error. *)
Definition dec_struct {T} (fs : fields T) : dec T := fun j cur =>
  match j with
  | JObj ms => dec_members fs ms cur
  | JNull => Some cur
  | _ => None
  end.

Definition enc_ptr {T} (f : T -> json) (p : option T) : json :=
  match p with
  | None => JNull
  | Some v => f v
  end.

Definition enc_slice {T} (f : T -> json) (s : option (list T)) : json :=
  match s with
  | None => JNull
  | Some l => JArr (map f l)
  end.

Definition slice_len {T} (s : option (list T)) : Z :=
  match s with
  | None => 0
  | Some l => Z.of_nat (List.length l)
  end.

(** Members tagged [omitempty] are left out when empty. *)
Definition omitempty_string (name v : string) : list (string * json) :=
  if String.eqb v "" then [] else [(name, JStr v)].

Definition omitempty_slice {T} (name : string) (f : T -> json)
  (s : option (list T)) : list (string * json) :=
  if slice_len s =? 0 then [] else [(name, enc_slice f s)].

End Json.
Import Json.

(** ** The JSON structs of the package *)

Record ErrorResponse := { Error : string }.

Record KeyValue := { kv_Key : string; kv_Value : string }.

Record GasInfo := { MaxGas : Z; MaxFee : Z; GasPrice : Z }.

Record TransactionFeeAmount := { Amount : string; Denom : string }.

Record TransactionFee := {
  fee_Amount : option (list (option TransactionFeeAmount));
  Gas : string
}.

Record TransactionSignaturePubKey := { pk_Type : string; pk_Value : string }.

Record TransactionSignature := {
  sig_AccountNumber : string;
  PubKey : option TransactionSignaturePubKey;
  sig_Sequence : string;
  Signature : string
}.

Record Transaction := {
  Key : string;
  KeyValues : option (list (option KeyValue));
  Lease : Z;
  N : Z;
  NewKey : string;
  Value : string;
  ApiRequestMethod : string;
  ApiRequestEndpoint : string;
  txn_GasInfo : option GasInfo;
  result : option string;
  err : option error;
  txn_broadcastRetries : Z
}.

Record TransactionValidateRequestBaseReq := { From : string; req_ChainId : string }.

Record TransactionValidateRequest := {
  BaseReq : option TransactionValidateRequestBaseReq;
  req_Key : string;
  req_KeyValues : option (list (option KeyValue));
  req_Lease : string;
  req_N : string;
  req_NewKey : string;
  req_Owner : string;
  req_UUID : string;
  req_Value : string
}.

Record TransactionMsgValue := {
  mv_Key : string;
  mv_KeyValues : option (list (option KeyValue));
  mv_Lease : string;
  mv_N : string;
  mv_NewKey : string;
  mv_Owner : string;
  mv_UUID : string;
  mv_Value : string
}.

Record TransactionMsg := { msg_Type : string; msg_Value : option TransactionMsgValue }.

Record TransactionBroadcastPayload := {
  Fee : option TransactionFee;
  Memo : string;
  Msg : option (list (option TransactionMsg));
  Signatures : option (list (option TransactionSignature))
}.

Record TransactionValidateResponse := {
  vr_Type : string;
  vr_Value : option TransactionBroadcastPayload
}.

Record TransactionBroadcastRequest := {
  req_Transaction : option TransactionBroadcastPayload;
  Mode : string
}.

Record TransactionBroadcastResponse := {
  Height : string;
  TxHash : string;
  Data : string;
  Codespace : string;
  Code : Z;
  RawLog : string;
  GasWanted : string
}.

Record TransactionBroadcastPayloadSignPayload := {
  sp_AccountNumber : string;
  sp_ChainId : string;
  sp_Fee : option TransactionFee;
  sp_Memo : string;
  sp_Msgs : option (list (option TransactionMsg));
  sp_Sequence : string
}.

(** *** Decoders, one per destination struct *)

Definition zero_ErrorResponse : ErrorResponse := {| Error := "" |}.
Definition dec_ErrorResponse : dec ErrorResponse :=
  dec_struct [fld "error" dec_string Error (fun v _ => {| Error := v |})].

Definition zero_KeyValue : KeyValue := {| kv_Key := ""; kv_Value := "" |}.
Definition dec_KeyValue : dec KeyValue :=
  dec_struct
    [fld "key" dec_string kv_Key
       (fun v r => {| kv_Key := v; kv_Value := kv_Value r |});
     fld "value" dec_string kv_Value
       (fun v r => {| kv_Key := kv_Key r; kv_Value := v |})].

Definition zero_TransactionFeeAmount : TransactionFeeAmount :=
  {| Amount := ""; Denom := "" |}.
Definition dec_TransactionFeeAmount : dec TransactionFeeAmount :=
  dec_struct
    [fld "amount" dec_string Amount
       (fun v r => {| Amount := v; Denom := Denom r |});
     fld "denom" dec_string Denom
       (fun v r => {| Amount := Amount r; Denom := v |})].

Definition zero_TransactionFee : TransactionFee :=
  {| fee_Amount := None; Gas := "" |}.
Definition dec_TransactionFee : dec TransactionFee :=
  dec_struct
    [fld "amount"
       (dec_slice None (dec_ptr zero_TransactionFeeAmount dec_TransactionFeeAmount))
       fee_Amount
       (fun v r => {| fee_Amount := v; Gas := Gas r |});
     fld "gas" dec_string Gas
       (fun v r => {| fee_Amount := fee_Amount r; Gas := v |})].

Definition zero_TransactionSignaturePubKey : TransactionSignaturePubKey :=
  {| pk_Type := ""; pk_Value := "" |}.
Definition dec_TransactionSignaturePubKey : dec TransactionSignaturePubKey :=
  dec_struct
    [fld "type" dec_string pk_Type
       (fun v r => {| pk_Type := v; pk_Value := pk_Value r |});
     fld "value" dec_string pk_Value
       (fun v r => {| pk_Type := pk_Type r; pk_Value := v |})].

Definition zero_TransactionSignature : TransactionSignature :=
  {| sig_AccountNumber := ""; PubKey := None; sig_Sequence := ""; Signature := "" |}.
Definition dec_TransactionSignature : dec TransactionSignature :=
  dec_struct
    [fld "account_number" dec_string sig_AccountNumber
       (fun v r => {| sig_AccountNumber := v; PubKey := PubKey r;
                      sig_Sequence := sig_Sequence r; Signature := Signature r |});
     fld "pub_key"
       (dec_ptr zero_TransactionSignaturePubKey dec_TransactionSignaturePubKey)
       PubKey
       (fun v r => {| sig_AccountNumber := sig_AccountNumber r; PubKey := v;
                      sig_Sequence := sig_Sequence r; Signature := Signature r |});
     fld "sequence" dec_string sig_Sequence
       (fun v r => {| sig_AccountNumber := sig_AccountNumber r; PubKey := PubKey r;
                      sig_Sequence := v; Signature := Signature r |});
     fld "signature" dec_string Signature
       (fun v r => {| sig_AccountNumber := sig_AccountNumber r; PubKey := PubKey r;
                      sig_Sequence := sig_Sequence r; Signature := v |})].

Definition zero_TransactionMsgValue : TransactionMsgValue :=
  {| mv_Key := ""; mv_KeyValues := None; mv_Lease := ""; mv_N := "";
     mv_NewKey := ""; mv_Owner := ""; mv_UUID := ""; mv_Value := "" |}.
Definition dec_TransactionMsgValue : dec TransactionMsgValue :=
  dec_struct
    [fld "Key" dec_string mv_Key
       (fun v r => {| mv_Key := v; mv_KeyValues := mv_KeyValues r;
                      mv_Lease := mv_Lease r; mv_N := mv_N r;
                      mv_NewKey := mv_NewKey r; mv_Owner := mv_Owner r;
                      mv_UUID := mv_UUID r; mv_Value := mv_Value r |});
     fld "KeyValues" (dec_slice None (dec_ptr zero_KeyValue dec_KeyValue))
       mv_KeyValues
       (fun v r => {| mv_Key := mv_Key r; mv_KeyValues := v;
                      mv_Lease := mv_Lease r; mv_N := mv_N r;
                      mv_NewKey := mv_NewKey r; mv_Owner := mv_Owner r;
                      mv_UUID := mv_UUID r; mv_Value := mv_Value r |});
     fld "Lease" dec_string mv_Lease
       (fun v r => {| mv_Key := mv_Key r; mv_KeyValues := mv_KeyValues r;
                      mv_Lease := v; mv_N := mv_N r;
                      mv_NewKey := mv_NewKey r; mv_Owner := mv_Owner r;
                      mv_UUID := mv_UUID r; mv_Value := mv_Value r |});
     fld "N" dec_string mv_N
       (fun v r => {| mv_Key := mv_Key r; mv_KeyValues := mv_KeyValues r;
                      mv_Lease := mv_Lease r; mv_N := v;
                      mv_NewKey := mv_NewKey r; mv_Owner := mv_Owner r;
                      mv_UUID := mv_UUID r; mv_Value := mv_Value r |});
     fld "NewKey" dec_string mv_NewKey
       (fun v r => {| mv_Key := mv_Key r; mv_KeyValues := mv_KeyValues r;
                      mv_Lease := mv_Lease r; mv_N := mv_N r;
                      mv_NewKey := v; mv_Owner := mv_Owner r;
                      mv_UUID := mv_UUID r; mv_Value := mv_Value r |});
     fld "Owner" dec_string mv_Owner
       (fun v r => {| mv_Key := mv_Key r; mv_KeyValues := mv_KeyValues r;
                      mv_Lease := mv_Lease r; mv_N := mv_N r;
                      mv_NewKey := mv_NewKey r; mv_Owner := v;
                      mv_UUID := mv_UUID r; mv_Value := mv_Value r |});
     fld "UUID" dec_string mv_UUID
       (fun v r => {| mv_Key := mv_Key r; mv_KeyValues := mv_KeyValues r;
                      mv_Lease := mv_Lease r; mv_N := mv_N r;
                      mv_NewKey := mv_NewKey r; mv_Owner := mv_Owner r;
                      mv_UUID := v; mv_Value := mv_Value r |});
     fld "Value" dec_string mv_Value
       (fun v r => {| mv_Key := mv_Key r; mv_KeyValues := mv_KeyValues r;
                      mv_Lease := mv_Lease r; mv_N := mv_N r;
                      mv_NewKey := mv_NewKey r; mv_Owner := mv_Owner r;
                      mv_UUID := mv_UUID r; mv_Value := v |})].

Definition zero_TransactionMsg : TransactionMsg :=
  {| msg_Type := ""; msg_Value := None |}.
Definition dec_TransactionMsg : dec TransactionMsg :=
  dec_struct
    [fld "type" dec_string msg_Type
       (fun v r => {| msg_Type := v; msg_Value := msg_Value r |});
     fld "value" (dec_ptr zero_TransactionMsgValue dec_TransactionMsgValue)
       msg_Value
       (fun v r => {| msg_Type := msg_Type r; msg_Value := v |})].

Definition zero_TransactionBroadcastPayload : TransactionBroadcastPayload :=
  {| Fee := None; Memo := ""; Msg := None; Signatures := None |}.
Definition dec_TransactionBroadcastPayload : dec TransactionBroadcastPayload :=
  dec_struct
    [fld "fee" (dec_ptr zero_TransactionFee dec_TransactionFee) Fee
       (fun v r => {| Fee := v; Memo := Memo r; Msg := Msg r;
                      Signatures := Signatures r |});
     fld "memo" dec_string Memo
       (fun v r => {| Fee := Fee r; Memo := v; Msg := Msg r;
                      Signatures := Signatures r |});
     fld "msg" (dec_slice None (dec_ptr zero_TransactionMsg dec_TransactionMsg)) Msg
       (fun v r => {| Fee := Fee r; Memo := Memo r; Msg := v;
                      Signatures := Signatures r |});
     fld "signatures"
       (dec_slice None (dec_ptr zero_TransactionSignature dec_TransactionSignature))
       Signatures
       (fun v r => {| Fee := Fee r; Memo := Memo r; Msg := Msg r;
                      Signatures := v |})].

Definition zero_TransactionValidateResponse : TransactionValidateResponse :=
  {| vr_Type := ""; vr_Value := None |}.
Definition dec_TransactionValidateResponse : dec TransactionValidateResponse :=
  dec_struct
    [fld "type" dec_string vr_Type
       (fun v r => {| vr_Type := v; vr_Value := vr_Value r |});
     fld "value"
       (dec_ptr zero_TransactionBroadcastPayload dec_TransactionBroadcastPayload)
       vr_Value
       (fun v r => {| vr_Type := vr_Type r; vr_Value := v |})].

Definition zero_TransactionBroadcastResponse : TransactionBroadcastResponse :=
  {| Height := ""; TxHash := ""; Data := ""; Codespace := ""; Code := 0;
     RawLog := ""; GasWanted := "" |}.
Definition dec_TransactionBroadcastResponse : dec TransactionBroadcastResponse :=
  dec_struct
    [fld "height" dec_string Height
       (fun v r => {| Height := v; TxHash := TxHash r; Data := Data r;
                      Codespace := Codespace r; Code := Code r;
                      RawLog := RawLog r; GasWanted := GasWanted r |});
     fld "txhash" dec_string TxHash
       (fun v r => {| Height := Height r; TxHash := v; Data := Data r;
                      Codespace := Codespace r; Code := Code r;
                      RawLog := RawLog r; GasWanted := GasWanted r |});
     fld "data" dec_string Data
       (fun v r => {| Height := Height r; TxHash := TxHash r; Data := v;
                      Codespace := Codespace r; Code := Code r;
                      RawLog := RawLog r; GasWanted := GasWanted r |});
     fld "codespace" dec_string Codespace
       (fun v r => {| Height := Height r; TxHash := TxHash r; Data := Data r;
                      Codespace := v; Code := Code r;
                      RawLog := RawLog r; GasWanted := GasWanted r |});
     fld "code" dec_int Code
       (fun v r => {| Height := Height r; TxHash := TxHash r; Data := Data r;
                      Codespace := Codespace r; Code := v;
                      RawLog := RawLog r; GasWanted := GasWanted r |});
     fld "raw_log" dec_string RawLog
       (fun v r => {| Height := Height r; TxHash := TxHash r; Data := Data r;
                      Codespace := Codespace r; Code := Code r;
                      RawLog := v; GasWanted := GasWanted r |});
     fld "gas_wanted" dec_string GasWanted
       (fun v r => {| Height := Height r; TxHash := TxHash r; Data := Data r;
                      Codespace := Codespace r; Code := Code r;
                      RawLog := RawLog r; GasWanted := v |})].

(** *** Encoders, one per marshalled struct; members in declaration order *)

Definition enc_KeyValue (kv : KeyValue) : json :=
  JObj (omitempty_string "key" (kv_Key kv) ++ omitempty_string "value" (kv_Value kv)).

Definition enc_TransactionFeeAmount (a : TransactionFeeAmount) : json :=
  JObj [("amount", JStr (Amount a)); ("denom", JStr (Denom a))].

Definition enc_TransactionFee (f : TransactionFee) : json :=
  JObj [("amount", enc_slice (enc_ptr enc_TransactionFeeAmount) (fee_Amount f));
        ("gas", JStr (Gas f))].

Definition enc_TransactionSignaturePubKey (k : TransactionSignaturePubKey) : json :=
  JObj [("type", JStr (pk_Type k)); ("value", JStr (pk_Value k))].

Definition enc_TransactionSignature (g : TransactionSignature) : json :=
  JObj [("account_number", JStr (sig_AccountNumber g));
        ("pub_key", enc_ptr enc_TransactionSignaturePubKey (PubKey g));
        ("sequence", JStr (sig_Sequence g));
        ("signature", JStr (Signature g))].

Definition enc_TransactionMsgValue (v : TransactionMsgValue) : json :=
  JObj (omitempty_string "Key" (mv_Key v)
        ++ omitempty_slice "KeyValues" (enc_ptr enc_KeyValue) (mv_KeyValues v)
        ++ omitempty_string "Lease" (mv_Lease v)
        ++ omitempty_string "N" (mv_N v)
        ++ omitempty_string "NewKey" (mv_NewKey v)
        ++ [("Owner", JStr (mv_Owner v)); ("UUID", JStr (mv_UUID v))]
        ++ omitempty_string "Value" (mv_Value v)).

Definition enc_TransactionMsg (m : TransactionMsg) : json :=
  JObj [("type", JStr (msg_Type m));
        ("value", enc_ptr enc_TransactionMsgValue (msg_Value m))].

Definition enc_TransactionBroadcastPayload (p : TransactionBroadcastPayload) : json :=
  JObj [("fee", enc_ptr enc_TransactionFee (Fee p));
        ("memo", JStr (Memo p));
        ("msg", enc_slice (enc_ptr enc_TransactionMsg) (Msg p));
        ("signatures", enc_slice (enc_ptr enc_TransactionSignature) (Signatures p))].

Definition enc_TransactionBroadcastRequest (r : TransactionBroadcastRequest) : json :=
  JObj [("tx", enc_ptr enc_TransactionBroadcastPayload (req_Transaction r));
        ("mode", JStr (Mode r))].

Definition enc_TransactionBroadcastPayloadSignPayload
  (p : TransactionBroadcastPayloadSignPayload) : json :=
  JObj [("account_number", JStr (sp_AccountNumber p));
        ("chain_id", JStr (sp_ChainId p));
        ("fee", enc_ptr enc_TransactionFee (sp_Fee p));
        ("memo", JStr (sp_Memo p));
        ("msgs", enc_slice (enc_ptr enc_TransactionMsg) (sp_Msgs p));
        ("sequence", JStr (sp_Sequence p))].

Definition enc_TransactionValidateRequestBaseReq
  (b : TransactionValidateRequestBaseReq) : json :=
  JObj [("from", JStr (From b)); ("chain_id", JStr (req_ChainId b))].

Definition enc_TransactionValidateRequest (r : TransactionValidateRequest) : json :=
  JObj ([("BaseReq", enc_ptr enc_TransactionValidateRequestBaseReq (BaseReq r))]
        ++ omitempty_string "Key" (req_Key r)
        ++ omitempty_slice "KeyValues" (enc_ptr enc_KeyValue) (req_KeyValues r)
        ++ omitempty_string "Lease" (req_Lease r)
        ++ omitempty_string "N" (req_N r)
        ++ omitempty_string "NewKey" (req_NewKey r)
        ++ [("Owner", JStr (req_Owner r)); ("UUID", JStr (req_UUID r))]
        ++ omitempty_string "Value" (req_Value r)).

(** ** The client and the outside world *)

Definition TX_COMMAND : string := "/txs".
Definition TOKEN_NAME : string := "ubnt".
Definition BROADCAST_MAX_RETRIES : Z := 10.
(** [time.Second], in nanoseconds. *)
Definition BROADCAST_RETRY_INTERVAL : Z := 1000000000.

(** [btcec.Signature]: two [big.Int]. *)
Record ecdsaSignature := { sigR : Z; sigS : Z }.

(** What [net/http] hands back: the status and what reading the body to its
    end gives. *)
Record Response := { StatusCode : Z; Body : string; BodyErr : option error }.

(** What the client does to the outside, in the order it does it. *)
Inductive event :=
| EvNow (t : Z)                       (* time.Now().UnixNano() gave t *)
| EvHttp (method url body : string)   (* a request given to net/http *)
| EvSleep (d : Z)                     (* time.Sleep(d) *)
| EvSetAccount.                       (* ctx.setAccount() asked the ledger *)

Record Options := { Endpoint : string; ChainId : string; UUID : string }.

Record Account := { AccountNumber : Z; Sequence : Z }.

(** The fields of [Client] that the transaction file uses. *)
Record Client := {
  options : Options;
  Address : string;
  account : Account;
  privateKey : Z;
  broadcastRetries : Z
}.

(** Libraries and the environment. What they answer may depend on everything
    the client did before (the trace). *)
Class Externals := {
  (** the syntax of JSON texts, read and written by [encoding/json] *)
  json_parse : string -> option json;
  json_encode : json -> string;
  (** [sanitizeString], a helper of the package kept in another file *)
  sanitizeString : string -> string;
  (** [tmcrypto.Sha256] *)
  Sha256 : string -> string;
  (** [Sign] of [btcec.PrivateKey] and the compressed public key *)
  privateKey_Sign : Z -> string -> ecdsaSignature + error;
  pubKey_SerializeCompressed : Z -> bytes;
  (** [math/rand]: the [k]-th [rand.Intn(n)] after [rand.Seed(seed)] *)
  rand_Intn : Z -> nat -> Z -> Z;
  rand_Intn_range : forall seed k n, 0 < n -> 0 <= rand_Intn seed k n < n;
  (** [time.Now().UnixNano()] *)
  time_Now : list event -> Z;
  (** whether [http.NewRequest method url] returns a request *)
  http_NewRequest_ok : string -> string -> bool;
  (** the round trip of a request: [method], [url], body *)
  http_Do : list event -> string -> string -> string -> Response + error;
  (** what the ledger says the account is *)
  ledger_Account : list event -> Account + error
}.

Record State := { client : Client; trace : list event }.

(** Computations that read and change the client, act on the world, and may
    panic. *)
Definition M (A : Type) : Type := State -> outcome A * State.

Definition ret {A} (a : A) : M A := fun s => (Done a, s).

Definition bind {A B} (m : M A) (k : A -> M B) : M B := fun s =>
  match m s with
  | (Done a, s') => k a s'
  | (Panic msg, s') => (Panic msg, s')
  | (OutOfFuel, s') => (OutOfFuel, s')
  end.

Notation "x <- m ;; k" := (bind m (fun x => k))
  (at level 61, m at next level, right associativity).
Notation "' pat <- m ;; k" := (bind m (fun x => match x with pat => k end))
  (at level 61, pat pattern, m at next level, right associativity).
Notation "m ;;; k" := (bind m (fun _ => k))
  (at level 61, right associativity).

Definition panic {A} (msg : string) : M A := fun s => (Panic msg, s).
Definition out_of_fuel {A} : M A := fun s => (OutOfFuel, s).
Definition lift_outcome {A} (o : outcome A) : M A := fun s => (o, s).
Definition get_client : M Client := fun s => (Done (client s), s).
Definition get_trace : M (list event) := fun s => (Done (trace s), s).
Definition emit (e : event) : M unit := fun s =>
  (Done tt, {| client := client s; trace := (trace s ++ [e])%list |}).
Definition modify_client (f : Client -> Client) : M unit := fun s =>
  (Done tt, {| client := f (client s); trace := trace s |}).

Definition nil_deref : string := "invalid memory address or nil pointer dereference".
Definition slice_bounds : string := "slice bounds out of range".

Definition set_account (a : Account) (c : Client) : Client :=
  {| options := options c; Address := Address c; account := a;
     privateKey := privateKey c; broadcastRetries := broadcastRetries c |}.

Definition set_broadcastRetries (r : Z) (c : Client) : Client :=
  {| options := options c; Address := Address c; account := account c;
     privateKey := privateKey c; broadcastRetries := r |}.

Definition set_Memo (m : string) (p : TransactionBroadcastPayload)
  : TransactionBroadcastPayload :=
  {| Fee := Fee p; Memo := m; Msg := Msg p; Signatures := Signatures p |}.

Definition set_Fee (f : option TransactionFee) (p : TransactionBroadcastPayload)
  : TransactionBroadcastPayload :=
  {| Fee := f; Memo := Memo p; Msg := Msg p; Signatures := Signatures p |}.

Definition set_Signatures (g : option (list (option TransactionSignature)))
  (p : TransactionBroadcastPayload) : TransactionBroadcastPayload :=
  {| Fee := Fee p; Memo := Memo p; Msg := Msg p; Signatures := g |}.

(** A Go result pair of a byte slice ([None] is the nil slice) and an error. *)
Definition result_pair : Type := option string * option error.

(** ** The functions of the transaction file *)

(** [serializeSig]: R and S, each right-aligned in its half of 64 zero bytes.
    [copy(dst[lo:hi], src)] writes [src] at [lo]; the slice expression panics
    when [lo] is negative. *)
Definition copy_into (buf : bytes) (lo hi : Z) (src : bytes) : outcome bytes :=
  if (lo <? 0) || (hi <? lo) || (Z.of_nat (List.length buf) <? hi)
  then Panic slice_bounds
  else
    let n := Nat.min (Z.to_nat (hi - lo)) (List.length src) in
    Done (firstn (Z.to_nat lo) buf ++ firstn n src
          ++ skipn (Z.to_nat lo + n) buf)%list.

Definition serializeSig (sig : ecdsaSignature) : outcome bytes :=
  let rBytes := Big.Bytes (sigR sig) in
  let sBytes := Big.Bytes (sigS sig) in
  let sigBytes := repeat zero_byte 64 in
  match copy_into sigBytes (32 - Z.of_nat (List.length rBytes)) 32 rBytes with
  | Done sigBytes =>
      copy_into sigBytes (64 - Z.of_nat (List.length sBytes)) 64 sBytes
  | other => other
  end.

Definition random_chars : list ascii :=
  list_ascii_of_string
    "ABCDEFGHIJKLMNOPQRSTUVWXYZabcdefghijklmnopqrstuvwxyz0123456789".

Section Pipeline.

Context {E : Externals}.

(** [json.Unmarshal(body, dst)] for a destination that holds [zero]. *)
Definition Unmarshal {T} (d : dec T) (zero : T) (body : string) : option T :=
  match json_parse body with
  | None => None
  | Some j => d j zero
  end.

Definition json_error : error := LibError "encoding/json".

(** The runes that the loop of [makeRandomString] writes: draw [k] and the
    [count - 1] after it. *)
Fixpoint random_runes (seed : Z) (k count : nat) : list ascii :=
  match count with
  | O => []
  | S count' =>
      nth (Z.to_nat (rand_Intn seed k (Z.of_nat (List.length random_chars))))
        random_chars zero_byte
      :: random_runes seed (S k) count'
  end.

(** [makeRandomString]: the generator is seeded with the clock on every call. *)
Definition makeRandomString (length : Z) : M string :=
  tr <- get_trace ;;
  let seed := time_Now tr in
  emit (EvNow seed) ;;;
  ret (string_of_list_ascii (random_runes seed 0 (Z.to_nat length))).

(** [parseResponse]: the status code is not looked at. *)
Definition parseResponse (res : Response) : result_pair :=
  match BodyErr res with
  | Some e => (None, Some e)
  | None =>
      match Unmarshal dec_ErrorResponse zero_ErrorResponse (Body res) with
      | None => (None, Some json_error)
      | Some errRes =>
          if negb (String.eqb (Error errRes) "")
          then (None, Some (Errorf (Error errRes)))
          else (Some (Body res), None)
      end
  end.

(** [APIQuery]. *)
Definition APIQuery (endpoint : string) : M result_pair :=
  ctx <- get_client ;;
  let url := (Endpoint (options ctx) ++ endpoint)%string in
  tr <- get_trace ;;
  emit (EvHttp "GET" url "") ;;;
  match http_Do tr "GET" url "" with
  | inr e => ret (None, Some e)
  | inl res => ret (parseResponse res)
  end.

(** [APIMutate]: the error of [http.NewRequest] is not checked, so a nil
    request is dereferenced when the header is set. *)
Definition APIMutate (method endpoint payload : string) : M result_pair :=
  ctx <- get_client ;;
  let url := (Endpoint (options ctx) ++ endpoint)%string in
  if negb (http_NewRequest_ok method url) then panic nil_deref
  else
    tr <- get_trace ;;
    emit (EvHttp method url payload) ;;;
    match http_Do tr method url payload with
    | inr e => ret (None, Some e)
    | inl res => ret (parseResponse res)
    end.

(** Modelled from the spec: [setAccount], which is declared in another file;
    it re-fetches the account (number and sequence) from the ledger and
    stores it in the client, or returns the error of the lookup. *)
Definition setAccount : M (option error) :=
  tr <- get_trace ;;
  emit EvSetAccount ;;;
  match ledger_Account tr with
  | inr e => ret (Some e)
  | inl a => modify_client (set_account a) ;;; ret None
  end.

(** The request that [ValidateTransaction] builds and marshals; marshalling
    these structs cannot fail. *)
Definition validate_request (ctx : Client) (txn : Transaction) : string :=
  let req :=
    {| BaseReq := Some {| From := Address ctx; req_ChainId := ChainId (options ctx) |};
       req_UUID := UUID (options ctx);
       req_Key := Key txn;
       req_KeyValues := KeyValues txn;
       req_Lease := Strconv.Itoa (Lease txn);
       req_N := Strconv.Itoa (N txn);
       req_NewKey := NewKey txn;
       req_Owner := Address ctx;
       req_Value := Value txn |} in
  json_encode (enc_TransactionValidateRequest req).

(** [ValidateTransaction]. *)
Definition ValidateTransaction (txn : Transaction)
  : M (option TransactionBroadcastPayload * option error) :=
  ctx <- get_client ;;
  let reqBytes := validate_request ctx txn in
  '(body, err) <- APIMutate (ApiRequestMethod txn) (ApiRequestEndpoint txn) reqBytes ;;
  match err, body with
  | Some e, _ => ret (None, Some e)
  | None, None => ret (None, Some json_error)
  | None, Some body =>
      match Unmarshal dec_TransactionValidateResponse
              zero_TransactionValidateResponse body with
      | None => ret (None, Some json_error)
      | Some res => ret (vr_Value res, None)
      end
  end.

(** The statements of [BroadcastTransaction] under [// Set fee], for a fee
    template and a gas policy that are not nil. *)
Definition template_gas (fee : TransactionFee) : Z := fst (Strconv.Atoi (Gas fee)).

Definition template_amount (fee : TransactionFee) : outcome Z :=
  if negb (slice_len (fee_Amount fee) =? 0) then
    match fee_Amount fee with
    | Some (Some a :: _) =>
        let '(v, e) := Strconv.Atoi (Amount a) in
        Done (match e with None => v | Some _ => 0 end)
    | Some (None :: _) => Panic nil_deref
    | _ => Done 0
    end
  else Done 0.

Definition clamp_gas (gas : Z) (gasInfo : GasInfo) : Z :=
  if negb (MaxGas gasInfo =? 0) && (MaxGas gasInfo <? gas)
  then MaxGas gasInfo else gas.

Definition fee_amount (amount gas : Z) (gasInfo : GasInfo) : Z :=
  if negb (MaxFee gasInfo =? 0) then MaxFee gasInfo
  else if negb (GasPrice gasInfo =? 0) then GoInt.mul gas (GasPrice gasInfo)
  else amount.

Definition setFee (fee : TransactionFee) (gasInfo : GasInfo) : outcome TransactionFee :=
  let gas := template_gas fee in
  match template_amount fee with
  | Done amount =>
      let gas := clamp_gas gas gasInfo in
      let amount := fee_amount amount gas gasInfo in
      Done {| Gas := Strconv.Itoa gas;
              fee_Amount :=
                Some [Some {| Denom := TOKEN_NAME; Amount := Strconv.Itoa amount |}] |}
  | Panic msg => Panic msg
  | OutOfFuel => OutOfFuel
  end.

(** The hash that [SignTransaction] signs. *)
Definition signing_hash (ctx : Client) (txn : TransactionBroadcastPayload) : string :=
  let payload :=
    {| sp_AccountNumber := Strconv.Itoa (AccountNumber (account ctx));
       sp_ChainId := ChainId (options ctx);
       sp_Sequence := Strconv.Itoa (Sequence (account ctx));
       sp_Memo := Memo txn;
       sp_Fee := Fee txn;
       sp_Msgs := Msg txn |} in
  let payloadBytes := json_encode (enc_TransactionBroadcastPayloadSignPayload payload) in
  let sanitized := sanitizeString payloadBytes in
  Sha256 sanitized.

(** [SignTransaction]. *)
Definition SignTransaction (txn : TransactionBroadcastPayload)
  : M (string * option error) :=
  ctx <- get_client ;;
  let hash := signing_hash ctx txn in
  match privateKey_Sign (privateKey ctx) hash with
  | inr e => ret (""%string, Some e)
  | inl s =>
      sigBytes <- lift_outcome (serializeSig s) ;;
      ret (Base64.EncodeToString sigBytes, None)
  end.

(** The signature record that [BroadcastTransaction] attaches. *)
Definition signature_record (ctx : Client) (signature : string) : TransactionSignature :=
  {| PubKey :=
       Some {| pk_Type := "tendermint/PubKeySecp256k1";
               pk_Value :=
                 Base64.EncodeToString
                   (pubKey_SerializeCompressed (privateKey ctx)) |};
     Signature := signature;
     sig_AccountNumber := Strconv.Itoa (AccountNumber (account ctx));
     sig_Sequence := Strconv.Itoa (Sequence (account ctx)) |}.

(** The bytes that [BroadcastTransaction] posts for a payload. *)
Definition broadcast_request (txn : TransactionBroadcastPayload) : string :=
  json_encode
    (enc_TransactionBroadcastRequest {| req_Transaction := Some txn; Mode := "block" |}).

(** [BroadcastTransaction], from its first statement to the decoded
    broadcast response: one attempt. It either returns from the function
    ([inl]), or hands the payload as it was sent, the gas policy and the
    response to the rest of the function ([inr]). *)
Definition broadcast_attempt (txn : option TransactionBroadcastPayload)
  (gasInfo : option GasInfo)
  : M (result_pair
       + TransactionBroadcastPayload * GasInfo * TransactionBroadcastResponse) :=
  (* Set memo *)
  memo <- makeRandomString 32 ;;
  match txn with
  | None => panic nil_deref
  | Some txn =>
  let txn := set_Memo memo txn in
  (* Set fee *)
  match gasInfo with
  | None => ret (inl (None, Some (Errorf "gas_info is required")))
  | Some gasInfo =>
  match Fee txn with
  | None => panic nil_deref
  | Some fee =>
  fee' <- lift_outcome (setFee fee gasInfo) ;;
  let txn := set_Fee (Some fee') txn in
  (* Set signatures *)
  '(signature, err) <- SignTransaction txn ;;
  match err with
  | Some e => ret (inl (None, Some e))
  | None =>
  ctx <- get_client ;;
  let txn := set_Signatures (Some [Some (signature_record ctx signature)]) txn in
  (* Broadcast txn *)
  '(body, err) <- APIMutate "POST" TX_COMMAND (broadcast_request txn) ;;
  match err, body with
  | Some e, _ => ret (inl (None, Some e))
  | None, None => ret (inl (None, Some json_error))
  | None, Some body =>
  (* Read txn broadcast response *)
  match Unmarshal dec_TransactionBroadcastResponse
          zero_TransactionBroadcastResponse body with
  | None => ret (inl (None, Some json_error))
  | Some res => ret (inr (txn, gasInfo, res))
  end end end end end end.

Definition increment_Sequence (c : Client) : Client :=
  set_account {| AccountNumber := AccountNumber (account c);
                 Sequence := GoInt.add (Sequence (account c)) 1 |} c.

Definition increment_broadcastRetries (c : Client) : Client :=
  set_broadcastRetries (GoInt.add (broadcastRetries c) 1) c.

Definition conflict_marker : string := "signature verification failed".

(** [BroadcastTransaction]: an attempt, then the three ways to read the
    response. The function calls itself after a conflict; the first argument
    bounds the depth of these calls. *)
Fixpoint BroadcastTransaction_rec (fuel : nat)
  (txn : option TransactionBroadcastPayload) (gasInfo : option GasInfo)
  : M result_pair :=
  match fuel with
  | O => out_of_fuel
  | S fuel' =>
      a <- broadcast_attempt txn gasInfo ;;
      match a with
      | inl early => ret early
      | inr (txn, gasInfo, res) =>
          if Code res =? 0 then
            modify_client increment_Sequence ;;;
            if String.eqb (Data res) "" then ret (Some ""%string, None)
            else
              let '(decodedData, err) := Hex.DecodeString (Data res) in
              ret (Some decodedData, err)
          else if Strings.Contains (RawLog res) conflict_marker then
            modify_client increment_broadcastRetries ;;;
            ctx <- get_client ;;
            if BROADCAST_MAX_RETRIES <=? broadcastRetries ctx
            then ret (None, Some (Errorf "txn failed after max retry attempts"))
            else
              emit (EvSleep BROADCAST_RETRY_INTERVAL) ;;;
              (* Lookup changed sequence *)
              err <- setAccount ;;
              match err with
              | Some e => ret (None, Some e)
              | None => BroadcastTransaction_rec fuel' (Some txn) (Some gasInfo)
              end
          else ret (None, Some (Errorf (RawLog res)))
      end
  end.

(** The calls [BroadcastTransaction] can make to itself before the counter
    reaches [BROADCAST_MAX_RETRIES], the first call included. *)
Definition retry_budget (retries : Z) : nat :=
  S (Z.to_nat (BROADCAST_MAX_RETRIES - 1 - retries)).

Definition BroadcastTransaction (txn : option TransactionBroadcastPayload)
  (gasInfo : option GasInfo) : M result_pair :=
  ctx <- get_client ;;
  BroadcastTransaction_rec (retry_budget (broadcastRetries ctx)) txn gasInfo.

Definition set_txn_broadcastRetries (r : Z) (t : Transaction) : Transaction :=
  {| Key := Key t; KeyValues := KeyValues t; Lease := Lease t; N := N t;
     NewKey := NewKey t; Value := Value t;
     ApiRequestMethod := ApiRequestMethod t;
     ApiRequestEndpoint := ApiRequestEndpoint t;
     txn_GasInfo := txn_GasInfo t;
     result := result t; err := err t; txn_broadcastRetries := r |}.

Definition set_txn_outcome (res : option string) (e : option error)
  (t : Transaction) : Transaction :=
  {| Key := Key t; KeyValues := KeyValues t; Lease := Lease t; N := N t;
     NewKey := NewKey t; Value := Value t;
     ApiRequestMethod := ApiRequestMethod t;
     ApiRequestEndpoint := ApiRequestEndpoint t;
     txn_GasInfo := txn_GasInfo t;
     result := res; err := e;
     txn_broadcastRetries := txn_broadcastRetries t |}.

(** [ProcessTransaction]: the counter it resets is the record's, not the
    client's. The record is returned in place of the send on [txn.done]. *)
Definition ProcessTransaction (txn : Transaction) : M Transaction :=
  let txn := set_txn_broadcastRetries 0 txn in
  '(payload, err) <- ValidateTransaction txn ;;
  '(result, err) <-
     match err with
     | None => BroadcastTransaction payload (txn_GasInfo txn)
     | Some _ => ret (None, err)
     end ;;
  ret (set_txn_outcome result err txn).

(** Modelled from the spec: the worker that drains [ctx.transactions], which
    is started in another file; it handles exactly one record at a time, so a
    record put on the channel is run through [ProcessTransaction] to its
    end before the next one. *)
Definition worker (txn : Transaction) : M Transaction := ProcessTransaction txn.

(** [SendTransaction]: the record goes to the worker; the caller waits on
    [txn.done], which the worker always sends [true] on, and returns the
    result and the error of the record. *)
Definition SendTransaction (txn : Transaction) : M result_pair :=
  txn <- worker txn ;;
  ret (result txn, err txn).

(** Submitting several records one after the other; the results in order. *)
Fixpoint SendTransactions (txns : list Transaction) : M (list result_pair) :=
  match txns with
  | [] => ret []
  | t :: ts =>
      r <- SendTransaction t ;;
      rs <- SendTransactions ts ;;
      ret (r :: rs)
  end.

End Pipeline.

(** ** Reading traces *)

Definition is_http (method url : string) (e : event) : bool :=
  match e with
  | EvHttp m u _ => String.eqb m method && String.eqb u url
  | _ => false
  end.

Definition is_any_http (e : event) : bool :=
  match e with
  | EvHttp _ _ _ => true
  | _ => false
  end.

Definition is_setAccount (e : event) : bool :=
  match e with
  | EvSetAccount => true
  | _ => false
  end.

Definition is_sleep (e : event) : bool :=
  match e with
  | EvSleep _ => true
  | _ => false
  end.

Definition count (p : event -> bool) (tr : list event) : nat :=
  List.length (filter p tr).

(** The events of [n] attempts that all but the last end in a retry: before
    each attempt the clock is read for the memo; after each but the last the
    client sleeps for the retry interval and then looks the account up. *)
Inductive retry_trace (url : string) : nat -> list event -> Prop :=
| retry_last t body :
    retry_trace url 1 [EvNow t; EvHttp "POST" url body]
| retry_more n t body evs :
    retry_trace url n evs ->
    retry_trace url (S n)
      ([EvNow t; EvHttp "POST" url body; EvSleep BROADCAST_RETRY_INTERVAL;
        EvSetAccount] ++ evs)%list.

(** ** Words for the properties *)

(** A big-endian number of at most 32 bytes, in a field of 32 bytes. *)
Definition left_pad32 (b : bytes) : bytes :=
  (repeat zero_byte (32 - List.length b) ++ b)%list.

(** Whether the decoder stores the member [key] in the field named [name]
    of a struct whose field names are all distinct up to case. *)
Definition key_matches (name key : string) : bool :=
  String.eqb name key || equalFold name key.

(** The members of an object that go to the field [name], in order. *)
Definition members_for (name : string) (ms : list (string * json))
  : list (string * json) :=
  filter (fun kv => key_matches name (fst kv)) ms.

Definition error_fields : fields ErrorResponse :=
  [fld "error" dec_string Error (fun v _ => {| Error := v |})].

Definition validate_fields : fields TransactionValidateResponse :=
  [fld "type" dec_string vr_Type
     (fun v r => {| vr_Type := v; vr_Value := vr_Value r |});
   fld "value"
     (dec_ptr zero_TransactionBroadcastPayload dec_TransactionBroadcastPayload)
     vr_Value
     (fun v r => {| vr_Type := vr_Type r; vr_Value := v |})].

Definition string_or_null (j : json) : Prop :=
  match j with
  | JStr _ | JNull => True
  | _ => False
  end.

Section Vocabulary.

Context {E : Externals}.

(** The state after one more event. *)
Definition log (e : event) (s : State) : State :=
  {| client := client s; trace := (trace s ++ [e])%list |}.

(** The memo an attempt writes when the clock reads [seed]. *)
Definition memo_of_seed (seed : Z) : string :=
  string_of_list_ascii (random_runes seed 0 32).

Definition txs_url (s : State) : string :=
  (Endpoint (options (client s)) ++ TX_COMMAND)%string.

(** The payload an attempt sends: the record it was given with the new memo,
    the resolved fee and the signature. *)
Definition sent_payload (s : State) (p : TransactionBroadcastPayload)
  (fee' : TransactionFee) (signature : string) : TransactionBroadcastPayload :=
  set_Signatures (Some [Some (signature_record (client s) signature)])
    (set_Fee (Some fee') (set_Memo (memo_of_seed (time_Now (trace s))) p)).

Definition sequence_of (s : State) : Z := Sequence (account (client s)).

Definition resyncs (tr : list event) : nat := count is_setAccount tr.

(** The URL a record is validated at. *)
Definition validate_url (s : State) (txn : Transaction) : string :=
  (Endpoint (options (client s)) ++ ApiRequestEndpoint txn)%string.

(** The state once the validate request of a record has gone out. *)
Definition validated (s : State) (txn : Transaction) : State :=
  log (EvHttp (ApiRequestMethod txn) (validate_url s txn)
         (validate_request (client s) txn)) s.

(** A response that [BroadcastTransaction] reads as a conflict: no error
    envelope, a code that is not zero and the marker in the log. *)
Definition conflict_response (res : Response) : Prop :=
  exists r,
    parseResponse res = (Some (Body res), None)
    /\ Unmarshal dec_TransactionBroadcastResponse
         zero_TransactionBroadcastResponse (Body res) = Some r
    /\ Code r <> 0
    /\ Strings.Contains (RawLog r) conflict_marker = true.

Definition always_conflict (url : string) : Prop :=
  http_NewRequest_ok "POST" url = true
  /\ forall tr body, exists res,
       http_Do tr "POST" url body = inl res /\ conflict_response res.

(** The key signs every hash, with numbers of at most 32 bytes. *)
Definition signer_ok (key : Z) : Prop :=
  forall hash, exists sg,
    privateKey_Sign key hash = inl sg
    /\ (List.length (Big.Bytes (sigR sg)) <= 32)%nat
    /\ (List.length (Big.Bytes (sigS sg)) <= 32)%nat.

Definition ledger_answers : Prop :=
  forall tr, exists a, ledger_Account tr = inl a.

(** A payload whose fee the fee statements can read. *)
Definition fee_readable (p : TransactionBroadcastPayload) : Prop :=
  exists fee a0, Fee p = Some fee /\ template_amount fee = Done a0.

(** The validate endpoint at [url] always answers with a payload. *)
Definition always_validates (method url : string) : Prop :=
  http_NewRequest_ok method url = true
  /\ forall tr body, exists res r p,
       http_Do tr method url body = inl res
       /\ parseResponse res = (Some (Body res), None)
       /\ Unmarshal dec_TransactionValidateResponse
            zero_TransactionValidateResponse (Body res) = Some r
       /\ vr_Value r = Some p
       /\ fee_readable p.

Definition exhausted : result_pair :=
  (None, Some (Errorf "txn failed after max retry attempts")).

(** The state the loop leaves behind keeps the key and the options. *)
Definition same_identity (c c' : Client) : Prop :=
  privateKey c' = privateKey c /\ options c' = options c.

(** The attempts a submission makes against such a ledger when the counter
    of the client stands at [retries]. *)
Definition attempts_left (retries : Z) : nat :=
  Z.to_nat (Z.max 1 (BROADCAST_MAX_RETRIES - retries)).

End Vocabulary.

(** ** Example worlds

    Concrete libraries and ledgers, on which the pipeline can be run. *)

Module Scenario.

Definition dq : string := String (ascii_of_nat 34) EmptyString.

(** JSON text of a syntax tree (strings are written without escapes). *)
Fixpoint render (j : json) : string :=
  match j with
  | JNull => "null"
  | JBool true => "true"
  | JBool false => "false"
  | JInt n => Strconv.Itoa n
  | JFrac l => l
  | JStr s => dq ++ s ++ dq
  | JArr xs =>
      "[" ++ (fix elems (l : list json) : string :=
                match l with
                | [] => ""
                | [x] => render x
                | x :: l' => render x ++ "," ++ elems l'
                end) xs ++ "]"
  | JObj ms =>
      "{" ++ (fix members (l : list (string * json)) : string :=
                match l with
                | [] => ""
                | [(k, v)] => dq ++ k ++ dq ++ ":" ++ render v
                | (k, v) :: l' => dq ++ k ++ dq ++ ":" ++ render v ++ "," ++ members l'
                end) ms ++ "}"
  end%string.

(** A reader that knows the texts of the given trees and no other. *)
Definition parse_known (known : list json) (text : string) : option json :=
  find (fun j => String.eqb (render j) text) known.

(** The template a validate endpoint answers with: gas 50, fee 7 ubnt. *)
Definition template : json :=
  JObj [("type", JStr "cosmos-sdk/StdTx");
        ("value",
         JObj [("msg", JArr [JObj [("type", JStr "crud/create");
                                   ("value", JObj [("Key", JStr "k");
                                                   ("Owner", JStr "bluzelle1");
                                                   ("UUID", JStr "uuid")])]]);
               ("fee", JObj [("amount", JArr [JObj [("denom", JStr "ubnt");
                                                    ("amount", JStr "7")]]);
                             ("gas", JStr "50")]);
               ("signatures", JNull);
               ("memo", JStr "")])].

Definition conflict : json :=
  JObj [("height", JStr "0"); ("txhash", JStr "DEE2"); ("code", JInt 4);
        ("raw_log",
         JStr "unauthorized: signature verification failed; verify correct account sequence and chain-id")].

Definition success : json :=
  JObj [("height", JStr "0"); ("txhash", JStr "3F59"); ("raw_log", JStr "[]")].

Definition success_with (data : string) : json :=
  JObj [("height", JStr "0"); ("txhash", JStr "3F59"); ("data", JStr data);
        ("raw_log", JStr "[]")].

Definition error_envelope (msg : string) : json := JObj [("error", JStr msg)].

Definition no_value : json := JObj [("type", JStr "cosmos-sdk/StdTx")].

Definition known_texts : list json :=
  [template; conflict; success; success_with "48656c6c6f"; success_with "4z";
   error_envelope "X"; no_value].

Definition ok (status : Z) (j : json) : Response + error :=
  inl {| StatusCode := status; Body := render j; BodyErr := None |}.

Definition account0 : Account := {| AccountNumber := 3; Sequence := 41 |}.

(** A world: a clock, what the validate endpoint and [/txs] answer, and the
    ledger's account. The generator depends on the seed through its residue
    modulo 2^31 - 1 only, as the generator of [math/rand] does. *)
Definition world (clock : list event -> Z)
  (validate broadcast : list event -> Response + error)
  (ledger : list event -> Account + error) : Externals :=
  {| json_parse := parse_known known_texts;
     json_encode := render;
     sanitizeString := fun s => s;
     Sha256 := fun s => s;
     privateKey_Sign := fun k _ => inl {| sigR := 258; sigS := k |};
     pubKey_SerializeCompressed := fun k => Big.Bytes k;
     rand_Intn := fun seed k n => ((seed mod 2147483647) * 31 + Z.of_nat k * 17) mod n;
     rand_Intn_range :=
       fun seed k n H =>
         Z.mod_pos_bound ((seed mod 2147483647) * 31 + Z.of_nat k * 17) n H;
     time_Now := clock;
     http_NewRequest_ok := fun _ _ => true;
     http_Do := fun tr _ url _ =>
       if String.eqb url "http://localhost:1317/txs" then broadcast tr else validate tr;
     ledger_Account := ledger |}.

Definition client0 : Client :=
  {| options := {| Endpoint := "http://localhost:1317"; ChainId := "bluzelle";
                   UUID := "uuid" |};
     Address := "bluzelle1";
     account := account0;
     privateKey := 77;
     broadcastRetries := 0 |}.

Definition state0 : State := {| client := client0; trace := [] |}.

Definition gas0 : GasInfo := {| MaxGas := 30; MaxFee := 0; GasPrice := 5 |}.

(** A create of key [k], with or without a gas policy. *)
Definition create (gasInfo : option GasInfo) : Transaction :=
  {| Key := "k"; KeyValues := None; Lease := 0; N := 0; NewKey := ""; Value := "v";
     ApiRequestMethod := "POST"; ApiRequestEndpoint := "/crud/create";
     txn_GasInfo := gasInfo; result := None; err := None;
     txn_broadcastRetries := 0 |}.

(** The payload of [template], as [ValidateTransaction] decodes it. *)
Definition payload0 : TransactionBroadcastPayload :=
  {| Fee := Some {| fee_Amount := Some [Some {| Amount := "7"; Denom := "ubnt" |}];
                    Gas := "50" |};
     Memo := "";
     Msg := Some [Some {| msg_Type := "crud/create";
                          msg_Value :=
                            Some {| mv_Key := "k"; mv_KeyValues := None;
                                    mv_Lease := ""; mv_N := ""; mv_NewKey := "";
                                    mv_Owner := "bluzelle1"; mv_UUID := "uuid";
                                    mv_Value := "" |} |}];
     Signatures := None |}.

(** The responses [conflict] and [success_with], decoded. *)
Definition conflict_decoded : TransactionBroadcastResponse :=
  {| Height := "0"; TxHash := "DEE2"; Data := ""; Codespace := ""; Code := 4;
     RawLog := "unauthorized: signature verification failed; verify correct account sequence and chain-id";
     GasWanted := "" |}.

Definition success_decoded (data : string) : TransactionBroadcastResponse :=
  {| Height := "0"; TxHash := "3F59"; Data := data; Codespace := ""; Code := 0;
     RawLog := "[]"; GasWanted := "" |}.

(** A clock that starts at [t0] and is a given time further at each reading. *)
Definition ticking (t0 step : Z) (tr : list event) : Z :=
  t0 + step * Z.of_nat (List.length (filter (fun e => match e with EvNow _ => true | _ => false end) tr)).

Definition always {A} (a : A) (tr : list event) : A := a.

End Scenario.

(** The worlds that the properties are tried on. *)

Module Runs.

Import Scenario.

(** The ledger reports a conflict, whatever is sent. *)
Definition W_conflict : Externals :=
  world (ticking 1000 1) (always (ok 200 template)) (always (ok 200 conflict))
    (always (inl account0)).

(** The ledger accepts every transaction. *)
Definition W_success : Externals :=
  world (ticking 1000 1) (always (ok 200 template)) (always (ok 200 success))
    (always (inl account0)).

(** The ledger accepts, and answers with data that is not hexadecimal. *)
Definition W_bad_data : Externals :=
  world (ticking 1000 1) (always (ok 200 template))
    (always (ok 200 (success_with "4z"))) (always (inl account0)).

(** The validate endpoint leaves the payload out. *)
Definition W_no_value : Externals :=
  world (ticking 1000 1) (always (ok 200 no_value)) (always (ok 200 success))
    (always (inl account0)).

(** Every endpoint answers with an error envelope: [/txs] under status 200,
    the others under status 500. *)
Definition W_error : Externals :=
  world (ticking 1000 1) (always (ok 500 (error_envelope "X")))
    (always (ok 200 (error_envelope "X"))) (always (inl account0)).

(** One conflict, then success; 2147483647 ns pass from one reading of the
    clock to the next, so the two seeds are equal modulo 2^31 - 1. *)
Definition W_collide : Externals :=
  world (ticking 1000 2147483647) (always (ok 200 template))
    (fun tr => if (0 <? count is_setAccount tr)%nat
               then ok 200 success else ok 200 conflict)
    (always (inl account0)).

End Runs.

Import Scenario Runs.

(** ** A caller: the key-value listing *)

Section KeyValues.

Context {E : Externals}.

(** The result struct of the listing and its element type are declared in
    another file; they are taken as they come, with the decoder that
    [encoding/json] derives for the struct and the field that is returned. *)
Variable KeyValuesResponseResult : Type.
Variable KeyValuesResponseResultKeyValue : Type.
Variable zero_KeyValuesResponseResult : KeyValuesResponseResult.
Variable dec_KeyValuesResponseResult : dec KeyValuesResponseResult.
Variable res_KeyValues :
  KeyValuesResponseResult -> option (list (option KeyValuesResponseResultKeyValue)).

(** The record that [TxKeyValues] submits; the fields it does not name hold
    their zero values. (The literal also names a field [Client], which the
    [Transaction] struct of the transaction file does not declare; it is left
    out.) *)
Definition keyvalues_transaction (gasInfo : option GasInfo) : Transaction :=
  {| Key := ""; KeyValues := None; Lease := 0; N := 0; NewKey := ""; Value := "";
     ApiRequestMethod := "POST"; ApiRequestEndpoint := "/crud/keyvalues";
     txn_GasInfo := gasInfo; result := None; err := None;
     txn_broadcastRetries := 0 |}.

(** [TxKeyValues]. Unmarshalling a nil slice fails like unmarshalling an
    empty one. *)
Definition TxKeyValues (gasInfo : option GasInfo)
  : M (option (list (option KeyValuesResponseResultKeyValue)) * option error) :=
  '(body, err) <- SendTransaction (keyvalues_transaction gasInfo) ;;
  match err with
  | Some e => ret (None, Some e)
  | None =>
      match match body with
            | Some body =>
                Unmarshal dec_KeyValuesResponseResult zero_KeyValuesResponseResult body
            | None => None
            end with
      | None => ret (None, Some json_error)
      | Some res => ret (res_KeyValues res, None)
      end
  end.

End KeyValues.

(** ** More words for the properties *)

(** The number that bytes denote, most significant byte first. *)
Fixpoint be_value (l : bytes) : Z :=
  match l with
  | [] => 0
  | b :: l' => byte_val b * 256 ^ Z.of_nat (List.length l') + be_value l'
  end.

(** The events of a run: what the trace has gained. *)
Definition gained (p : event -> bool) (s s' : State) : Z :=
  Z.of_nat (count p (trace s')) - Z.of_nat (count p (trace s)).

(** What a submission may do to a client whose retry counter stood at
    [broadcastRetries (client s)]: so many requests, fewer sleeps, an account
    lookup after each sleep, a counter that has grown by the number of sleeps
    or by one more, and the key, the options and the address as they were. *)
Definition within_budget (s s' : State) : Prop :=
  gained is_any_http s s' <= Z.of_nat (attempts_left (broadcastRetries (client s)))
  /\ 0 <= gained is_sleep s s' < Z.of_nat (attempts_left (broadcastRetries (client s)))
  /\ gained is_setAccount s s' = gained is_sleep s s'
  /\ broadcastRetries (client s) + gained is_sleep s s'
     <= broadcastRetries (client s')
     <= broadcastRetries (client s) + gained is_sleep s s' + 1
  /\ same_identity (client s) (client s')
  /\ Address (client s') = Address (client s).

(** ** More example worlds *)

Module MoreRuns.

Import Scenario.

(** A response with a code that is not zero and no conflict marker. *)
Definition fatal : json :=
  JObj [("height", JStr "0"); ("txhash", JStr "AB12"); ("code", JInt 5);
        ("raw_log", JStr "insufficient fee")].

Definition fatal_decoded : TransactionBroadcastResponse :=
  {| Height := "0"; TxHash := "AB12"; Data := ""; Codespace := ""; Code := 5;
     RawLog := "insufficient fee"; GasWanted := "" |}.

(** A response without a code, whose log reports a failed signature check. *)
Definition no_code : json :=
  JObj [("height", JStr "0"); ("txhash", JStr "77AA");
        ("raw_log", JStr "signature verification failed")].

Definition no_code_decoded : TransactionBroadcastResponse :=
  {| Height := "0"; TxHash := "77AA"; Data := ""; Codespace := ""; Code := 0;
     RawLog := "signature verification failed"; GasWanted := "" |}.

(** A world like [world], with a signer and a request check of its own. *)
Definition world_of (sign : Z -> string -> ecdsaSignature + error)
  (request_ok : string -> string -> bool)
  (validate broadcast : list event -> Response + error)
  (ledger : list event -> Account + error) : Externals :=
  {| json_parse := parse_known (fatal :: no_code :: known_texts);
     json_encode := render;
     sanitizeString := fun s => s;
     Sha256 := fun s => s;
     privateKey_Sign := sign;
     pubKey_SerializeCompressed := fun k => Big.Bytes k;
     rand_Intn := fun seed k n => ((seed mod 2147483647) * 31 + Z.of_nat k * 17) mod n;
     rand_Intn_range :=
       fun seed k n H =>
         Z.mod_pos_bound ((seed mod 2147483647) * 31 + Z.of_nat k * 17) n H;
     time_Now := ticking 1000 1;
     http_NewRequest_ok := request_ok;
     http_Do := fun tr _ url _ =>
       if String.eqb url "http://localhost:1317/txs" then broadcast tr else validate tr;
     ledger_Account := ledger |}.

Definition good_signer (k : Z) (hash : string) : ecdsaSignature + error :=
  inl {| sigR := 258; sigS := k |}.

Definition any_request (method url : string) : bool := true.

(** The ledger turns the transaction down for a reason that is no conflict. *)
Definition W_fatal : Externals :=
  world_of good_signer any_request (always (ok 200 template))
    (always (ok 200 fatal)) (always (inl account0)).

(** The ledger reports a conflict, and the account cannot be looked up. *)
Definition W_ledger_down : Externals :=
  world_of good_signer any_request (always (ok 200 template))
    (always (ok 200 conflict)) (always (inr (LibError "account lookup failed"))).

(** The key cannot sign. *)
Definition W_sign_fails : Externals :=
  world_of (fun _ _ => inr (LibError "signing failed")) any_request
    (always (ok 200 template)) (always (ok 200 success)) (always (inl account0)).

(** The validate endpoint cannot be reached. *)
Definition W_validate_down : Externals :=
  world_of good_signer any_request (always (inr (LibError "connection refused")))
    (always (ok 200 success)) (always (inl account0)).

(** One conflict, then success; the ledger says the sequence is 50. *)
Definition W_resync : Externals :=
  world_of good_signer any_request (always (ok 200 template))
    (fun tr => if (0 <? count is_setAccount tr)%nat
               then ok 200 success else ok 200 conflict)
    (always (inl {| AccountNumber := 3; Sequence := 50 |})).

(** The ledger answers without a code. *)
Definition W_no_code : Externals :=
  world_of good_signer any_request (always (ok 200 template))
    (always (ok 200 no_code)) (always (inl account0)).

(** Only the methods GET and POST make a request. *)
Definition W_strict_methods : Externals :=
  world_of good_signer
    (fun method _ => String.eqb method "GET" || String.eqb method "POST")
    (always (ok 200 template)) (always (ok 200 success)) (always (inl account0)).

(** A record with a method that is no HTTP method. *)
Definition odd_method : Transaction :=
  {| Key := "k"; KeyValues := None; Lease := 0; N := 0; NewKey := ""; Value := "v";
     ApiRequestMethod := "PO ST"; ApiRequestEndpoint := "/crud/create";
     txn_GasInfo := Some gas0; result := None; err := None;
     txn_broadcastRetries := 0 |}.

(** A result struct for the listing: one field, [keyvalues], a slice of
    pointers to key-value pairs. *)
Definition listing : Type := option (list (option KeyValue)).

Definition dec_listing : dec listing :=
  dec_struct
    [fld "keyvalues" (dec_slice None (dec_ptr zero_KeyValue dec_KeyValue))
       (fun r : listing => r) (fun v _ => v)].

End MoreRuns.

Import MoreRuns.

(** * Properties *)

(** ** Machine integers *)

Module GoIntFacts.

Import GoInt.

Lemma wrap64_id z : in_range z -> wrap64 z = z.
Proof.
  unfold in_range, min_int, max_int, wrap64. intros H.
  rewrite Z.mod_small; lia.
Qed.

Lemma wrap64_range z : in_range (wrap64 z).
Proof.
  unfold in_range, min_int, max_int, wrap64.
  pose proof (Z.mod_pos_bound (z + 2 ^ 63) (2 ^ 64) ltac:(lia)). lia.
Qed.

Lemma wrap64_eqm a b : (a - b) mod 2 ^ 64 = 0 -> wrap64 a = wrap64 b.
Proof.
  unfold wrap64. intros H. f_equal.
  apply Z.mod_divide in H; [|lia]. destruct H as [k Hk].
  replace (a + 2 ^ 63) with (b + 2 ^ 63 + k * 2 ^ 64) by lia.
  apply Z.mod_add. lia.
Qed.

Lemma wrap64_congr z : (wrap64 z - z) mod 2 ^ 64 = 0.
Proof.
  unfold wrap64.
  rewrite (Z.mod_eq (z + 2 ^ 63) (2 ^ 64)) by lia.
  replace (z + 2 ^ 63 - 2 ^ 64 * ((z + 2 ^ 63) / 2 ^ 64) - 2 ^ 63 - z)
    with ((- ((z + 2 ^ 63) / 2 ^ 64)) * 2 ^ 64) by lia.
  apply Z.mod_mul. lia.
Qed.

Lemma wrap64_mul_l a b : wrap64 (wrap64 a * b) = wrap64 (a * b).
Proof.
  apply wrap64_eqm.
  pose proof (wrap64_congr a) as H.
  apply Z.mod_divide in H; [|lia]. destruct H as [k Hk].
  replace (wrap64 a * b - a * b) with ((k * b) * 2 ^ 64) by nia.
  apply Z.mod_mul. lia.
Qed.

Lemma wrap64_add_l a b : wrap64 (wrap64 a + b) = wrap64 (a + b).
Proof.
  apply wrap64_eqm.
  pose proof (wrap64_congr a) as H.
  replace (wrap64 a + b - (a + b)) with (wrap64 a - a) by lia. exact H.
Qed.

Lemma wrap64_add_r a b : wrap64 (a + wrap64 b) = wrap64 (a + b).
Proof. rewrite Z.add_comm, wrap64_add_l. f_equal. lia. Qed.

Lemma wrap64_ex z : exists k, wrap64 z = z + k * 2 ^ 64.
Proof.
  pose proof (wrap64_congr z) as H.
  apply Z.mod_divide in H; [|lia]. destruct H as [k Hk].
  exists k. lia.
Qed.

Lemma wrap64_sum4 a b c d :
  wrap64 (wrap64 (wrap64 (wrap64 a + wrap64 b) + wrap64 c) + d)
  = wrap64 (a + b + c + d).
Proof.
  destruct (wrap64_ex a) as [k1 ->].
  destruct (wrap64_ex b) as [k2 ->].
  destruct (wrap64_ex c) as [k3 ->].
  destruct (wrap64_ex (a + k1 * 2 ^ 64 + (b + k2 * 2 ^ 64))) as [k4 ->].
  destruct (wrap64_ex (a + k1 * 2 ^ 64 + (b + k2 * 2 ^ 64) + k4 * 2 ^ 64
                       + (c + k3 * 2 ^ 64))) as [k5 ->].
  apply wrap64_eqm.
  match goal with |- ?e mod _ = 0 =>
    replace e with ((k1 + k2 + k3 + k4 + k5) * 2 ^ 64) by lia end.
  apply Z.mod_mul. lia.
Qed.

Lemma quot_pos_range a b : in_range a -> 0 < b -> in_range (Z.quot a b).
Proof.
  unfold in_range, min_int, max_int. intros Ha Hb.
  destruct (Z.le_gt_cases 0 a) as [Hna | Hneg].
  - rewrite Z.quot_div_nonneg by lia.
    pose proof (Z.div_pos a b Hna Hb).
    pose proof (Z.div_le_upper_bound a b a Hb ltac:(nia)). lia.
  - replace a with (- (- a)) by lia.
    rewrite Z.quot_opp_l by lia.
    rewrite Z.quot_div_nonneg by lia.
    pose proof (Z.div_pos (- a) b ltac:(lia) Hb).
    pose proof (Z.div_le_upper_bound (- a) b (- a) Hb ltac:(nia)). lia.
Qed.

End GoIntFacts.

Lemma ToBlocks_wrap lease :
  ToBlocks lease = Z.quot (GoInt.wrap64 (total_seconds lease)) 5.
Proof.
  unfold ToBlocks, total_seconds, GoInt.quo, GoInt.add, GoInt.mul,
    BLOCK_TIME_IN_SECONDS.
  set (d := Days lease). set (h := Hours lease).
  set (m := Minutes lease). set (s := Seconds lease).
  rewrite (GoIntFacts.wrap64_mul_l (d * 24) 60), (GoIntFacts.wrap64_mul_l (d * 24 * 60) 60).
  rewrite (GoIntFacts.wrap64_mul_l (h * 60) 60).
  rewrite Z.add_0_l.
  rewrite (GoIntFacts.wrap64_id (GoInt.wrap64 _)) by apply GoIntFacts.wrap64_range.
  rewrite GoIntFacts.wrap64_sum4.
  replace (d * 24 * 60 * 60 + h * 60 * 60 + m * 60 + s)
    with (d * 86400 + h * 3600 + m * 60 + s) by lia.
  apply GoIntFacts.wrap64_id, GoIntFacts.quot_pos_range; [apply GoIntFacts.wrap64_range | lia].
Qed.

Ltac break_run H :=
  match type of H with
  | context [match ?x with _ => _ end] => destruct x eqn:?
  | context [if ?x then _ else _] => destruct x eqn:?
  end.

(** ** The library models on examples *)

Example Atoi_examples :
  Strconv.Atoi "50" = (50, None)
  /\ Strconv.Atoi "-12" = (-12, None)
  /\ Strconv.Atoi "+7" = (7, None)
  /\ Strconv.Atoi "" = (0, Some Strconv.ErrSyntax)
  /\ Strconv.Atoi "1x" = (0, Some Strconv.ErrSyntax)
  /\ Strconv.Atoi "9223372036854775808" = (GoInt.max_int, Some Strconv.ErrRange)
  /\ Strconv.Atoi "-9223372036854775808" = (GoInt.min_int, None).
Proof. repeat apply conj; vm_compute; reflexivity. Qed.

Example Itoa_examples :
  Strconv.Itoa 0 = "0"
  /\ Strconv.Itoa 30 = "30"
  /\ Strconv.Itoa (-45) = "-45"
  /\ Strconv.Itoa GoInt.min_int = "-9223372036854775808"
  /\ Strconv.Itoa (2 ^ 64 - 1) = "18446744073709551615".
Proof. repeat apply conj; vm_compute; reflexivity. Qed.

Example hex_examples :
  Hex.DecodeString "48656c6C6f" = ("Hello", None)
  /\ Hex.DecodeString "486" = ("H", Some Hex.ErrLength)
  /\ Hex.DecodeString "48zz" = ("H", Some Hex.InvalidByteError)
  /\ Hex.DecodeString "4z" = ("", Some Hex.InvalidByteError).
Proof. repeat apply conj; vm_compute; reflexivity. Qed.

Example base64_examples :
  Base64.EncodeToString (list_ascii_of_string "Hello") = "SGVsbG8="
  /\ Base64.DecodeString "SGVsbG8h" = Some (list_ascii_of_string "Hello!")
  /\ Base64.DecodeString "SGVsbG8" = None.
Proof. repeat apply conj; vm_compute; reflexivity. Qed.

Example big_Bytes_examples :
  Big.Bytes 0 = []
  /\ Big.Bytes 255 = [byte_of 255]
  /\ Big.Bytes 256 = [byte_of 1; byte_of 0]
  /\ Big.Bytes (-258) = [byte_of 1; byte_of 2].
Proof. repeat apply conj; vm_compute; reflexivity. Qed.

Example Contains_examples :
  Strings.Contains
    "unauthorized: signature verification failed; verify correct account sequence"
    conflict_marker = true
  /\ Strings.Contains "insufficient fee" conflict_marker = false
  /\ Strings.Contains "abc" "" = true.
Proof. repeat apply conj; vm_compute; reflexivity. Qed.

(** Keys are matched to field names without regard to case; a value of the
    wrong type is an error of the decoding. *)
Example decoding_examples :
  dec_ErrorResponse (JObj [("Error", JStr "X")]) zero_ErrorResponse
  = Some {| Error := "X" |}
  /\ dec_ErrorResponse (JObj [("error", JStr "X"); ("error", JStr "")])
       zero_ErrorResponse
     = Some {| Error := "" |}
  /\ dec_ErrorResponse (JObj [("error", JInt 5)]) zero_ErrorResponse = None
  /\ dec_ErrorResponse (JArr []) zero_ErrorResponse = None
  /\ dec_TransactionBroadcastResponse (JObj [("code", JFrac "4.0")])
       zero_TransactionBroadcastResponse = None
  /\ dec_TransactionValidateResponse (JObj [("value", JNull)])
       zero_TransactionValidateResponse
     = Some {| vr_Type := ""; vr_Value := None |}.
Proof. repeat apply conj; vm_compute; reflexivity. Qed.

(** ** Lease conversion *)

(** C8. For every lease, [ToBlocks] is the duration in seconds, as the
    [int64] sum that the code computes, divided by the block time of 5
    seconds and rounded toward zero. When the duration fits an [int64] this
    is (days*86400 + hours*3600 + minutes*60 + seconds) / 5, truncated; one
    day is 17280 blocks. *)
Theorem ToBlocks_is_truncated_quotient :
  (forall lease,
      ToBlocks lease
      = Z.quot (GoInt.wrap64 (total_seconds lease)) BLOCK_TIME_IN_SECONDS)
  /\ (forall lease,
         GoInt.in_range (total_seconds lease) ->
         ToBlocks lease = Z.quot (total_seconds lease) BLOCK_TIME_IN_SECONDS)
  /\ ToBlocks {| Days := 1; Hours := 0; Minutes := 0; Seconds := 0 |} = 17280.
Proof.
  split; [|split].
  - intros lease. apply ToBlocks_wrap.
  - intros lease Hfit.
    rewrite ToBlocks_wrap, GoIntFacts.wrap64_id by exact Hfit.
    reflexivity.
  - rewrite ToBlocks_wrap. reflexivity.
Qed.

Lemma ToBlocks_is_truncated_quotient_witness :
  GoInt.in_range (total_seconds {| Days := 0; Hours := 0; Minutes := -1; Seconds := 3 |})
  /\ ToBlocks {| Days := 0; Hours := 0; Minutes := -1; Seconds := 3 |} = -11.
Proof.
  split.
  - unfold GoInt.in_range; vm_compute; split; discriminate.
  - rewrite (proj1 (proj2 ToBlocks_is_truncated_quotient)).
    + reflexivity.
    + unfold GoInt.in_range; vm_compute; split; discriminate.
Defined.

(** ** Fee resolution *)

Lemma clamp_gas_cases gas gasInfo :
  (MaxGas gasInfo <> 0 /\ MaxGas gasInfo < gas -> clamp_gas gas gasInfo = MaxGas gasInfo)
  /\ (~ (MaxGas gasInfo <> 0 /\ MaxGas gasInfo < gas) -> clamp_gas gas gasInfo = gas).
Proof.
  unfold clamp_gas.
  destruct (Z.eqb_spec (MaxGas gasInfo) 0) as [E | E];
    destruct (Z.ltb_spec (MaxGas gasInfo) gas) as [L | L];
    cbv beta iota delta [negb andb]; split; intros H;
    try reflexivity; try (destruct H; congruence || lia); exfalso; apply H; split;
    assumption.
Qed.

Lemma fee_amount_cases amount gas gasInfo :
  (MaxFee gasInfo <> 0 -> fee_amount amount gas gasInfo = MaxFee gasInfo)
  /\ (MaxFee gasInfo = 0 -> GasPrice gasInfo <> 0 ->
      fee_amount amount gas gasInfo = GoInt.wrap64 (gas * GasPrice gasInfo))
  /\ (MaxFee gasInfo = 0 -> GasPrice gasInfo = 0 ->
      fee_amount amount gas gasInfo = amount).
Proof.
  unfold fee_amount, GoInt.mul.
  destruct (Z.eqb_spec (MaxFee gasInfo) 0) as [E | E];
    destruct (Z.eqb_spec (GasPrice gasInfo) 0) as [P | P];
    cbv beta iota delta [negb];
    (split; [|split]); intros; first [contradiction | reflexivity].
Qed.

Lemma template_amount_cases fee a0 :
  template_amount fee = Done a0 ->
  (slice_len (fee_Amount fee) = 0 -> a0 = 0)
  /\ (forall a rest, fee_Amount fee = Some (Some a :: rest) ->
      a0 = match snd (Strconv.Atoi (Amount a)) with
           | None => fst (Strconv.Atoi (Amount a))
           | Some _ => 0
           end).
Proof.
  unfold template_amount. intros H. split.
  - intros L. rewrite L in H. change (0 =? 0) with true in H.
    cbv beta iota delta [negb] in H. congruence.
  - intros a rest Ha. rewrite Ha in H. unfold slice_len in H.
    change (Z.of_nat (List.length (Some a :: rest)) =? 0) with false in H.
    cbv beta iota delta [negb] in H.
    destruct (Strconv.Atoi (Amount a)) as [v e].
    cbv beta iota delta [fst snd]. congruence.
Qed.

Lemma template_amount_first a rest gas :
  template_amount {| fee_Amount := Some (Some a :: rest); Gas := gas |}
  = Done (match snd (Strconv.Atoi (Amount a)) with
          | None => fst (Strconv.Atoi (Amount a))
          | Some _ => 0
          end).
Proof.
  unfold template_amount, slice_len, fee_Amount.
  change (Z.of_nat (List.length (Some a :: rest)) =? 0) with false.
  cbv beta iota delta [negb].
  destruct (Strconv.Atoi (Amount a)) as [v e]. reflexivity.
Qed.

(** ** Bytes and base64 *)

Lemma byte_val_range c : 0 <= byte_val c < 256.
Proof.
  unfold byte_val. pose proof (N_ascii_bounded c). lia.
Qed.

Lemma byte_of_val c : byte_of (byte_val c) = c.
Proof.
  unfold byte_of, byte_val. rewrite N2Z.id. apply ascii_N_embedding.
Qed.

Lemma sextet_cases (P : Z -> Prop) :
  (forall k, (k < 64)%nat -> P (Z.of_nat k)) -> forall n, 0 <= n < 64 -> P n.
Proof.
  intros H n Hn. rewrite <- (Z2Nat.id n) by lia. apply H. lia.
Qed.

Lemma dec_enc_char n : 0 <= n < 64 -> Base64.dec_char (Base64.enc_char n) = Some n.
Proof.
  revert n. apply sextet_cases. intros k Hk.
  do 64 (destruct k as [|k]; [reflexivity|]). lia.
Qed.

Lemma enc_char_not_pad n : 0 <= n < 64 -> Ascii.eqb (Base64.enc_char n) "=" = false.
Proof.
  revert n. apply sextet_cases. intros k Hk.
  do 64 (destruct k as [|k]; [reflexivity|]). lia.
Qed.

(** The four sextets of three bytes, and the bytes back from them. *)
Lemma sextets_of_bytes a b c :
  0 <= a < 256 -> 0 <= b < 256 -> 0 <= c < 256 ->
  let v := a * 65536 + b * 256 + c in
  let s0 := v / 262144 in
  let s1 := (v / 4096) mod 64 in
  let s2 := (v / 64) mod 64 in
  let s3 := v mod 64 in
  (0 <= s0 < 64 /\ 0 <= s1 < 64 /\ 0 <= s2 < 64 /\ 0 <= s3 < 64)
  /\ s0 * 4 + s1 / 16 = a
  /\ (s1 mod 16) * 16 + s2 / 4 = b
  /\ (s2 mod 4) * 64 + s3 = c.
Proof.
  intros Ha Hb Hc. cbv zeta.
  split; [|split; [|split]]; [repeat apply conj|..]; Z.div_mod_to_equations; lia.
Qed.

Lemma decode_encode fuel : forall src,
  (List.length src < 3 * fuel)%nat ->
  Base64.decode fuel (Base64.encode src) = Some src.
Proof.
  induction fuel as [|fuel IH]; intros src Hlen; [lia|].
  destruct src as [|a [|b [|c rest]]].
  - reflexivity.
  - pose proof (byte_val_range a) as Ra.
    destruct (sextets_of_bytes (byte_val a) 0 0 Ra ltac:(lia) ltac:(lia))
      as [[R0 [R1 _]] [Ea _]].
    rewrite !Z.mul_0_l, !Z.add_0_r in *.
    cbn [Base64.encode Base64.decode].
    rewrite !dec_enc_char by assumption.
    cbn [Ascii.eqb Bool.eqb]. rewrite Ea, byte_of_val. reflexivity.
  - pose proof (byte_val_range a) as Ra. pose proof (byte_val_range b) as Rb.
    destruct (sextets_of_bytes (byte_val a) (byte_val b) 0 Ra Rb ltac:(lia))
      as [[R0 [R1 [R2 _]]] [Ea [Eb _]]].
    rewrite !Z.add_0_r in *.
    cbn [Base64.encode Base64.decode].
    rewrite !dec_enc_char by assumption.
    rewrite (enc_char_not_pad _ R2).
    cbn [Ascii.eqb Bool.eqb]. rewrite Ea, Eb, !byte_of_val. reflexivity.
  - pose proof (byte_val_range a) as Ra. pose proof (byte_val_range b) as Rb.
    pose proof (byte_val_range c) as Rc.
    destruct (sextets_of_bytes (byte_val a) (byte_val b) (byte_val c) Ra Rb Rc)
      as [[R0 [R1 [R2 R3]]] [Ea [Eb Ec]]].
    cbn [Base64.encode].
    destruct rest as [|d rest'].
    + cbn [Base64.encode Base64.decode].
      rewrite !dec_enc_char by assumption.
      rewrite (enc_char_not_pad _ R2), (enc_char_not_pad _ R3).
      rewrite Ea, Eb, Ec, !byte_of_val. reflexivity.
    + remember (d :: rest') as rest eqn:Erest.
      assert (Hne : exists x xs, Base64.encode rest = x :: xs).
      { subst rest. destruct rest' as [|e [|f r]]; cbn [Base64.encode]; eauto. }
      destruct Hne as [x [xs Hx]].
      cbn [Base64.decode]. rewrite Hx, <- Hx.
      rewrite !dec_enc_char by assumption.
      rewrite IH by (cbn [List.length] in Hlen; lia).
      rewrite Ea, Eb, Ec, !byte_of_val. reflexivity.
Qed.

Lemma encode_length_bound n : forall src,
  (List.length src <= n)%nat ->
  (List.length src <= 3 * List.length (Base64.encode src))%nat.
Proof.
  induction n as [|n IH]; intros src Hn.
  - destruct src; [cbn; lia | cbn in Hn; lia].
  - destruct src as [|a [|b [|c rest]]]; cbn [Base64.encode List.length]; try lia.
    cbn [List.length] in Hn. specialize (IH rest ltac:(lia)). lia.
Qed.

(** Decoding what [EncodeToString] wrote gives the bytes back. *)
Lemma base64_round_trip src :
  Base64.DecodeString (Base64.EncodeToString src) = Some src.
Proof.
  unfold Base64.DecodeString, Base64.EncodeToString.
  rewrite list_ascii_of_string_of_list_ascii.
  apply decode_encode.
  pose proof (encode_length_bound (List.length src) src (Nat.le_refl _)). lia.
Qed.

(** ** The signature bytes *)

Lemma firstn_repeat_le {A} (x : A) n m :
  (n <= m)%nat -> firstn n (repeat x m) = repeat x n.
Proof.
  revert m. induction n as [|n IH]; intros m H; [reflexivity|].
  destruct m as [|m]; [lia|]. cbn. f_equal. apply IH. lia.
Qed.

Lemma skipn_repeat_sub {A} (x : A) n m :
  skipn n (repeat x m) = repeat x (m - n).
Proof.
  revert m. induction n as [|n IH]; intros m.
  - rewrite Nat.sub_0_r. reflexivity.
  - destruct m as [|m]; [reflexivity|]. cbn. apply IH.
Qed.

Lemma left_pad32_length b :
  (List.length b <= 32)%nat -> List.length (left_pad32 b) = 32%nat.
Proof.
  intros H. unfold left_pad32. rewrite length_app, repeat_length. lia.
Qed.

Lemma serializeSig_padded sig :
  (List.length (Big.Bytes (sigR sig)) <= 32)%nat ->
  (List.length (Big.Bytes (sigS sig)) <= 32)%nat ->
  serializeSig sig
  = Done (left_pad32 (Big.Bytes (sigR sig)) ++ left_pad32 (Big.Bytes (sigS sig)))%list.
Proof.
  intros Hr Hs. unfold serializeSig, copy_into.
  set (r := Big.Bytes (sigR sig)) in *. set (s := Big.Bytes (sigS sig)) in *.
  rewrite repeat_length.
  assert (C1 : (32 - Z.of_nat (List.length r) <? 0)
               || (32 <? 32 - Z.of_nat (List.length r))
               || (Z.of_nat 64 <? 32) = false).
  { rewrite !orb_false_iff. repeat apply conj; apply Z.ltb_ge; lia. }
  rewrite C1.
  replace (Z.to_nat (32 - Z.of_nat (List.length r))) with (32 - List.length r)%nat
    by lia.
  replace (Z.to_nat (32 - (32 - Z.of_nat (List.length r)))) with (List.length r)
    by lia.
  rewrite Nat.min_id, firstn_all.
  rewrite firstn_repeat_le by lia.
  replace (32 - List.length r + List.length r)%nat with 32%nat by lia.
  rewrite skipn_repeat_sub.
  change (64 - 32)%nat with 32%nat.
  assert (L1 : List.length (repeat zero_byte (32 - List.length r) ++ r)%list = 32%nat).
  { rewrite length_app, repeat_length. lia. }
  rewrite app_assoc.
  rewrite length_app, L1, repeat_length.
  assert (C2 : (64 - Z.of_nat (List.length s) <? 0)
               || (64 <? 64 - Z.of_nat (List.length s))
               || (Z.of_nat (32 + 32) <? 64) = false).
  { rewrite !orb_false_iff. repeat apply conj; apply Z.ltb_ge; lia. }
  rewrite C2.
  replace (Z.to_nat (64 - Z.of_nat (List.length s))) with (64 - List.length s)%nat
    by lia.
  replace (Z.to_nat (64 - (64 - Z.of_nat (List.length s)))) with (List.length s)
    by lia.
  rewrite Nat.min_id, firstn_all.
  replace (64 - List.length s + List.length s)%nat with 64%nat by lia.
  rewrite firstn_app, L1.
  rewrite (firstn_all2 (n := (64 - List.length s)%nat)) by lia.
  replace (64 - List.length s - 32)%nat with (32 - List.length s)%nat by lia.
  rewrite firstn_repeat_le by lia.
  rewrite skipn_all2 by (rewrite length_app, L1, repeat_length; lia).
  rewrite app_nil_r. unfold left_pad32. rewrite <- app_assoc. reflexivity.
Qed.

(** ** Objects and their members *)

Lemma find_field_single {T} name (d : dec T) key :
  find_field [(name, d)] key = if key_matches name key then Some d else None.
Proof.
  unfold find_field, key_matches. cbn [find_exact find_fold].
  destruct (String.eqb name key); [reflexivity|].
  destruct (equalFold name key); reflexivity.
Qed.

Lemma find_field_pair_first {T} n1 (d1 : dec T) n2 d2 key :
  key_matches n2 key = false ->
  find_field [(n1, d1); (n2, d2)] key
  = if key_matches n1 key then Some d1 else None.
Proof.
  unfold find_field, key_matches. cbn [find_exact find_fold].
  intros H. apply orb_false_iff in H. destruct H as [H1 H2]. rewrite H1, H2.
  destruct (String.eqb n1 key); [reflexivity|].
  destruct (equalFold n1 key); reflexivity.
Qed.

Lemma find_error_field key :
  find_field error_fields key
  = if key_matches "error" key
    then Some (fun j cur =>
                 match dec_string j (Error cur) with
                 | Some a => Some {| Error := a |}
                 | None => None
                 end)
    else None.
Proof. apply (find_field_single (T := ErrorResponse)). Qed.

Lemma dec_members_no_error ms : forall cur,
  members_for "error" ms = [] -> dec_members error_fields ms cur = Some cur.
Proof.
  induction ms as [|[k v] ms IH]; intros cur H; [reflexivity|].
  unfold members_for in H. cbn [filter fst] in H.
  cbn [dec_members]. rewrite find_error_field.
  destruct (key_matches "error" k); [discriminate|].
  apply IH, H.
Qed.

Lemma dec_members_one_error ms : forall cur k X,
  members_for "error" ms = [(k, JStr X)] ->
  dec_members error_fields ms cur = Some {| Error := X |}.
Proof.
  induction ms as [|[k0 v] ms IH]; intros cur k X H; [discriminate|].
  unfold members_for in H. cbn [filter fst] in H.
  cbn [dec_members]. rewrite find_error_field.
  destruct (key_matches "error" k0).
  - injection H as Hk Hv Hrest. subst v. cbn [dec_string Error].
    apply dec_members_no_error, Hrest.
  - apply (IH cur k X), H.
Qed.

Lemma find_validate_field key :
  key_matches "value" key = false ->
  find_field validate_fields key
  = if key_matches "type" key
    then Some (fun j cur =>
                 match dec_string j (vr_Type cur) with
                 | Some a => Some {| vr_Type := a; vr_Value := vr_Value cur |}
                 | None => None
                 end)
    else None.
Proof.
  intros H.
  apply (find_field_pair_first (T := TransactionValidateResponse) "type" _ "value" _
           key H).
Qed.

(** An object without a [value] member leaves the payload pointer of a
    validate response as it was. *)
Lemma dec_members_no_value ms : forall cur,
  members_for "value" ms = [] ->
  Forall string_or_null (map snd (members_for "type" ms)) ->
  exists r, dec_members validate_fields ms cur = Some r
            /\ vr_Value r = vr_Value cur.
Proof.
  induction ms as [|[k v] ms IH]; intros cur Hvalue Htype.
  - exists cur. split; reflexivity.
  - unfold members_for in Hvalue, Htype. cbn [filter fst] in Hvalue, Htype.
    destruct (key_matches "value" k) eqn:Hk; [discriminate|].
    cbn [dec_members]. rewrite (find_validate_field k Hk).
    destruct (key_matches "type" k).
    + cbn [map snd] in Htype. inversion Htype as [|x l Hv Hrest]; subst.
      destruct v; try contradiction; cbn [dec_string vr_Type vr_Value].
      * destruct (IH {| vr_Type := vr_Type cur; vr_Value := vr_Value cur |}
                    Hvalue Hrest) as [r [Hr Hval]].
        exists r. split; assumption.
      * destruct (IH {| vr_Type := s; vr_Value := vr_Value cur |} Hvalue Hrest)
          as [r [Hr Hval]].
        exists r. split; assumption.
    + apply IH; assumption.
Qed.

Section PipelineProperties.

Context {E : Externals}.

Lemma SignTransaction_padded (txn : TransactionBroadcastPayload) (s : State)
  (sig : ecdsaSignature) :
  privateKey_Sign (privateKey (client s)) (signing_hash (client s) txn) = inl sig ->
  (List.length (Big.Bytes (sigR sig)) <= 32)%nat ->
  (List.length (Big.Bytes (sigS sig)) <= 32)%nat ->
  SignTransaction txn s
  = (Done (Base64.EncodeToString
             (left_pad32 (Big.Bytes (sigR sig))
              ++ left_pad32 (Big.Bytes (sigS sig)))%list, None), s).
Proof.
  intros Hsign Hr Hs.
  unfold SignTransaction, bind, get_client, lift_outcome, ret.
  rewrite Hsign, (serializeSig_padded sig Hr Hs). reflexivity.
Qed.

(** C7. When the signature's R and S each take at most 32 bytes, the string
    that [SignTransaction] returns is the base64 text of exactly 64 bytes:
    bytes 0 to 31 are R and bytes 32 to 63 are S, each padded with zero bytes
    on the left. *)
Theorem signature_is_64_bytes (txn : TransactionBroadcastPayload) (s : State)
  (sig : ecdsaSignature) :
  privateKey_Sign (privateKey (client s)) (signing_hash (client s) txn) = inl sig ->
  (List.length (Big.Bytes (sigR sig)) <= 32)%nat ->
  (List.length (Big.Bytes (sigS sig)) <= 32)%nat ->
  exists signature decoded,
    SignTransaction txn s = (Done (signature, None), s)
    /\ Base64.DecodeString signature = Some decoded
    /\ List.length decoded = 64%nat
    /\ firstn 32 decoded = left_pad32 (Big.Bytes (sigR sig))
    /\ skipn 32 decoded = left_pad32 (Big.Bytes (sigS sig)).
Proof.
  intros Hsign Hr Hs.
  exists (Base64.EncodeToString
            (left_pad32 (Big.Bytes (sigR sig)) ++ left_pad32 (Big.Bytes (sigS sig)))%list),
    (left_pad32 (Big.Bytes (sigR sig)) ++ left_pad32 (Big.Bytes (sigS sig)))%list.
  split; [|split; [|split; [|split]]].
  - apply SignTransaction_padded; assumption.
  - apply base64_round_trip.
  - rewrite length_app, !left_pad32_length by assumption. reflexivity.
  - rewrite firstn_app, left_pad32_length by assumption.
    rewrite Nat.sub_diag, firstn_O, app_nil_r.
    apply firstn_all2. rewrite left_pad32_length by assumption. lia.
  - rewrite skipn_app, left_pad32_length by assumption.
    rewrite Nat.sub_diag, skipn_O.
    rewrite skipn_all2 by (rewrite left_pad32_length by assumption; lia).
    reflexivity.
Qed.

(** *** The error envelope *)

Lemma parseResponse_error_envelope (res : Response) ms k X :
  BodyErr res = None ->
  json_parse (Body res) = Some (JObj ms) ->
  members_for "error" ms = [(k, JStr X)] ->
  X <> ""%string ->
  parseResponse res = (None, Some (Errorf X)).
Proof.
  intros Hread Hparse Hmember Hne.
  unfold parseResponse, Unmarshal. rewrite Hread, Hparse.
  change (dec_ErrorResponse (JObj ms) zero_ErrorResponse)
    with (dec_members error_fields ms zero_ErrorResponse).
  rewrite (dec_members_one_error ms _ k X Hmember). cbn [Error].
  destruct (String.eqb_spec X ""); [contradiction | reflexivity].
Qed.

(** C6. When the body of a response is a JSON object whose [error] member is
    a string [X] that is not empty, [APIQuery] and [APIMutate] return no
    bytes and the error [X], whatever the status code of the response. *)
Theorem error_envelope_is_surfaced (s : State) (res : Response)
  (ms : list (string * json)) (k X : string) :
  BodyErr res = None ->
  json_parse (Body res) = Some (JObj ms) ->
  members_for "error" ms = [(k, JStr X)] ->
  X <> ""%string ->
  (forall endpoint,
      let url := (Endpoint (options (client s)) ++ endpoint)%string in
      http_Do (trace s) "GET" url "" = inl res ->
      APIQuery endpoint s
      = (Done (None, Some (Errorf X)),
         {| client := client s; trace := (trace s ++ [EvHttp "GET" url ""])%list |}))
  /\ (forall method endpoint payload,
      let url := (Endpoint (options (client s)) ++ endpoint)%string in
      http_NewRequest_ok method url = true ->
      http_Do (trace s) method url payload = inl res ->
      APIMutate method endpoint payload s
      = (Done (None, Some (Errorf X)),
         {| client := client s;
            trace := (trace s ++ [EvHttp method url payload])%list |})).
Proof.
  intros Hread Hparse Hmember Hne.
  pose proof (parseResponse_error_envelope res ms k X Hread Hparse Hmember Hne) as HP.
  split.
  - intros endpoint url Hdo.
    unfold APIQuery, bind, get_client, get_trace, emit, ret.
    fold url. rewrite Hdo, HP. reflexivity.
  - intros method endpoint payload url Hnew Hdo.
    unfold APIMutate, bind, get_client, get_trace, emit, ret.
    fold url. rewrite Hnew. cbn [negb]. rewrite Hdo, HP. reflexivity.
Qed.

(** *** Running the pipeline, one function at a time *)

Lemma makeRandomString_run s :
  makeRandomString 32 s
  = (Done (memo_of_seed (time_Now (trace s))), log (EvNow (time_Now (trace s))) s).
Proof. reflexivity. Qed.

Lemma SignTransaction_state txn s o s' :
  SignTransaction txn s = (o, s') -> s' = s.
Proof.
  unfold SignTransaction, bind, get_client, lift_outcome, ret.
  destruct (privateKey_Sign _ _) as [sg | e].
  - destruct (serializeSig sg); intros H; inversion H; reflexivity.
  - intros H; inversion H; reflexivity.
Qed.

Lemma APIMutate_run method endpoint payload s :
  let url := (Endpoint (options (client s)) ++ endpoint)%string in
  APIMutate method endpoint payload s
  = if http_NewRequest_ok method url
    then (Done match http_Do (trace s) method url payload with
               | inr e => (None, Some e)
               | inl res => parseResponse res
               end,
          log (EvHttp method url payload) s)
    else (Panic nil_deref, s).
Proof.
  cbv zeta. unfold APIMutate, bind, get_client, get_trace, emit, ret, panic, log.
  destruct (http_NewRequest_ok _ _); cbn [negb]; [|reflexivity].
  destruct (http_Do _ _ _ _); reflexivity.
Qed.

Lemma setAccount_run s :
  setAccount s
  = match ledger_Account (trace s) with
    | inr e => (Done (Some e), log EvSetAccount s)
    | inl a =>
        (Done None,
         {| client := set_account a (client s);
            trace := (trace s ++ [EvSetAccount])%list |})
    end.
Proof.
  unfold setAccount, bind, get_trace, emit, modify_client, ret, log.
  destruct (ledger_Account _); reflexivity.
Qed.

(** What an attempt does. The client is left as it is and the clock is read.
    Either nothing else happens and no response is handed on, or one request
    goes to [/txs] with the payload of [sent_payload]; a response handed on
    comes with that payload. *)
Lemma broadcast_attempt_inv txn gasInfo s o s' :
  broadcast_attempt txn gasInfo s = (o, s') ->
  client s' = client s
  /\ ((trace s' = (trace s ++ [EvNow (time_Now (trace s))])%list
       /\ forall x, o <> Done (inr x))
      \/ exists p g fee fee' signature,
          txn = Some p /\ gasInfo = Some g /\ Fee p = Some fee
          /\ setFee fee g = Done fee'
          /\ trace s' = (trace s ++ [EvNow (time_Now (trace s));
                                     EvHttp "POST" (txs_url s)
                                       (broadcast_request
                                          (sent_payload s p fee' signature))])%list
          /\ forall p' g' r, o = Done (inr (p', g', r)) ->
                             p' = sent_payload s p fee' signature /\ g' = g).
Proof.
  unfold broadcast_attempt. unfold bind at 1. rewrite makeRandomString_run.
  intros H.
  destruct txn as [txn|];
    [|inversion H; subst; cbn; split; [|left; split]; easy].
  destruct gasInfo as [gasInfo|];
    [|inversion H; subst; cbn; split; [|left; split]; easy].
  cbn [Fee set_Memo] in H.
  destruct (Fee txn) as [fee|] eqn:Hfee;
    [|inversion H; subst; cbn; split; [|left; split]; easy].
  unfold bind at 1, lift_outcome at 1 in H.
  destruct (setFee fee gasInfo) as [fee' | m |] eqn:HsetFee;
    [|inversion H; subst; cbn; split; [|left; split]; easy..].
  unfold bind at 1 in H.
  destruct (SignTransaction _ _) as [osig s1] eqn:Hsig.
  apply SignTransaction_state in Hsig. subst s1.
  destruct osig as [[signature [e|]] | m |];
    [inversion H; subst; cbn; split; [|left; split]; easy
    | | inversion H; subst; cbn; split; [|left; split]; easy..].
  unfold bind at 1, get_client at 1 in H. unfold bind at 1 in H.
  rewrite APIMutate_run in H.
  destruct (http_NewRequest_ok _ _);
    [|inversion H; subst; cbn; split; [|left; split]; easy].
  change (set_Signatures _ _) with (sent_payload s txn fee' signature) in H.
  change (Endpoint (options (client (log (EvNow (time_Now (trace s))) s))) ++ TX_COMMAND)%string
    with (txs_url s) in H.
  split.
  - repeat break_run H; inversion H; subst; reflexivity.
  - right. exists txn, gasInfo, fee, fee', signature.
    split; [reflexivity|]. split; [reflexivity|]. split; [exact Hfee|].
    split; [exact HsetFee|]. split.
    + repeat break_run H; inversion H; subst; cbn [client trace log];
        rewrite <- app_assoc; reflexivity.
    + intros p' g' r Ho. subst o.
      repeat break_run H; inversion H; subst; split; reflexivity.
Qed.

Lemma broadcast_attempt_effects txn gasInfo s o s' :
  broadcast_attempt txn gasInfo s = (o, s') ->
  client s' = client s
  /\ (trace s' = (trace s ++ [EvNow (time_Now (trace s))])%list
      \/ exists body,
          trace s' = (trace s ++ [EvNow (time_Now (trace s));
                                  EvHttp "POST" (txs_url s) body])%list).
Proof.
  intros H. apply broadcast_attempt_inv in H.
  destruct H as [Hc [[Ht _] | [p [g [fee [fee' [sg [_ [_ [_ [_ [Ht _]]]]]]]]]]]].
  - auto.
  - split; [exact Hc|]. right. eexists. exact Ht.
Qed.

(** *** Memos *)

Lemma random_runes_length seed : forall n k,
  List.length (random_runes seed k n) = n.
Proof.
  induction n as [|n IH]; intros k; [reflexivity|].
  cbn [random_runes List.length]. rewrite IH. reflexivity.
Qed.

Lemma random_runes_alphabet seed : forall n k,
  Forall (fun c => In c random_chars) (random_runes seed k n).
Proof.
  induction n as [|n IH]; intros k; [constructor|].
  cbn [random_runes]. constructor; [|apply IH].
  apply nth_In.
  pose proof (rand_Intn_range seed k (Z.of_nat (List.length random_chars))
                ltac:(reflexivity)).
  lia.
Qed.

Lemma string_of_list_length l :
  String.length (string_of_list_ascii l) = List.length l.
Proof.
  induction l as [|c l IH]; [reflexivity|]. cbn. rewrite IH. reflexivity.
Qed.

(** C5, as the code has it. Every attempt, the first as well as each retry,
    writes a new memo before it sends: the 32 characters, letters and
    digits, that [math/rand] draws once seeded with the clock reading taken
    at the start of the attempt. The request that goes out carries that
    memo. Two attempts that read the same clock value carry the same memo. *)
Theorem memo_is_drawn_per_attempt :
  (forall txn gasInfo s p' g' r s',
      broadcast_attempt txn gasInfo s = (Done (inr (p', g', r)), s') ->
      Memo p' = memo_of_seed (time_Now (trace s))
      /\ String.length (Memo p') = 32%nat
      /\ Forall (fun c => In c random_chars) (list_ascii_of_string (Memo p'))
      /\ trace s'
         = (trace s ++ [EvNow (time_Now (trace s));
                        EvHttp "POST" (txs_url s) (broadcast_request p')])%list)
  /\ (forall txn1 txn2 g1 g2 s1 s2 p1 p2 g1' g2' r1 r2 s1' s2',
         broadcast_attempt txn1 g1 s1 = (Done (inr (p1, g1', r1)), s1') ->
         broadcast_attempt txn2 g2 s2 = (Done (inr (p2, g2', r2)), s2') ->
         time_Now (trace s1) = time_Now (trace s2) ->
         Memo p1 = Memo p2).
Proof.
  assert (Hone : forall txn gasInfo s p' g' r s',
             broadcast_attempt txn gasInfo s = (Done (inr (p', g', r)), s') ->
             Memo p' = memo_of_seed (time_Now (trace s))
             /\ trace s'
                = (trace s ++ [EvNow (time_Now (trace s));
                               EvHttp "POST" (txs_url s) (broadcast_request p')])%list).
  { intros txn gasInfo s p' g' r s' H.
    apply broadcast_attempt_inv in H.
    destruct H as [_ [[_ Hno] | [p [g [fee [fee' [sg [_ [_ [_ [_ [Ht Hp]]]]]]]]]]]].
    - exfalso. apply (Hno (p', g', r)). reflexivity.
    - destruct (Hp p' g' r eq_refl) as [Ep _]. subst p'.
      split; [reflexivity | exact Ht]. }
  split.
  - intros txn gasInfo s p' g' r s' H.
    destruct (Hone _ _ _ _ _ _ _ H) as [Hm Ht].
    split; [exact Hm|]. split; [|split; [|exact Ht]].
    + rewrite Hm. unfold memo_of_seed.
      rewrite string_of_list_length. apply random_runes_length.
    + rewrite Hm. unfold memo_of_seed.
      rewrite list_ascii_of_string_of_list_ascii. apply random_runes_alphabet.
  - intros txn1 txn2 g1 g2 s1 s2 p1 p2 g1' g2' r1 r2 s1' s2' H1 H2 Hclock.
    destruct (Hone _ _ _ _ _ _ _ H1) as [Hm1 _].
    destruct (Hone _ _ _ _ _ _ _ H2) as [Hm2 _].
    rewrite Hm1, Hm2, Hclock. reflexivity.
Qed.

(** *** The fee of a broadcast *)

(** C3. The gas and the fee amount of a broadcast. With [tg] the gas of the
    template and [a0] its first amount (0 when there is none):
    the gas is [maxGas] when [maxGas] is not zero and below [tg], else [tg];
    the amount is [maxFee] when [maxFee] is not zero, whatever the gas and
    the price; else the gas (after the clamp) times [gasPrice], as an [int],
    when [gasPrice] is not zero; else [a0]. Both are written in decimal into
    the fee of the payload. With [maxGas] 30 and a template gas of 50 the
    broadcast gas is 30. The payload that [BroadcastTransaction] posts
    carries this fee. *)
Theorem fee_resolution_precedence :
  (forall fee gasInfo a0,
      template_amount fee = Done a0 ->
      exists gas amount,
        setFee fee gasInfo
        = Done {| Gas := Strconv.Itoa gas;
                  fee_Amount :=
                    Some [Some {| Denom := "ubnt"; Amount := Strconv.Itoa amount |}] |}
        /\ (MaxGas gasInfo <> 0 /\ MaxGas gasInfo < template_gas fee ->
            gas = MaxGas gasInfo)
        /\ (~ (MaxGas gasInfo <> 0 /\ MaxGas gasInfo < template_gas fee) ->
            gas = template_gas fee)
        /\ (MaxFee gasInfo <> 0 -> amount = MaxFee gasInfo)
        /\ (MaxFee gasInfo = 0 -> GasPrice gasInfo <> 0 ->
            amount = GoInt.wrap64 (gas * GasPrice gasInfo)
            /\ (GoInt.in_range (gas * GasPrice gasInfo) ->
                amount = gas * GasPrice gasInfo))
        /\ (MaxFee gasInfo = 0 -> GasPrice gasInfo = 0 -> amount = a0)
        /\ (slice_len (fee_Amount fee) = 0 -> a0 = 0)
        /\ (forall a rest, fee_Amount fee = Some (Some a :: rest) ->
            a0 = match snd (Strconv.Atoi (Amount a)) with
                 | None => fst (Strconv.Atoi (Amount a))
                 | Some _ => 0
                 end))
  /\ (forall amounts maxFee gasPrice,
         exists amount,
           setFee {| fee_Amount := Some [Some amounts]; Gas := "50" |}
                  {| MaxGas := 30; MaxFee := maxFee; GasPrice := gasPrice |}
           = Done {| Gas := "30";
                     fee_Amount := Some [Some {| Denom := "ubnt"; Amount := amount |}] |})
  /\ (forall txn gasInfo s p' g' r s',
         broadcast_attempt (Some txn) (Some gasInfo) s
         = (Done (inr (p', g', r)), s') ->
         exists fee fee',
           Fee txn = Some fee
           /\ setFee fee gasInfo = Done fee'
           /\ Fee p' = Some fee'
           /\ trace s'
              = (trace s ++ [EvNow (time_Now (trace s));
                             EvHttp "POST" (txs_url s) (broadcast_request p')])%list).
Proof.
  split; [|split].
  - intros fee gasInfo a0 Ha0.
    exists (clamp_gas (template_gas fee) gasInfo),
      (fee_amount a0 (clamp_gas (template_gas fee) gasInfo) gasInfo).
    pose proof (clamp_gas_cases (template_gas fee) gasInfo) as [G1 G2].
    pose proof (fee_amount_cases a0 (clamp_gas (template_gas fee) gasInfo) gasInfo)
      as [A1 [A2 A3]].
    pose proof (template_amount_cases fee a0 Ha0) as [T1 T2].
    split; [unfold setFee; rewrite Ha0; reflexivity|].
    split; [exact G1|]. split; [exact G2|]. split; [exact A1|].
    split; [|split; [exact A3|split; [exact T1|exact T2]]].
    intros HF HP. split; [apply A2; assumption|].
    intros R. rewrite A2 by assumption. apply GoIntFacts.wrap64_id, R.
  - intros amounts maxFee gasPrice. unfold setFee.
    rewrite template_amount_first. eexists. cbv zeta.
    match goal with |- Done {| Gas := ?g; fee_Amount := _ |} = _ =>
      assert (EG : g = "30") by (vm_compute; reflexivity); rewrite EG end.
    reflexivity.
  - intros txn gasInfo s p' g' r s' H.
    apply broadcast_attempt_inv in H.
    destruct H as [_ [[_ Hno] | [p [g [fee [fee' [sg [Hp [Hg [Hfee [Hset [Ht Hsent]]]]]]]]]]]].
    + exfalso. apply (Hno (p', g', r)). reflexivity.
    + injection Hp as Hp. injection Hg as Hg. subst p g.
      destruct (Hsent p' g' r eq_refl) as [Ep _]. subst p'.
      exists fee, fee'. split; [exact Hfee|]. split; [exact Hset|].
      split; [reflexivity | exact Ht].
Qed.

(** *** Reading the response *)

(** The response with code 0: the sequence moves on and the data is decoded. *)
Lemma BroadcastTransaction_success txn gasInfo s p' g' r s1 :
  broadcast_attempt txn gasInfo s = (Done (inr (p', g', r)), s1) ->
  Code r = 0 ->
  BroadcastTransaction txn gasInfo s
  = (Done (if String.eqb (Data r) ""
           then (Some ""%string, None)
           else (Some (fst (Hex.DecodeString (Data r))),
                 snd (Hex.DecodeString (Data r)))),
     {| client := increment_Sequence (client s); trace := trace s1 |}).
Proof.
  intros Hattempt Hcode.
  pose proof (broadcast_attempt_effects _ _ _ _ _ Hattempt) as [Hclient _].
  unfold BroadcastTransaction, retry_budget.
  unfold bind at 1, get_client at 1.
  cbn [BroadcastTransaction_rec]. unfold bind at 1. rewrite Hattempt.
  rewrite Hcode. cbn [Z.eqb].
  unfold bind, modify_client, ret. rewrite Hclient.
  destruct (String.eqb (Data r) ""); [reflexivity|].
  destruct (Hex.DecodeString (Data r)); reflexivity.
Qed.

Lemma increment_Sequence_spec c :
  GoInt.in_range (Sequence (account c) + 1) ->
  Sequence (account (increment_Sequence c)) = Sequence (account c) + 1.
Proof.
  intros H. unfold increment_Sequence. cbn [set_account account Sequence].
  unfold GoInt.add. apply GoIntFacts.wrap64_id, H.
Qed.

(** C10. A response with code 0 whose data is not empty and is not
    hexadecimal: [BroadcastTransaction] returns the error of the decoding
    (with the bytes decoded before it), and the sequence of the account has
    gone up by 1 all the same. *)
Theorem failed_decode_keeps_increment txn gasInfo s p' g' r s1 e :
  broadcast_attempt txn gasInfo s = (Done (inr (p', g', r)), s1) ->
  Code r = 0 ->
  Data r <> ""%string ->
  snd (Hex.DecodeString (Data r)) = Some e ->
  GoInt.in_range (sequence_of s + 1) ->
  exists s2,
    BroadcastTransaction txn gasInfo s
    = (Done (Some (fst (Hex.DecodeString (Data r))), Some e), s2)
    /\ sequence_of s2 = sequence_of s + 1.
Proof.
  intros Hattempt Hcode Hdata Hhex Hfit.
  eexists. split.
  - rewrite (BroadcastTransaction_success _ _ _ _ _ _ _ Hattempt Hcode).
    destruct (String.eqb_spec (Data r) ""); [contradiction|].
    rewrite Hhex. reflexivity.
  - unfold sequence_of. cbn [client]. apply increment_Sequence_spec, Hfit.
Qed.

(** *** Runs without a resync *)

Lemma count_app p l l' : count p (l ++ l') = (count p l + count p l')%nat.
Proof. unfold count. rewrite filter_app, length_app. reflexivity. Qed.

Lemma broadcast_attempt_early_error txn gasInfo s x e s' :
  broadcast_attempt txn gasInfo s = (Done (inl (x, e)), s') -> e <> None.
Proof.
  unfold broadcast_attempt. unfold bind at 1. rewrite makeRandomString_run.
  intros H.
  destruct txn as [txn|]; [|discriminate].
  destruct gasInfo as [gasInfo|]; [|inversion H; discriminate].
  cbn [Fee set_Memo] in H.
  destruct (Fee txn) as [fee|]; [|discriminate].
  unfold bind at 1, lift_outcome at 1 in H.
  destruct (setFee fee gasInfo) as [fee' | m |]; [|discriminate..].
  unfold bind at 1 in H.
  destruct (SignTransaction _ _) as [osig s1].
  destruct osig as [[signature [e0|]] | m |];
    [inversion H; discriminate | | discriminate..].
  unfold bind at 1, get_client at 1 in H. unfold bind at 1 in H.
  rewrite APIMutate_run in H.
  repeat break_run H; inversion H; discriminate.
Qed.

Lemma broadcast_attempt_resyncs txn gasInfo s o s' :
  broadcast_attempt txn gasInfo s = (o, s') -> resyncs (trace s') = resyncs (trace s).
Proof.
  intros H. apply broadcast_attempt_effects in H.
  destruct H as [_ [Ht | [body Ht]]]; rewrite Ht; unfold resyncs;
    rewrite count_app; cbn; lia.
Qed.

(** A run of [BroadcastTransaction] never takes a resync back, and one that
    ends without an error and without a resync has moved the sequence on by
    one. *)
Lemma BroadcastTransaction_rec_resyncs fuel : forall txn gasInfo s o s',
  BroadcastTransaction_rec fuel txn gasInfo s = (o, s') ->
  (resyncs (trace s) <= resyncs (trace s'))%nat
  /\ (forall res, o = Done (res, None) ->
      resyncs (trace s') = resyncs (trace s) ->
      client s' = increment_Sequence (client s)).
Proof.
  induction fuel as [|fuel IH]; intros txn gasInfo s o s' H.
  - inversion H; subst. split; [lia | discriminate].
  - cbn [BroadcastTransaction_rec] in H. unfold bind at 1 in H.
    destruct (broadcast_attempt txn gasInfo s) as [oa s1] eqn:Hattempt.
    pose proof (broadcast_attempt_resyncs _ _ _ _ _ Hattempt) as Hsame.
    pose proof (broadcast_attempt_effects _ _ _ _ _ Hattempt) as [Hclient _].
    destruct oa as [[[x e] | [[p' g'] r]] | m |].
    + (* the function returned before a response was read *)
      inversion H; subst. split; [lia|].
      intros res Hres. inversion Hres; subst.
      exfalso. exact (broadcast_attempt_early_error _ _ _ _ _ _ Hattempt eq_refl).
    + destruct (Code r =? 0).
      * (* success *)
        unfold bind, modify_client, ret in H.
        assert (Hs' : s' = {| client := increment_Sequence (client s1); trace := trace s1 |}).
        { destruct (String.eqb (Data r) ""); [inversion H; reflexivity|].
          destruct (Hex.DecodeString (Data r)); inversion H; reflexivity. }
        subst s'. cbn [trace client]. split; [lia|].
        intros _ _ _. rewrite Hclient. reflexivity.
      * destruct (Strings.Contains (RawLog r) conflict_marker).
        -- (* conflict *)
           unfold bind at 1, modify_client at 1 in H.
           unfold bind at 1, get_client at 1 in H. cbn [client] in H.
           destruct (BROADCAST_MAX_RETRIES <=? _).
           ++ inversion H; subst. cbn [trace]. split; [lia | discriminate].
           ++ unfold bind at 1, emit at 1 in H. cbn [client trace] in H.
              unfold bind at 1 in H. rewrite setAccount_run in H.
              cbn [trace] in H.
              destruct (ledger_Account _) as [a | e].
              ** apply IH in H. cbn [trace] in H. destruct H as [Hle _].
                 unfold resyncs in *. rewrite !count_app in Hle. cbn in Hle.
                 split; [lia|]. intros res _ Heq. lia.
              ** inversion H; subst. unfold log. cbn [trace].
                 unfold resyncs in *. rewrite !count_app. cbn.
                 split; [lia | discriminate].
        -- (* any other code *)
           inversion H; subst. split; [lia | discriminate].
    + inversion H; subst. split; [lia | discriminate].
    + inversion H; subst. split; [lia | discriminate].
Qed.

Lemma ValidateTransaction_state txn s o s' :
  ValidateTransaction txn s = (o, s') ->
  (http_NewRequest_ok (ApiRequestMethod txn) (validate_url s txn) = true
   /\ s' = validated s txn)
  \/ (http_NewRequest_ok (ApiRequestMethod txn) (validate_url s txn) = false
      /\ s' = s /\ o = Panic nil_deref).
Proof.
  unfold ValidateTransaction. unfold bind at 1, get_client at 1.
  unfold bind at 1. rewrite APIMutate_run.
  fold (validate_url s txn). fold (validated s txn).
  intros H.
  destruct (http_NewRequest_ok _ _).
  - left. split; [reflexivity|].
    repeat break_run H; inversion H; reflexivity.
  - right. inversion H; subst. auto.
Qed.

Lemma ValidateTransaction_effects txn s o s' :
  ValidateTransaction txn s = (o, s') ->
  client s' = client s /\ resyncs (trace s') = resyncs (trace s).
Proof.
  intros H. apply ValidateTransaction_state in H.
  destruct H as [[_ Hs] | [_ [Hs _]]]; subst s'.
  - unfold validated, log, resyncs. cbn [client trace]. rewrite count_app. cbn.
    split; [reflexivity | lia].
  - split; reflexivity.
Qed.

Lemma ValidateTransaction_error_or_payload txn s payload e s' :
  ValidateTransaction txn s = (Done (payload, Some e), s') -> payload = None.
Proof.
  unfold ValidateTransaction. unfold bind at 1, get_client at 1.
  unfold bind at 1. rewrite APIMutate_run.
  intros H. repeat break_run H; inversion H; reflexivity.
Qed.

Lemma SendTransaction_resyncs txn s o s' :
  SendTransaction txn s = (o, s') ->
  (resyncs (trace s) <= resyncs (trace s'))%nat
  /\ (forall res, o = Done (res, None) ->
      resyncs (trace s') = resyncs (trace s) ->
      client s' = increment_Sequence (client s)).
Proof.
  unfold SendTransaction, worker, ProcessTransaction.
  unfold bind at 1. unfold bind at 1.
  destruct (ValidateTransaction _ s) as [ov s1] eqn:Hv.
  apply ValidateTransaction_effects in Hv. destruct Hv as [Hc Hr].
  destruct ov as [[payload [e|]] | m |].
  - unfold bind, ret. intros H. inversion H; subst. cbn [err].
    split; [lia | discriminate].
  - unfold bind at 1.
    unfold BroadcastTransaction. unfold bind at 1, get_client at 1.
    cbn [txn_GasInfo set_txn_broadcastRetries].
    destruct (BroadcastTransaction_rec _ payload (txn_GasInfo txn) s1)
      as [ob s2] eqn:Hb.
    apply BroadcastTransaction_rec_resyncs in Hb. destruct Hb as [Hle Hok].
    destruct ob as [[res e] | m |]; unfold ret; intros H; inversion H; subst.
    + cbn [result err set_txn_outcome]. split; [lia|].
      intros res' Hres Heq.
      rewrite <- Hc. apply (Hok res' Hres). lia.
    + split; [lia | discriminate].
    + split; [lia | discriminate].
  - intros H. inversion H; subst. split; [lia | discriminate].
  - intros H. inversion H; subst. split; [lia | discriminate].
Qed.

Lemma SendTransactions_resyncs txns : forall s o s',
  SendTransactions txns s = (o, s') ->
  (resyncs (trace s) <= resyncs (trace s'))%nat.
Proof.
  induction txns as [|t ts IH]; intros s o s' H.
  - inversion H; subst. lia.
  - cbn [SendTransactions] in H. unfold bind at 1 in H.
    destruct (SendTransaction t s) as [o1 s1] eqn:H1.
    apply SendTransaction_resyncs in H1. destruct H1 as [Hle1 _].
    destruct o1 as [r1 | m |]; [|inversion H; subst; lia..].
    unfold bind at 1 in H.
    destruct (SendTransactions ts s1) as [o2 s2] eqn:H2.
    apply IH in H2.
    destruct o2 as [rs | m |]; inversion H; subst; lia.
Qed.

(** C4. A response with code 0 moves the sequence of the account on by
    exactly 1, and the result is empty without an error when the response
    has no data, else the hex decoding of the data. Hence, when [N] records
    are submitted one after the other, all end without an error and the
    account was never looked up again on the way, the sequence has gone up by
    exactly [N]. *)
Theorem success_increments_sequence :
  (forall txn gasInfo s p' g' r s1,
      broadcast_attempt txn gasInfo s = (Done (inr (p', g', r)), s1) ->
      Code r = 0 ->
      GoInt.in_range (sequence_of s + 1) ->
      exists res s2,
        BroadcastTransaction txn gasInfo s = (Done res, s2)
        /\ sequence_of s2 = sequence_of s + 1
        /\ AccountNumber (account (client s2)) = AccountNumber (account (client s))
        /\ (Data r = ""%string -> res = (Some ""%string, None))
        /\ (Data r <> ""%string ->
            res = (Some (fst (Hex.DecodeString (Data r))),
                   snd (Hex.DecodeString (Data r)))))
  /\ (forall txns s results s',
         SendTransactions txns s = (Done results, s') ->
         Forall (fun res : result_pair => snd res = None) results ->
         resyncs (trace s') = resyncs (trace s) ->
         GoInt.in_range (sequence_of s) ->
         GoInt.in_range (sequence_of s + Z.of_nat (List.length txns)) ->
         sequence_of s' = sequence_of s + Z.of_nat (List.length txns)).
Proof.
  split.
  - intros txn gasInfo s p' g' r s1 Hattempt Hcode Hfit.
    do 2 eexists. split; [|split; [|split; [|split]]].
    + apply (BroadcastTransaction_success _ _ _ _ _ _ _ Hattempt Hcode).
    + unfold sequence_of. cbn [client]. apply increment_Sequence_spec, Hfit.
    + reflexivity.
    + intros Hd. rewrite Hd. reflexivity.
    + intros Hd. destruct (String.eqb_spec (Data r) ""); [contradiction|].
      reflexivity.
  - induction txns as [|t ts IH]; intros s results s' H Hall Hres Hlo Hhi.
    + inversion H; subst. cbn. lia.
    + cbn [SendTransactions] in H. unfold bind at 1 in H.
      destruct (SendTransaction t s) as [o1 s1] eqn:H1.
      pose proof (SendTransaction_resyncs _ _ _ _ H1) as [Hle1 Hok1].
      destruct o1 as [r1 | m |]; [|discriminate..].
      unfold bind at 1 in H.
      destruct (SendTransactions ts s1) as [o2 s2] eqn:H2.
      pose proof (SendTransactions_resyncs _ _ _ _ H2) as Hle2.
      destruct o2 as [rs | m |]; [|discriminate..].
      inversion H; subst. clear H.
      inversion Hall as [|x l Hr1 Hrs]; subst.
      destruct r1 as [b1 e1]. cbn [snd] in Hr1. subst e1.
      assert (Hc1 : client s1 = increment_Sequence (client s)).
      { apply (Hok1 b1 eq_refl). lia. }
      assert (Hs1 : sequence_of s1 = sequence_of s + 1).
      { unfold sequence_of. rewrite Hc1. apply increment_Sequence_spec.
        unfold GoInt.in_range in *. cbn [List.length] in Hhi.
        fold (sequence_of s). lia. }
      cbn [List.length] in *.
      rewrite (IH s1 rs s' H2 Hrs); [lia | lia | |].
      * unfold GoInt.in_range in *. lia.
      * unfold GoInt.in_range in *. lia.
Qed.

(** *** The budget of the retry loop is enough *)

Lemma setFee_not_OutOfFuel fee gasInfo : setFee fee gasInfo <> OutOfFuel.
Proof.
  unfold setFee, template_amount.
  destruct (negb (slice_len (fee_Amount fee) =? 0)); [|discriminate].
  destruct (fee_Amount fee) as [[|[a|] rest]|]; try discriminate.
  destruct (Strconv.Atoi (Amount a)). discriminate.
Qed.

Lemma serializeSig_not_OutOfFuel sg : serializeSig sg <> OutOfFuel.
Proof.
  unfold serializeSig, copy_into.
  destruct (_ || _ || _); [discriminate|].
  destruct (_ || _ || _); discriminate.
Qed.

Lemma broadcast_attempt_not_OutOfFuel txn gasInfo s s' :
  broadcast_attempt txn gasInfo s <> (OutOfFuel, s').
Proof.
  unfold broadcast_attempt. unfold bind at 1. rewrite makeRandomString_run.
  intros H.
  destruct txn as [txn|]; [|discriminate].
  destruct gasInfo as [gasInfo|]; [|discriminate].
  cbn [Fee set_Memo] in H.
  destruct (Fee txn) as [fee|]; [|discriminate].
  unfold bind at 1, lift_outcome at 1 in H.
  pose proof (setFee_not_OutOfFuel fee gasInfo) as HF.
  destruct (setFee fee gasInfo) as [fee' | m |]; [|discriminate | contradiction].
  unfold bind at 1 in H.
  unfold SignTransaction at 1 in H.
  unfold bind at 1, get_client at 1 in H.
  destruct (privateKey_Sign _ _) as [sg | e].
  - unfold bind at 1, lift_outcome at 1 in H.
    pose proof (serializeSig_not_OutOfFuel sg) as HS.
    destruct (serializeSig sg) as [b | m |]; [|discriminate | contradiction].
    unfold ret at 1 in H.
    unfold bind at 1, get_client at 1 in H. unfold bind at 1 in H.
    rewrite APIMutate_run in H. unfold ret in H.
    destruct (http_NewRequest_ok _ _); [|discriminate H].
    repeat break_run H; discriminate H.
  - unfold ret at 1 in H. discriminate H.
Qed.

(** With the counter below the largest [int], the calls that
    [BroadcastTransaction] makes to itself end within the budget. *)
Lemma BroadcastTransaction_rec_total fuel : forall txn gasInfo s,
  GoInt.in_range (broadcastRetries (client s)) ->
  broadcastRetries (client s) < GoInt.max_int ->
  (Z.to_nat (BROADCAST_MAX_RETRIES - 1 - broadcastRetries (client s)) < fuel)%nat ->
  fst (BroadcastTransaction_rec fuel txn gasInfo s) <> OutOfFuel.
Proof.
  induction fuel as [|fuel IH]; intros txn gasInfo s Hfit Hmax Hfuel; [lia|].
  cbn [BroadcastTransaction_rec]. unfold bind at 1.
  destruct (broadcast_attempt txn gasInfo s) as [oa s1] eqn:Hattempt.
  pose proof (broadcast_attempt_effects _ _ _ _ _ Hattempt) as [Hclient _].
  destruct oa as [[early | [[p' g'] r]] | m |].
  - discriminate.
  - destruct (Code r =? 0).
    + unfold bind, modify_client, ret.
      destruct (String.eqb (Data r) ""); [discriminate|].
      destruct (Hex.DecodeString (Data r)). discriminate.
    + destruct (Strings.Contains (RawLog r) conflict_marker); [|discriminate].
      assert (Hinc : broadcastRetries (increment_broadcastRetries (client s1))
                     = broadcastRetries (client s) + 1).
      { rewrite Hclient. unfold increment_broadcastRetries.
        cbn [set_broadcastRetries broadcastRetries].
        unfold GoInt.add. apply GoIntFacts.wrap64_id.
        unfold GoInt.in_range, GoInt.min_int, GoInt.max_int in *. lia. }
      unfold bind at 1, modify_client at 1. unfold bind at 1, get_client at 1.
      cbn [client]. rewrite Hinc.
      destruct (Z.leb_spec BROADCAST_MAX_RETRIES (broadcastRetries (client s) + 1))
        as [Hstop | Hgo]; [discriminate|].
      unfold bind at 1, emit at 1. unfold bind at 1. rewrite setAccount_run.
      cbn [trace client].
      destruct (ledger_Account _) as [a | e]; [|discriminate].
      apply IH; cbn [client set_account broadcastRetries]; rewrite Hinc.
      * unfold GoInt.in_range, GoInt.min_int, GoInt.max_int, BROADCAST_MAX_RETRIES in *.
        lia.
      * unfold GoInt.max_int, BROADCAST_MAX_RETRIES in *. lia.
      * unfold BROADCAST_MAX_RETRIES in *. lia.
  - discriminate.
  - exfalso. exact (broadcast_attempt_not_OutOfFuel _ _ _ _ Hattempt).
Qed.

Lemma BroadcastTransaction_total txn gasInfo s :
  GoInt.in_range (broadcastRetries (client s)) ->
  broadcastRetries (client s) < GoInt.max_int ->
  fst (BroadcastTransaction txn gasInfo s) <> OutOfFuel.
Proof.
  intros Hfit Hmax. unfold BroadcastTransaction. unfold bind at 1, get_client at 1.
  apply BroadcastTransaction_rec_total; [exact Hfit | exact Hmax |].
  unfold retry_budget. lia.
Qed.

(** *** Validation *)

Lemma parseResponse_no_error (res : Response) ms :
  BodyErr res = None ->
  json_parse (Body res) = Some (JObj ms) ->
  members_for "error" ms = [] \/ (exists k, members_for "error" ms = [(k, JStr "")]) ->
  parseResponse res = (Some (Body res), None).
Proof.
  intros Hread Hparse Herror.
  unfold parseResponse, Unmarshal. rewrite Hread, Hparse.
  change (dec_ErrorResponse (JObj ms) zero_ErrorResponse)
    with (dec_members error_fields ms zero_ErrorResponse).
  destruct Herror as [Hnone | [k Hone]].
  - rewrite (dec_members_no_error ms _ Hnone). reflexivity.
  - rewrite (dec_members_one_error ms _ k "" Hone). reflexivity.
Qed.

Lemma ValidateTransaction_run txn s :
  http_NewRequest_ok (ApiRequestMethod txn) (validate_url s txn) = true ->
  ValidateTransaction txn s
  = (Done match http_Do (trace s) (ApiRequestMethod txn) (validate_url s txn)
                  (validate_request (client s) txn) with
          | inr e => (None, Some e)
          | inl res =>
              match parseResponse res with
              | (_, Some e) => (None, Some e)
              | (None, None) => (None, Some json_error)
              | (Some body, None) =>
                  match Unmarshal dec_TransactionValidateResponse
                          zero_TransactionValidateResponse body with
                  | None => (None, Some json_error)
                  | Some r => (vr_Value r, None)
                  end
              end
          end,
     validated s txn).
Proof.
  intros Hnew.
  unfold ValidateTransaction. unfold bind at 1, get_client at 1.
  unfold bind at 1. rewrite APIMutate_run.
  fold (validate_url s txn). fold (validated s txn). rewrite Hnew.
  destruct (http_Do _ _ _ _) as [res | e]; [|reflexivity].
  destruct (parseResponse res) as [[body|] [e|]]; try reflexivity.
  destruct (Unmarshal _ _ body); reflexivity.
Qed.

(** An attempt on a nil payload reads the clock and panics. *)
Lemma BroadcastTransaction_nil gasInfo s :
  BroadcastTransaction None gasInfo s
  = (Panic nil_deref, log (EvNow (time_Now (trace s))) s).
Proof. reflexivity. Qed.

(** C9. When the validate endpoint answers with a JSON object that has no
    [error] member (or an empty one) and no [value] member, and is otherwise
    well typed, [ValidateTransaction] returns a nil payload and a nil error.
    [ProcessTransaction] hands the nil payload to [BroadcastTransaction],
    whose first statement dereferences it: the record ends in a panic, after
    the validate request and a reading of the clock, and not in a returned
    error. *)
Theorem missing_value_panics (txn : Transaction) (s : State) (res : Response)
  (ms : list (string * json)) :
  http_NewRequest_ok (ApiRequestMethod txn) (validate_url s txn) = true ->
  http_Do (trace s) (ApiRequestMethod txn) (validate_url s txn)
    (validate_request (client s) txn) = inl res ->
  BodyErr res = None ->
  json_parse (Body res) = Some (JObj ms) ->
  members_for "error" ms = [] \/ (exists k, members_for "error" ms = [(k, JStr "")]) ->
  members_for "value" ms = [] ->
  Forall string_or_null (map snd (members_for "type" ms)) ->
  ValidateTransaction txn s = (Done (None, None), validated s txn)
  /\ ProcessTransaction txn s
     = (Panic nil_deref,
        log (EvNow (time_Now (trace (validated s txn)))) (validated s txn))
  /\ SendTransaction txn s
     = (Panic nil_deref,
        log (EvNow (time_Now (trace (validated s txn)))) (validated s txn)).
Proof.
  intros Hnew Hdo Hread Hparse Herror Hvalue Htype.
  assert (Hv : ValidateTransaction txn s = (Done (None, None), validated s txn)).
  { rewrite (ValidateTransaction_run txn s Hnew), Hdo.
    rewrite (parseResponse_no_error res ms Hread Hparse Herror).
    unfold Unmarshal. rewrite Hparse.
    change (dec_TransactionValidateResponse (JObj ms) zero_TransactionValidateResponse)
      with (dec_members validate_fields ms zero_TransactionValidateResponse).
    destruct (dec_members_no_value ms zero_TransactionValidateResponse Hvalue Htype)
      as [r [Hr Hval]].
    rewrite Hr, Hval. reflexivity. }
  assert (Hp : ProcessTransaction txn s
               = (Panic nil_deref,
                  log (EvNow (time_Now (trace (validated s txn)))) (validated s txn))).
  { unfold ProcessTransaction. unfold bind at 1.
    assert (Hv0 : ValidateTransaction (set_txn_broadcastRetries 0 txn) s
                  = (Done (None, None), validated s txn)) by exact Hv.
    rewrite Hv0. unfold bind at 1. rewrite BroadcastTransaction_nil. reflexivity. }
  split; [exact Hv|]. split; [exact Hp|].
  unfold SendTransaction, worker, bind. rewrite Hp. reflexivity.
Qed.

(** *** A record without a gas policy *)

Lemma BroadcastTransaction_no_gas p s :
  BroadcastTransaction (Some p) None s
  = (Done (None, Some (Errorf "gas_info is required")),
     log (EvNow (time_Now (trace s))) s).
Proof. reflexivity. Qed.

(** C2, as the code has it. A record without a gas policy is validated
    first: the validate request goes out. When validation hands back a
    payload, the pipeline then fails with the error "gas_info is required"
    after reading the clock for the memo, and nothing else has happened: no
    request to [/txs], no signature, no account lookup. Whatever validation
    gives, the events of such a submission are at most the validate request
    and one reading of the clock. *)
Theorem missing_gas_policy_fails_after_validate :
  (forall txn s p s1,
      txn_GasInfo txn = None ->
      ValidateTransaction txn s = (Done (Some p, None), s1) ->
      s1 = validated s txn
      /\ SendTransaction txn s
         = (Done (None, Some (Errorf "gas_info is required")),
            log (EvNow (time_Now (trace s1))) s1))
  /\ (forall txn s o s',
         txn_GasInfo txn = None ->
         SendTransaction txn s = (o, s') ->
         client s' = client s
         /\ (trace s' = trace s
             \/ trace s' = trace (validated s txn)
             \/ trace s'
                = trace (log (EvNow (time_Now (trace (validated s txn))))
                           (validated s txn)))).
Proof.
  split.
  - intros txn s p s1 Hgas Hv.
    assert (Hs1 : s1 = validated s txn).
    { apply ValidateTransaction_state in Hv.
      destruct Hv as [[_ Hs] | [_ [_ Ho]]]; [exact Hs | discriminate]. }
    split; [exact Hs1|].
    unfold SendTransaction, worker, ProcessTransaction. unfold bind at 1. unfold bind at 1.
    assert (Hv0 : ValidateTransaction (set_txn_broadcastRetries 0 txn) s
                  = (Done (Some p, None), s1)) by exact Hv.
    rewrite Hv0. unfold bind at 1.
    cbn [txn_GasInfo set_txn_broadcastRetries]. rewrite Hgas.
    rewrite BroadcastTransaction_no_gas. reflexivity.
  - intros txn s o s' Hgas H.
    unfold SendTransaction, worker, ProcessTransaction in H.
    unfold bind at 1 in H. unfold bind at 1 in H.
    destruct (ValidateTransaction (set_txn_broadcastRetries 0 txn) s)
      as [ov s1] eqn:Hv.
    assert (Hv0 : ValidateTransaction txn s = (ov, s1)) by exact Hv.
    apply ValidateTransaction_state in Hv0.
    destruct Hv0 as [[_ Hs1] | [_ [Hs1 Ho]]].
    + subst s1.
      destruct ov as [[payload [e|]] | m |].
      * unfold bind, ret in H. inversion H; subst. auto.
      * unfold bind at 1 in H.
        cbn [txn_GasInfo set_txn_broadcastRetries] in H. rewrite Hgas in H.
        destruct payload as [p|].
        -- rewrite BroadcastTransaction_no_gas in H.
           unfold ret in H. inversion H; subst. auto.
        -- rewrite BroadcastTransaction_nil in H. inversion H; subst. auto.
      * inversion H; subst. auto.
      * inversion H; subst. auto.
    + subst s1 ov. inversion H; subst. auto.
Qed.

(** *** A ledger that always reports a conflict *)

Lemma ValidateTransaction_payload txn s :
  always_validates (ApiRequestMethod txn) (validate_url s txn) ->
  exists p,
    ValidateTransaction txn s = (Done (Some p, None), validated s txn)
    /\ fee_readable p.
Proof.
  intros [Hnew Hdo].
  destruct (Hdo (trace s) (validate_request (client s) txn))
    as [res [r [p [Hres [Hparse [Hdec [Hval Hfee]]]]]]].
  exists p. split; [|exact Hfee].
  rewrite (ValidateTransaction_run txn s Hnew), Hres, Hparse, Hdec, Hval.
  reflexivity.
Qed.

Lemma retry_trace_counts url n evs :
  retry_trace url n evs ->
  count (is_http "POST" url) evs = n
  /\ S (count is_setAccount evs) = n
  /\ S (count is_sleep evs) = n.
Proof.
  induction 1 as [t body | n t body evs H IH].
  - unfold count. cbn. rewrite !String.eqb_refl. cbn. auto.
  - destruct IH as [I1 [I2 I3]].
    rewrite !count_app. unfold count at 1 3 5. cbn.
    rewrite !String.eqb_refl. cbn. lia.
Qed.

Lemma SignTransaction_ok p s :
  signer_ok (privateKey (client s)) ->
  exists signature, SignTransaction p s = (Done (signature, None), s).
Proof.
  intros Hsign.
  destruct (Hsign (signing_hash (client s) p)) as [sg [Hsg [Hr Hs]]].
  eexists. apply (SignTransaction_padded p s sg Hsg Hr Hs).
Qed.

(** One attempt against such a ledger. *)
Lemma broadcast_attempt_conflict p g s :
  fee_readable p ->
  signer_ok (privateKey (client s)) ->
  always_conflict (txs_url s) ->
  exists p' r body,
    broadcast_attempt (Some p) (Some g) s
    = (Done (inr (p', g, r)),
       {| client := client s;
          trace := (trace s ++ [EvNow (time_Now (trace s));
                                EvHttp "POST" (txs_url s) body])%list |})
    /\ Code r <> 0
    /\ Strings.Contains (RawLog r) conflict_marker = true
    /\ fee_readable p'.
Proof.
  intros [fee [a0 [Hfee Ha0]]] Hsign [Hnew Hconf].
  unfold broadcast_attempt. unfold bind at 1. rewrite makeRandomString_run.
  cbn [Fee set_Memo]. rewrite Hfee.
  unfold bind at 1, lift_outcome at 1.
  unfold setFee. rewrite Ha0.
  unfold bind at 1.
  match goal with |- context [SignTransaction ?q ?st] =>
    destruct (SignTransaction_ok q st Hsign) as [signature Hsig]; rewrite Hsig end.
  unfold bind at 1, get_client at 1. unfold bind at 1.
  rewrite APIMutate_run.
  change (Endpoint (options (client (log (EvNow (time_Now (trace s))) s))) ++ TX_COMMAND)%string
    with (txs_url s).
  rewrite Hnew.
  match goal with |- context [http_Do ?tr "POST" (txs_url s) ?b] =>
    destruct (Hconf tr b) as [res [Hdo [r [Hparse [Hdec [Hcode Hlog]]]]]];
    rewrite Hdo, Hparse, Hdec; exists (sent_payload s p
      {| fee_Amount :=
           Some [Some {| Amount :=
                           Strconv.Itoa
                             (fee_amount a0 (clamp_gas (template_gas fee) g) g);
                         Denom := TOKEN_NAME |}];
         Gas := Strconv.Itoa (clamp_gas (template_gas fee) g) |} signature), r, b
  end.
  split; [|split; [exact Hcode | split; [exact Hlog|]]].
  - unfold ret, log. cbn [client trace]. rewrite <- app_assoc. reflexivity.
  - eexists. eexists. split; [reflexivity|]. apply template_amount_first.
Qed.

Lemma increment_broadcastRetries_spec c :
  GoInt.in_range (broadcastRetries c + 1) ->
  broadcastRetries (increment_broadcastRetries c) = broadcastRetries c + 1.
Proof.
  intros H. unfold increment_broadcastRetries.
  cbn [set_broadcastRetries broadcastRetries].
  unfold GoInt.add. apply GoIntFacts.wrap64_id, H.
Qed.

(** With the counter at 9 or more, the first conflict is the last. *)
Lemma conflict_exhausts_at_once fuel p g s :
  fee_readable p ->
  signer_ok (privateKey (client s)) ->
  always_conflict (txs_url s) ->
  BROADCAST_MAX_RETRIES - 1 <= broadcastRetries (client s) < GoInt.max_int ->
  exists s' evs,
    BroadcastTransaction_rec (S fuel) (Some p) (Some g) s = (Done exhausted, s')
    /\ trace s' = (trace s ++ evs)%list
    /\ retry_trace (txs_url s) 1 evs
    /\ broadcastRetries (client s') = broadcastRetries (client s) + 1
    /\ same_identity (client s) (client s').
Proof.
  intros Hfee Hsign Hconf Hr.
  destruct (broadcast_attempt_conflict p g s Hfee Hsign Hconf)
    as [p' [r [body [Hattempt [Hcode [Hlog _]]]]]].
  cbn [BroadcastTransaction_rec]. unfold bind at 1. rewrite Hattempt.
  apply Z.eqb_neq in Hcode. rewrite Hcode, Hlog.
  assert (Hinc : broadcastRetries (increment_broadcastRetries (client s))
                 = broadcastRetries (client s) + 1).
  { apply increment_broadcastRetries_spec.
    unfold GoInt.in_range, GoInt.min_int, GoInt.max_int, BROADCAST_MAX_RETRIES in *.
    lia. }
  unfold bind at 1, modify_client at 1. unfold bind at 1, get_client at 1.
  cbn [client]. rewrite Hinc.
  replace (BROADCAST_MAX_RETRIES <=? broadcastRetries (client s) + 1) with true
    by (symmetry; apply Z.leb_le; lia).
  do 2 eexists. split; [reflexivity|]. cbn [trace client].
  split; [reflexivity|]. split; [constructor|]. split; [exact Hinc|].
  split; reflexivity.
Qed.

(** With the counter at [10 - n], the loop makes [n] attempts. *)
Lemma conflict_loop n : forall fuel p g s,
  (n <= fuel)%nat ->
  fee_readable p ->
  signer_ok (privateKey (client s)) ->
  always_conflict (txs_url s) ->
  ledger_answers ->
  broadcastRetries (client s) = BROADCAST_MAX_RETRIES - Z.of_nat (S n) ->
  GoInt.in_range (broadcastRetries (client s)) ->
  exists s' evs,
    BroadcastTransaction_rec (S fuel) (Some p) (Some g) s = (Done exhausted, s')
    /\ trace s' = (trace s ++ evs)%list
    /\ retry_trace (txs_url s) (S n) evs
    /\ broadcastRetries (client s') = BROADCAST_MAX_RETRIES
    /\ same_identity (client s) (client s').
Proof.
  induction n as [|n IH]; intros fuel p g s Hfuel Hfee Hsign Hconf Hledger Hr Hfit.
  - destruct (conflict_exhausts_at_once fuel p g s Hfee Hsign Hconf)
      as [s' [evs [Hrun [Ht [Hevs [Hcount Hid]]]]]].
    { unfold GoInt.in_range, GoInt.max_int, BROADCAST_MAX_RETRIES in *. lia. }
    exists s', evs. repeat (split; [assumption|]).
    split; [|exact Hid]. rewrite Hcount, Hr. unfold BROADCAST_MAX_RETRIES. lia.
  - destruct fuel as [|fuel]; [lia|].
    remember (S fuel) as fuel1 eqn:Efuel.
    destruct (broadcast_attempt_conflict p g s Hfee Hsign Hconf)
      as [p' [r [body [Hattempt [Hcode [Hlog Hfee']]]]]].
    cbn [BroadcastTransaction_rec]. unfold bind at 1. rewrite Hattempt.
    apply Z.eqb_neq in Hcode. rewrite Hcode, Hlog.
    assert (Hinc : broadcastRetries (increment_broadcastRetries (client s))
                   = broadcastRetries (client s) + 1).
    { apply increment_broadcastRetries_spec.
      unfold GoInt.in_range, GoInt.min_int, GoInt.max_int, BROADCAST_MAX_RETRIES in *.
      lia. }
    unfold bind at 1, modify_client at 1. unfold bind at 1, get_client at 1.
    cbn [client]. rewrite Hinc.
    replace (BROADCAST_MAX_RETRIES <=? broadcastRetries (client s) + 1) with false
      by (symmetry; apply Z.leb_gt; lia).
    unfold bind at 1, emit at 1. unfold bind at 1. rewrite setAccount_run.
    cbn [trace client].
    match goal with |- context [ledger_Account ?tr] =>
      destruct (Hledger tr) as [a Ha]; rewrite Ha end.
    match goal with |- context [BroadcastTransaction_rec fuel1 _ _ ?st] =>
      destruct (IH fuel p' g st) as [s' [evs [Hrun [Ht [Hevs [Hcount Hid]]]]]] end.
    + lia.
    + exact Hfee'.
    + exact Hsign.
    + exact Hconf.
    + exact Hledger.
    + cbn [client set_account broadcastRetries]. rewrite Hinc. lia.
    + cbn [client set_account broadcastRetries]. rewrite Hinc.
      unfold GoInt.in_range, GoInt.min_int, GoInt.max_int, BROADCAST_MAX_RETRIES in *.
      lia.
    + rewrite Efuel, Hrun.
      do 2 eexists. split; [reflexivity|].
      split; [|split; [|split; [exact Hcount|]]].
      * rewrite Ht. cbn [trace]. rewrite <- !app_assoc. reflexivity.
      * apply retry_more. exact Hevs.
      * destruct Hid as [Hk Ho]. split; [exact Hk | exact Ho].
Qed.

Lemma SendTransaction_conflict t g s :
  txn_GasInfo t = Some g ->
  always_validates (ApiRequestMethod t) (validate_url s t) ->
  signer_ok (privateKey (client s)) ->
  always_conflict (txs_url s) ->
  ledger_answers ->
  0 <= broadcastRetries (client s) < GoInt.max_int ->
  exists s' evs,
    SendTransaction t s = (Done exhausted, s')
    /\ trace s' = (trace (validated s t) ++ evs)%list
    /\ retry_trace (txs_url s) (attempts_left (broadcastRetries (client s))) evs
    /\ broadcastRetries (client s')
       = Z.max BROADCAST_MAX_RETRIES (broadcastRetries (client s) + 1)
    /\ same_identity (client s) (client s').
Proof.
  intros Hgas Hvalid Hsign Hconf Hledger Hr.
  destruct (ValidateTransaction_payload t s Hvalid) as [p [Hv Hfee]].
  assert (Hrun : exists s' evs,
             BroadcastTransaction (Some p) (Some g) (validated s t)
             = (Done exhausted, s')
             /\ trace s' = (trace (validated s t) ++ evs)%list
             /\ retry_trace (txs_url s) (attempts_left (broadcastRetries (client s))) evs
             /\ broadcastRetries (client s')
                = Z.max BROADCAST_MAX_RETRIES (broadcastRetries (client s) + 1)
             /\ same_identity (client s) (client s')).
  { unfold BroadcastTransaction. unfold bind at 1, get_client at 1.
    unfold retry_budget, attempts_left. cbn [client validated log].
    destruct (Z.le_gt_cases (broadcastRetries (client s)) 9) as [Hlow | Hhigh].
    - destruct (conflict_loop (Z.to_nat (BROADCAST_MAX_RETRIES - 1 - broadcastRetries (client s)))
                  (Z.to_nat (BROADCAST_MAX_RETRIES - 1 - broadcastRetries (client s)))
                  p g (validated s t) (Nat.le_refl _) Hfee Hsign Hconf Hledger)
        as [s' [evs [H1 [H2 [H3 [H4 H5]]]]]].
      + cbn [client validated log]. unfold BROADCAST_MAX_RETRIES. lia.
      + cbn [client validated log].
        unfold GoInt.in_range, GoInt.min_int, GoInt.max_int in *. lia.
      + exists s', evs. split; [exact H1|]. split; [exact H2|].
        split; [|split; [|exact H5]].
        * replace (Z.to_nat (Z.max 1 (BROADCAST_MAX_RETRIES - broadcastRetries (client s))))
            with (S (Z.to_nat (BROADCAST_MAX_RETRIES - 1 - broadcastRetries (client s))))
            by (unfold BROADCAST_MAX_RETRIES; lia).
          exact H3.
        * rewrite H4. unfold BROADCAST_MAX_RETRIES. lia.
    - destruct (conflict_exhausts_at_once
                  (Z.to_nat (BROADCAST_MAX_RETRIES - 1 - broadcastRetries (client s)))
                  p g (validated s t) Hfee Hsign Hconf)
        as [s' [evs [H1 [H2 [H3 [H4 H5]]]]]].
      + cbn [client validated log]. unfold BROADCAST_MAX_RETRIES. lia.
      + exists s', evs. split; [exact H1|]. split; [exact H2|].
        split; [|split; [|exact H5]].
        * replace (Z.to_nat (Z.max 1 (BROADCAST_MAX_RETRIES - broadcastRetries (client s))))
            with 1%nat by (unfold BROADCAST_MAX_RETRIES; lia).
          exact H3.
        * rewrite H4. cbn [client validated log]. unfold BROADCAST_MAX_RETRIES. lia. }
  destruct Hrun as [s' [evs [H1 [H2 [H3 [H4 H5]]]]]].
  exists s', evs. split; [|auto].
  unfold SendTransaction, worker, ProcessTransaction. unfold bind at 1. unfold bind at 1.
  assert (Hv0 : ValidateTransaction (set_txn_broadcastRetries 0 t) s
                = (Done (Some p, None), validated s t)) by exact Hv.
  rewrite Hv0. unfold bind at 1.
  cbn [txn_GasInfo set_txn_broadcastRetries]. rewrite Hgas, H1. reflexivity.
Qed.

(** C1, as the code has it. Against a ledger that answers every broadcast
    with a conflict, a submission made while the counter of the client is 0
    fails with the retry error after exactly 10 broadcasts and 9 account
    lookups, each lookup right after a sleep of one second. The counter that
    [ProcessTransaction] resets is the record's; the one that
    [BroadcastTransaction] counts with is the client's and stays at 10: the
    next such submission fails after 1 broadcast and no lookup. *)
Theorem retry_counter_is_not_reset t1 t2 g1 g2 s :
  txn_GasInfo t1 = Some g1 ->
  txn_GasInfo t2 = Some g2 ->
  always_validates (ApiRequestMethod t1) (validate_url s t1) ->
  always_validates (ApiRequestMethod t2) (validate_url s t2) ->
  signer_ok (privateKey (client s)) ->
  always_conflict (txs_url s) ->
  ledger_answers ->
  broadcastRetries (client s) = 0 ->
  exists s1 s2 evs1 evs2,
    SendTransaction t1 s = (Done exhausted, s1)
    /\ trace s1 = (trace (validated s t1) ++ evs1)%list
    /\ retry_trace (txs_url s) 10 evs1
    /\ count (is_http "POST" (txs_url s)) evs1 = 10%nat
    /\ count is_setAccount evs1 = 9%nat
    /\ broadcastRetries (client s1) = 10
    /\ SendTransaction t2 s1 = (Done exhausted, s2)
    /\ trace s2 = (trace (validated s1 t2) ++ evs2)%list
    /\ retry_trace (txs_url s) 1 evs2
    /\ count (is_http "POST" (txs_url s)) evs2 = 1%nat
    /\ count is_setAccount evs2 = 0%nat.
Proof.
  intros Hg1 Hg2 Hv1 Hv2 Hsign Hconf Hledger Hzero.
  destruct (SendTransaction_conflict t1 g1 s Hg1 Hv1 Hsign Hconf Hledger)
    as [s1 [evs1 [R1 [T1 [E1 [C1 [K1 O1]]]]]]].
  { rewrite Hzero. unfold GoInt.max_int. lia. }
  rewrite Hzero in E1, C1.
  change (attempts_left 0) with 10%nat in E1.
  change (Z.max BROADCAST_MAX_RETRIES (0 + 1)) with 10 in C1.
  assert (Hurl : txs_url s1 = txs_url s) by (unfold txs_url; rewrite O1; reflexivity).
  assert (Hvurl : validate_url s1 t2 = validate_url s t2)
    by (unfold validate_url; rewrite O1; reflexivity).
  destruct (SendTransaction_conflict t2 g2 s1 Hg2)
    as [s2 [evs2 [R2 [T2 [E2 [C2 _]]]]]].
  { rewrite Hvurl. exact Hv2. }
  { rewrite K1. exact Hsign. }
  { rewrite Hurl. exact Hconf. }
  { exact Hledger. }
  { rewrite C1. unfold GoInt.max_int. lia. }
  rewrite C1, Hurl in E2.
  change (attempts_left 10) with 1%nat in E2.
  destruct (retry_trace_counts _ _ _ E1) as [N1 [N2 _]].
  destruct (retry_trace_counts _ _ _ E2) as [M1 [M2 _]].
  exists s1, s2, evs1, evs2.
  repeat (split; [first [assumption | lia]|]). lia.
Qed.

End PipelineProperties.

(** * The properties on the example worlds *)

(** ** Fee *)

Lemma fee_resolution_precedence_witness :
  exists gas amount,
    setFee {| fee_Amount := Some [Some {| Amount := "7"; Denom := "ubnt" |}]; Gas := "50" |}
           {| MaxGas := 30; MaxFee := 0; GasPrice := 5 |}
    = Done {| Gas := Strconv.Itoa gas;
              fee_Amount :=
                Some [Some {| Denom := "ubnt"; Amount := Strconv.Itoa amount |}] |}
    /\ gas = 30 /\ amount = 150.
Proof.
  assert (H7 : template_amount
                 {| fee_Amount := Some [Some {| Amount := "7"; Denom := "ubnt" |}];
                    Gas := "50" |} = Done 7) by (vm_compute; reflexivity).
  destruct (proj1 (@fee_resolution_precedence W_success) _
              {| MaxGas := 30; MaxFee := 0; GasPrice := 5 |} 7 H7)
    as [gas [amount [Hfee [Hg [_ [_ [Ha _]]]]]]].
  assert (Egas : gas = 30).
  { apply Hg. split; [intro X; vm_compute in X; discriminate | vm_compute; reflexivity]. }
  exists gas, amount. split; [exact Hfee | split; [exact Egas|]].
  destruct (Ha eq_refl ltac:(intro X; vm_compute in X; discriminate)) as [Ha' _].
  rewrite Ha', Egas. vm_compute. reflexivity.
Defined.

(** ** Signature *)

Lemma signature_is_64_bytes_witness :
  exists signature decoded,
    SignTransaction (E := W_success) payload0 state0 = (Done (signature, None), state0)
    /\ Base64.DecodeString signature = Some decoded
    /\ List.length decoded = 64%nat
    /\ firstn 32 decoded = left_pad32 (Big.Bytes 258)
    /\ skipn 32 decoded = left_pad32 (Big.Bytes 77).
Proof.
  apply (@signature_is_64_bytes W_success payload0 state0 {| sigR := 258; sigS := 77 |}).
  - reflexivity.
  - vm_compute. lia.
  - vm_compute. lia.
Defined.

(** ** Error envelope *)

Lemma error_envelope_is_surfaced_witness :
  APIQuery (E := W_error) "/crud/read/uuid/k" state0
  = (Done (None, Some (Errorf "X")),
     {| client := client0;
        trace := [EvHttp "GET" "http://localhost:1317/crud/read/uuid/k" ""] |})
  /\ APIMutate (E := W_error) "POST" "/txs" "{}" state0
     = (Done (None, Some (Errorf "X")),
        {| client := client0;
           trace := [EvHttp "POST" "http://localhost:1317/txs" "{}"] |}).
Proof.
  split.
  - apply (proj1 (@error_envelope_is_surfaced W_error state0
                    {| StatusCode := 500; Body := render (error_envelope "X");
                       BodyErr := None |}
                    [("error", JStr "X")] "error" "X"
                    eq_refl ltac:(vm_compute; reflexivity)
                    ltac:(vm_compute; reflexivity) ltac:(discriminate))
             "/crud/read/uuid/k").
    reflexivity.
  - apply (proj2 (@error_envelope_is_surfaced W_error state0
                    {| StatusCode := 200; Body := render (error_envelope "X");
                       BodyErr := None |}
                    [("error", JStr "X")] "error" "X"
                    eq_refl ltac:(vm_compute; reflexivity)
                    ltac:(vm_compute; reflexivity) ltac:(discriminate))
             "POST" "/txs" "{}"); reflexivity.
Defined.

(** ** Sequence *)

Lemma failed_decode_keeps_increment_witness :
  exists s2,
    BroadcastTransaction (E := W_bad_data) (Some payload0) (Some gas0) state0
    = (Done (Some "", Some Hex.InvalidByteError), s2)
    /\ sequence_of s2 = 41 + 1.
Proof.
  eapply (@failed_decode_keeps_increment W_bad_data (Some payload0) (Some gas0)
            state0 _ _ (success_decoded "4z") _ Hex.InvalidByteError).
  - vm_compute. reflexivity.
  - reflexivity.
  - discriminate.
  - vm_compute. reflexivity.
  - vm_compute. split; discriminate.
Defined.

Lemma success_increments_sequence_witness :
  (exists res s2,
      BroadcastTransaction (E := W_success) (Some payload0) (Some gas0) state0
      = (Done res, s2)
      /\ sequence_of s2 = 41 + 1
      /\ res = (Some "", None))
  /\ sequence_of
       (snd (SendTransactions (E := W_success)
               [create (Some gas0); create (Some gas0); create (Some gas0)] state0))
     = 41 + 3.
Proof.
  split.
  - edestruct (proj1 (@success_increments_sequence W_success))
      with (txn := Some payload0) (gasInfo := Some gas0) (s := state0)
           (r := success_decoded "")
      as [res [s2 [Hrun [Hseq [_ [Hempty _]]]]]].
    + vm_compute. reflexivity.
    + reflexivity.
    + vm_compute. split; discriminate.
    + exists res, s2. split; [exact Hrun|]. split; [exact Hseq|].
      apply Hempty. reflexivity.
  - eapply (proj2 (@success_increments_sequence W_success)
              [create (Some gas0); create (Some gas0); create (Some gas0)] state0).
    + vm_compute. reflexivity.
    + vm_compute. repeat constructor.
    + vm_compute. reflexivity.
    + vm_compute. split; discriminate.
    + vm_compute. split; discriminate.
Defined.

(** ** Nil payload *)

Lemma missing_value_panics_witness :
  ValidateTransaction (E := W_no_value) (create (Some gas0)) state0
  = (Done (None, None), validated (E := W_no_value) state0 (create (Some gas0)))
  /\ SendTransaction (E := W_no_value) (create (Some gas0)) state0
     = (Panic nil_deref,
        {| client := client0;
           trace := [EvHttp "POST" "http://localhost:1317/crud/create"
                       (validate_request (E := W_no_value) client0 (create (Some gas0)));
                     EvNow 1000] |}).
Proof.
  destruct (@missing_value_panics W_no_value (create (Some gas0)) state0
              {| StatusCode := 200; Body := render no_value; BodyErr := None |}
              [("type", JStr "cosmos-sdk/StdTx")])
    as [Hv [_ Hs]].
  - reflexivity.
  - reflexivity.
  - reflexivity.
  - vm_compute. reflexivity.
  - left. reflexivity.
  - reflexivity.
  - vm_compute. repeat constructor.
  - split; [exact Hv | exact Hs].
Defined.

(** ** Gas policy *)

(** A record without a gas policy in a world whose validate endpoint
    answers: the error is returned, and the validate request has gone out
    before it. *)
Lemma missing_gas_policy_counterexample :
  SendTransaction (E := W_success) (create None) state0
  = (Done (None, Some (Errorf "gas_info is required")),
     {| client := client0;
        trace := [EvHttp "POST" "http://localhost:1317/crud/create"
                    (validate_request (E := W_success) client0 (create None));
                  EvNow 1000] |})
  /\ count is_any_http
       (trace (snd (SendTransaction (E := W_success) (create None) state0)))
     = 1%nat.
Proof. split; vm_compute; reflexivity. Qed.

Lemma missing_gas_policy_fails_after_validate_witness :
  SendTransaction (E := W_success) (create None) state0
  = (Done (None, Some (Errorf "gas_info is required")),
     log (EvNow 1000)
       (validated (E := W_success) state0 (create None))).
Proof.
  destruct (proj1 (@missing_gas_policy_fails_after_validate W_success)
              (create None) state0 payload0
              (validated (E := W_success) state0 (create None)))
    as [_ Hrun].
  - reflexivity.
  - vm_compute. reflexivity.
  - exact Hrun.
Defined.

(** ** Memo *)

(** A conflict and then a retry, 2147483647 ns apart on the clock: the two
    requests carry the same memo. *)
Lemma memo_repeats_counterexample :
  exists p1 p2 r1 r2 s1 s2,
    broadcast_attempt (E := W_collide) (Some payload0) (Some gas0)
      (validated (E := W_collide) state0 (create (Some gas0)))
    = (Done (inr (p1, gas0, r1)), s1)
    /\ Code r1 = 4
    /\ Strings.Contains (RawLog r1) conflict_marker = true
    /\ broadcast_attempt (E := W_collide) (Some p1) (Some gas0)
         {| client := set_account account0 (increment_broadcastRetries (client s1));
            trace := (trace s1 ++ [EvSleep BROADCAST_RETRY_INTERVAL; EvSetAccount])%list |}
       = (Done (inr (p2, gas0, r2)), s2)
    /\ SendTransaction (E := W_collide) (create (Some gas0)) state0
       = (Done (Some "", None),
          {| client := increment_Sequence (client s2); trace := trace s2 |})
    /\ filter (fun e => match e with EvNow _ => true | _ => false end) (trace s2)
       = [EvNow 1000; EvNow 2147484647]
    /\ Memo p1 = "ARizGXo5MduBSj0HYp6NevCTk1IZq7Of"
    /\ Memo p2 = Memo p1.
Proof.
  do 6 eexists.
  split; [vm_compute; reflexivity|].
  split; [reflexivity|].
  split; [vm_compute; reflexivity|].
  split; [vm_compute; reflexivity|].
  split; [vm_compute; reflexivity|].
  split; [vm_compute; reflexivity|].
  split; vm_compute; reflexivity.
Qed.

Lemma memo_is_drawn_per_attempt_witness :
  exists p' s',
    broadcast_attempt (E := W_conflict) (Some payload0) (Some gas0) state0
    = (Done (inr (p', gas0, conflict_decoded)), s')
    /\ Memo p' = memo_of_seed (E := W_conflict) 1000
    /\ String.length (Memo p') = 32%nat.
Proof.
  do 2 eexists.
  assert (H : forall p' s',
             broadcast_attempt (E := W_conflict) (Some payload0) (Some gas0) state0
             = (Done (inr (p', gas0, conflict_decoded)), s') ->
             Memo p' = memo_of_seed (E := W_conflict) 1000
             /\ String.length (Memo p') = 32%nat).
  { intros p' s' Hrun.
    destruct (proj1 (@memo_is_drawn_per_attempt W_conflict) _ _ _ _ _ _ _ Hrun)
      as [Hm [Hl _]].
    split; [exact Hm | exact Hl]. }
  split; [vm_compute; reflexivity | eapply H; vm_compute; reflexivity].
Defined.

(** ** Retries *)

Lemma conflict_world_validates :
  always_validates (E := W_conflict) "POST" "http://localhost:1317/crud/create".
Proof.
  split; [reflexivity|].
  intros tr body.
  exists {| StatusCode := 200; Body := render template; BodyErr := None |},
    {| vr_Type := "cosmos-sdk/StdTx"; vr_Value := Some payload0 |}, payload0.
  split; [reflexivity|]. split; [vm_compute; reflexivity|].
  split; [vm_compute; reflexivity|]. split; [reflexivity|].
  eexists. exists 7. split; [reflexivity | vm_compute; reflexivity].
Defined.

Lemma conflict_world_conflicts :
  always_conflict (E := W_conflict) "http://localhost:1317/txs".
Proof.
  split; [reflexivity|].
  intros tr body.
  exists {| StatusCode := 200; Body := render conflict; BodyErr := None |}.
  split; [reflexivity|].
  exists conflict_decoded.
  split; [vm_compute; reflexivity|]. split; [vm_compute; reflexivity|].
  split; [discriminate | vm_compute; reflexivity].
Defined.

Lemma conflict_world_signs : signer_ok (E := W_conflict) 77.
Proof.
  intros hash. exists {| sigR := 258; sigS := 77 |}.
  split; [reflexivity|]. split; vm_compute; lia.
Defined.

Lemma retry_counter_is_not_reset_witness :
  exists s1 s2 evs1 evs2,
    SendTransaction (E := W_conflict) (create (Some gas0)) state0 = (Done exhausted, s1)
    /\ trace s1
       = (trace (validated (E := W_conflict) state0 (create (Some gas0))) ++ evs1)%list
    /\ retry_trace "http://localhost:1317/txs" 10 evs1
    /\ count (is_http "POST" "http://localhost:1317/txs") evs1 = 10%nat
    /\ count is_setAccount evs1 = 9%nat
    /\ broadcastRetries (client s1) = 10
    /\ SendTransaction (E := W_conflict) (create (Some gas0)) s1 = (Done exhausted, s2)
    /\ trace s2
       = (trace (validated (E := W_conflict) s1 (create (Some gas0))) ++ evs2)%list
    /\ retry_trace "http://localhost:1317/txs" 1 evs2
    /\ count (is_http "POST" "http://localhost:1317/txs") evs2 = 1%nat
    /\ count is_setAccount evs2 = 0%nat.
Proof.
  apply (@retry_counter_is_not_reset W_conflict (create (Some gas0))
           (create (Some gas0)) gas0 gas0 state0).
  - reflexivity.
  - reflexivity.
  - exact conflict_world_validates.
  - exact conflict_world_validates.
  - exact conflict_world_signs.
  - exact conflict_world_conflicts.
  - intros tr. exists account0. reflexivity.
  - reflexivity.
Defined.

(** * More properties of the code *)

(** ** Leases in blocks *)

(** X1. [ToBlocks] rounds toward zero. For a lease whose duration in seconds
    fits an [int64]: the blocks of a lease that is not negative cover at most
    the lease and fall short of it by less than one block time (5 seconds),
    symmetrically for a negative lease; a lease of less than 5 seconds either
    way is 0 blocks; and a longer lease never gets fewer blocks. *)
Theorem ToBlocks_rounds_toward_zero lease :
  GoInt.in_range (total_seconds lease) ->
  (0 <= total_seconds lease ->
   0 <= ToBlocks lease
   /\ 5 * ToBlocks lease <= total_seconds lease < 5 * ToBlocks lease + 5)
  /\ (total_seconds lease <= 0 ->
      ToBlocks lease <= 0
      /\ 5 * ToBlocks lease - 5 < total_seconds lease <= 5 * ToBlocks lease)
  /\ (-5 < total_seconds lease < 5 -> ToBlocks lease = 0)
  /\ (forall lease',
         GoInt.in_range (total_seconds lease') ->
         total_seconds lease <= total_seconds lease' ->
         ToBlocks lease <= ToBlocks lease').
Proof.
  intros H. rewrite ToBlocks_wrap, GoIntFacts.wrap64_id by exact H.
  split; [|split; [|split]].
  - intros Hpos. Z.to_euclidean_division_equations. lia.
  - intros Hneg. Z.to_euclidean_division_equations. lia.
  - intros Hsmall. Z.to_euclidean_division_equations. lia.
  - intros lease' H' Hle.
    rewrite ToBlocks_wrap, GoIntFacts.wrap64_id by exact H'.
    Z.to_euclidean_division_equations. lia.
Qed.

(** ** Numbers as bytes *)

Lemma byte_val_of z : 0 <= z < 256 -> byte_val (byte_of z) = z.
Proof.
  intros H. unfold byte_val, byte_of.
  rewrite N_ascii_embedding by lia. lia.
Qed.

Lemma be_value_bound l : 0 <= be_value l < 256 ^ Z.of_nat (List.length l).
Proof.
  induction l as [|b l IH].
  - cbn [be_value List.length]. change (256 ^ Z.of_nat 0) with 1. lia.
  - cbn [be_value List.length]. rewrite Nat2Z.inj_succ, Z.pow_succ_r by lia.
    pose proof (byte_val_range b). nia.
Qed.

Lemma be_value_zeros k l : be_value (repeat zero_byte k ++ l)%list = be_value l.
Proof.
  induction k as [|k IH]; [reflexivity|].
  cbn [repeat app be_value]. rewrite IH.
  change (byte_val zero_byte) with 0. lia.
Qed.

Lemma be_digits_value fuel : forall n acc,
  0 <= n < 2 ^ Z.of_nat fuel ->
  be_value (Big.be_digits fuel n acc)
  = n * 256 ^ Z.of_nat (List.length acc) + be_value acc.
Proof.
  induction fuel as [|fuel IH]; intros n acc H.
  - change (2 ^ Z.of_nat 0) with 1 in H. assert (n = 0) by lia. subst n.
    cbn [Big.be_digits]. lia.
  - cbn [Big.be_digits]. destruct (Z.leb_spec n 0) as [Hz | Hpos].
    + assert (n = 0) by lia. subst n. lia.
    + rewrite Nat2Z.inj_succ, Z.pow_succ_r in H by lia.
      rewrite IH.
      * cbn [be_value List.length].
        rewrite byte_val_of by (apply Z.mod_pos_bound; lia).
        rewrite Nat2Z.inj_succ, Z.pow_succ_r by lia.
        set (P := 256 ^ Z.of_nat (List.length acc)).
        pose proof (Z.div_mod n 256 ltac:(lia)) as Hn.
        replace (n * P) with ((256 * (n / 256) + n mod 256) * P)
          by (rewrite <- Hn; reflexivity).
        ring.
      * split; [apply Z.div_pos; lia|].
        apply Z.div_lt_upper_bound; [lia|].
        assert (0 < 2 ^ Z.of_nat fuel) by (apply Z.pow_pos_nonneg; lia). lia.
Qed.

(** The bytes of a number denote its absolute value. *)
Lemma Bytes_value x : be_value (Big.Bytes x) = Z.abs x.
Proof.
  unfold Big.Bytes. rewrite be_digits_value.
  - cbn [List.length be_value]. change (256 ^ Z.of_nat 0) with 1. lia.
  - split; [lia|].
    rewrite Nat2Z.inj_succ, Z2Nat.id by apply Z.log2_nonneg.
    destruct (Z.eq_dec (Z.abs x) 0) as [E0 | N0].
    + rewrite E0. reflexivity.
    + apply Z.log2_spec. lia.
Qed.

Lemma be_digits_length_le fuel : forall n acc k,
  0 <= n < 256 ^ Z.of_nat k ->
  (List.length (Big.be_digits fuel n acc) <= List.length acc + k)%nat.
Proof.
  induction fuel as [|fuel IH]; intros n acc k H.
  - cbn [Big.be_digits]. lia.
  - cbn [Big.be_digits]. destruct (Z.leb_spec n 0) as [Hz | Hpos]; [lia|].
    destruct k as [|k].
    + change (256 ^ Z.of_nat 0) with 1 in H. lia.
    + rewrite Nat2Z.inj_succ, Z.pow_succ_r in H by lia.
      specialize (IH (n / 256) (byte_of (n mod 256) :: acc) k).
      cbn [List.length] in IH.
      assert (0 <= n / 256 < 256 ^ Z.of_nat k).
      { split; [apply Z.div_pos; lia|].
        apply Z.div_lt_upper_bound; lia. }
      specialize (IH ltac:(assumption)). lia.
Qed.

(** A number takes at most [k] bytes exactly when it is below [256 ^ k]. *)
Lemma Bytes_length_le x k :
  Z.abs x < 256 ^ Z.of_nat k -> (List.length (Big.Bytes x) <= k)%nat.
Proof.
  intros H. unfold Big.Bytes.
  pose proof (be_digits_length_le (S (Z.to_nat (Z.log2 (Z.abs x)))) (Z.abs x) [] k
                ltac:(lia)) as L.
  cbn [List.length] in L. lia.
Qed.

Lemma Bytes_length_gt x k :
  256 ^ Z.of_nat k <= Z.abs x -> (k < List.length (Big.Bytes x))%nat.
Proof.
  intros H.
  destruct (Nat.lt_ge_cases k (List.length (Big.Bytes x))) as [L | L]; [exact L|].
  exfalso.
  pose proof (be_value_bound (Big.Bytes x)) as B. rewrite Bytes_value in B.
  assert (256 ^ Z.of_nat (List.length (Big.Bytes x)) <= 256 ^ Z.of_nat k)
    by (apply Z.pow_le_mono_r; lia).
  lia.
Qed.

Lemma copy_into_at (buf : bytes) (lo hi : Z) (src : bytes) :
  0 <= lo -> lo <= hi -> hi <= Z.of_nat (List.length buf) ->
  copy_into buf lo hi src
  = Done (firstn (Z.to_nat lo) buf
          ++ firstn (Nat.min (Z.to_nat (hi - lo)) (List.length src)) src
          ++ skipn (Z.to_nat lo + Nat.min (Z.to_nat (hi - lo)) (List.length src)) buf)%list.
Proof.
  intros H0 H1 H2. unfold copy_into.
  replace (lo <? 0) with false by (symmetry; apply Z.ltb_ge; lia).
  replace (hi <? lo) with false by (symmetry; apply Z.ltb_ge; lia).
  replace (Z.of_nat (List.length buf) <? hi) with false
    by (symmetry; apply Z.ltb_ge; lia).
  reflexivity.
Qed.

Lemma copy_into_negative (buf : bytes) (lo hi : Z) (src : bytes) :
  lo < 0 -> copy_into buf lo hi src = Panic slice_bounds.
Proof.
  intros H. unfold copy_into.
  replace (lo <? 0) with true by (symmetry; apply Z.ltb_lt; lia).
  reflexivity.
Qed.

(** [serializeSig] when S takes more than 32 bytes and at most 64: the
    second [copy] starts inside the half of R. *)
Lemma serializeSig_spill sig :
  (List.length (Big.Bytes (sigR sig)) <= 32)%nat ->
  (32 < List.length (Big.Bytes (sigS sig)) <= 64)%nat ->
  serializeSig sig
  = Done (firstn (64 - List.length (Big.Bytes (sigS sig)))
            (left_pad32 (Big.Bytes (sigR sig)))
          ++ Big.Bytes (sigS sig))%list.
Proof.
  intros Hr Hs. unfold serializeSig.
  set (r := Big.Bytes (sigR sig)) in *. set (s := Big.Bytes (sigS sig)) in *.
  rewrite copy_into_at by (rewrite ?repeat_length; lia).
  replace (Z.to_nat (32 - Z.of_nat (List.length r))) with (32 - List.length r)%nat
    by lia.
  replace (Z.to_nat (32 - (32 - Z.of_nat (List.length r)))) with (List.length r)
    by lia.
  rewrite Nat.min_id, firstn_all.
  rewrite firstn_repeat_le by lia.
  replace (32 - List.length r + List.length r)%nat with 32%nat by lia.
  rewrite skipn_repeat_sub.
  change (64 - 32)%nat with 32%nat.
  rewrite app_assoc. fold (left_pad32 r).
  assert (L1 : List.length (left_pad32 r) = 32%nat) by (apply left_pad32_length; exact Hr).
  rewrite copy_into_at by (rewrite ?length_app, ?L1, ?repeat_length; lia).
  replace (Z.to_nat (64 - Z.of_nat (List.length s))) with (64 - List.length s)%nat
    by lia.
  replace (Z.to_nat (64 - (64 - Z.of_nat (List.length s)))) with (List.length s)
    by lia.
  rewrite Nat.min_id, firstn_all.
  replace (64 - List.length s + List.length s)%nat with 64%nat by lia.
  rewrite firstn_app, L1.
  replace (64 - List.length s - 32)%nat with 0%nat by lia.
  rewrite firstn_O, app_nil_r.
  rewrite skipn_all2 by (rewrite length_app, L1, repeat_length; lia).
  rewrite app_nil_r. reflexivity.
Qed.

(** X2. [serializeSig] on numbers of any size. When R and S are below
    [2 ^ 256] in absolute value, as the numbers of a secp256k1 signature
    are, it returns 64 bytes whose first half read as a big-endian number is
    R and whose second half is S. When R takes more than 32 bytes, or S more
    than 64, the slice expression panics. When R fits and S takes 33 to 64
    bytes there is no panic: the bytes of S are written over the end of the
    half of R. *)
Theorem serializeSig_fits_or_panics sig :
  (Z.abs (sigR sig) < 2 ^ 256 ->
   Z.abs (sigS sig) < 2 ^ 256 ->
   exists b,
     serializeSig sig = Done b
     /\ List.length b = 64%nat
     /\ be_value (firstn 32 b) = Z.abs (sigR sig)
     /\ be_value (skipn 32 b) = Z.abs (sigS sig))
  /\ (2 ^ 256 <= Z.abs (sigR sig) \/ 2 ^ 512 <= Z.abs (sigS sig) ->
      serializeSig sig = Panic slice_bounds)
  /\ (Z.abs (sigR sig) < 2 ^ 256 ->
      2 ^ 256 <= Z.abs (sigS sig) < 2 ^ 512 ->
      exists b n,
        serializeSig sig = Done b
        /\ List.length b = 64%nat
        /\ n = List.length (Big.Bytes (sigS sig))
        /\ (32 < n <= 64)%nat
        /\ skipn (64 - n) b = Big.Bytes (sigS sig)
        /\ firstn (64 - n) b = firstn (64 - n) (left_pad32 (Big.Bytes (sigR sig)))).
Proof.
  change (2 ^ 256) with (256 ^ Z.of_nat 32).
  change (2 ^ 512) with (256 ^ Z.of_nat 64).
  split; [|split].
  - intros HR HS.
    apply Bytes_length_le in HR. apply Bytes_length_le in HS.
    pose proof (left_pad32_length _ HR) as LR.
    pose proof (left_pad32_length _ HS) as LS.
    eexists. split; [apply serializeSig_padded; assumption|].
    split; [rewrite length_app, LR, LS; reflexivity|].
    split.
    + rewrite firstn_app, LR. change (32 - 32)%nat with 0%nat.
      rewrite firstn_O, app_nil_r, firstn_all2 by lia.
      unfold left_pad32. rewrite be_value_zeros. apply Bytes_value.
    + rewrite skipn_app, LR. change (32 - 32)%nat with 0%nat.
      rewrite skipn_all2 by lia. cbn [skipn app].
      unfold left_pad32. rewrite be_value_zeros. apply Bytes_value.
  - intros Hbig. unfold serializeSig.
    destruct (Z.lt_ge_cases (Z.abs (sigR sig)) (256 ^ Z.of_nat 32)) as [HR | HR].
    + destruct Hbig as [Hbig | Hbig]; [lia|].
      apply Bytes_length_le in HR. apply Bytes_length_gt in Hbig.
      rewrite copy_into_at by (rewrite ?repeat_length; lia).
      apply copy_into_negative. lia.
    + apply Bytes_length_gt in HR.
      rewrite copy_into_negative by lia. reflexivity.
  - intros HR [HS1 HS2].
    apply Bytes_length_le in HR. apply Bytes_length_gt in HS1.
    apply Bytes_length_le in HS2.
    pose proof (left_pad32_length _ HR) as LR.
    exists (firstn (64 - List.length (Big.Bytes (sigS sig)))
              (left_pad32 (Big.Bytes (sigR sig)))
            ++ Big.Bytes (sigS sig))%list, (List.length (Big.Bytes (sigS sig))).
    assert (LF : List.length (firstn (64 - List.length (Big.Bytes (sigS sig)))
                                (left_pad32 (Big.Bytes (sigR sig))))
                 = (64 - List.length (Big.Bytes (sigS sig)))%nat).
    { rewrite length_firstn, LR. lia. }
    split; [apply serializeSig_spill; lia|].
    split; [rewrite length_app, LF; lia|].
    split; [reflexivity|]. split; [lia|].
    split.
    + rewrite skipn_app, LF, Nat.sub_diag.
      rewrite skipn_all2 by lia. reflexivity.
    + rewrite firstn_app, LF, Nat.sub_diag, firstn_O, app_nil_r.
      apply firstn_all2. lia.
Qed.

(** ** Decimal numbers, written and read back *)

Lemma digit_char_digit d :
  0 <= d < 10 ->
  Strconv.is_digit (Strconv.digit_char d) = true
  /\ byte_val (Strconv.digit_char d) - 48 = d.
Proof.
  intros H. unfold Strconv.is_digit, Strconv.digit_char.
  rewrite byte_val_of by lia. split; [|lia].
  apply andb_true_iff. split; apply Z.leb_le; lia.
Qed.

Lemma is_digit_not_sign c :
  Strconv.is_digit c = true ->
  Ascii.eqb c "-" = false /\ Ascii.eqb c "+" = false.
Proof.
  intros H. split.
  - destruct (Ascii.eqb_spec c "-") as [-> |]; [|reflexivity].
    vm_compute in H. discriminate.
  - destruct (Ascii.eqb_spec c "+") as [-> |]; [|reflexivity].
    vm_compute in H. discriminate.
Qed.

(** Reading the digits written for [n] appends [n] to what was read before. *)
Lemma digits_of_value fuel : forall n acc,
  0 <= n < 10 ^ Z.of_nat fuel ->
  exists k, 0 <= k /\ forall a,
    Strconv.digits_value a (Strconv.digits_of fuel n acc)
    = Strconv.digits_value (a * 10 ^ k + n) acc.
Proof.
  induction fuel as [|fuel IH]; intros n acc H.
  - change (10 ^ Z.of_nat 0) with 1 in H. assert (n = 0) by lia. subst n.
    exists 0. split; [lia|]. intros a. cbn [Strconv.digits_of].
    f_equal. change (10 ^ 0) with 1. lia.
  - rewrite Nat2Z.inj_succ, Z.pow_succ_r in H by lia.
    cbn [Strconv.digits_of].
    pose proof (Z.mod_pos_bound n 10 ltac:(lia)) as Hm.
    destruct (digit_char_digit (n mod 10) Hm) as [Hd Hv].
    destruct (Z.ltb_spec n 10) as [Hsmall | Hbig].
    + exists 1. split; [lia|]. intros a.
      cbn [Strconv.digits_value]. rewrite Hd, Hv.
      rewrite Z.mod_small by lia. f_equal.
    + destruct (IH (n / 10) (String (Strconv.digit_char (n mod 10)) acc))
        as [k [Hk Hread]].
      { split; [apply Z.div_pos; lia|]. apply Z.div_lt_upper_bound; lia. }
      exists (k + 1). split; [lia|]. intros a.
      rewrite Hread. cbn [Strconv.digits_value]. rewrite Hd, Hv.
      f_equal. rewrite Z.pow_add_r by lia. change (10 ^ 1) with 10.
      pose proof (Z.div_mod n 10 ltac:(lia)). lia.
Qed.

Lemma digits_of_head fuel : forall n acc,
  exists c rest,
    Strconv.digits_of (S fuel) n acc = String c rest
    /\ (0 <= n -> Strconv.is_digit c = true).
Proof.
  induction fuel as [|fuel IH]; intros n acc.
  - cbn [Strconv.digits_of]. do 2 eexists.
    split; [destruct (n <? 10); reflexivity|].
    intros _. apply digit_char_digit. apply Z.mod_pos_bound. lia.
  - remember (S fuel) as fuel1 eqn:Efuel.
    cbn [Strconv.digits_of].
    destruct (Z.ltb_spec n 10) as [Hsmall | Hbig].
    + do 2 eexists. split; [reflexivity|].
      intros _. apply digit_char_digit. apply Z.mod_pos_bound. lia.
    + subst fuel1.
      destruct (IH (n / 10) (String (Strconv.digit_char (n mod 10)) acc))
        as [c [rest [Heq Hc]]].
      exists c, rest. split; [exact Heq|].
      intros Hn. apply Hc. apply Z.div_pos; lia.
Qed.

Lemma Atoi_digits c rest v :
  Strconv.is_digit c = true ->
  Strconv.digits_value 0 (String c rest) = Some v ->
  GoInt.in_range v ->
  Strconv.Atoi (String c rest) = (v, None).
Proof.
  intros Hc Hv Hfit. destruct (is_digit_not_sign c Hc) as [Hm Hp].
  unfold Strconv.Atoi. rewrite Hm, Hp.
  cbv beta iota zeta delta [orb]. rewrite Hv.
  unfold GoInt.in_range in Hfit.
  replace (v <? GoInt.min_int) with false by (symmetry; apply Z.ltb_ge; lia).
  replace (GoInt.max_int <? v) with false by (symmetry; apply Z.ltb_ge; lia).
  reflexivity.
Qed.

Lemma Atoi_minus_digits c rest v :
  Strconv.is_digit c = true ->
  Strconv.digits_value 0 (String c rest) = Some v ->
  GoInt.in_range (- v) ->
  Strconv.Atoi (String "-" (String c rest)) = (- v, None).
Proof.
  intros Hc Hv Hfit.
  unfold Strconv.Atoi. change (Ascii.eqb "-" "-") with true.
  cbv beta iota zeta delta [orb]. rewrite Hv.
  unfold GoInt.in_range in Hfit.
  replace (- v <? GoInt.min_int) with false by (symmetry; apply Z.ltb_ge; lia).
  replace (GoInt.max_int <? - v) with false by (symmetry; apply Z.ltb_ge; lia).
  reflexivity.
Qed.

(** [strconv.Atoi] reads back what [strconv.Itoa] wrote. *)
Lemma Atoi_Itoa n : GoInt.in_range n -> Strconv.Atoi (Strconv.Itoa n) = (n, None).
Proof.
  intros Hfit. unfold Strconv.Itoa.
  assert (Hpow : 10 ^ Z.of_nat 20 = 100000000000000000000) by reflexivity.
  assert (Hb : - 9223372036854775808 <= n <= 9223372036854775807).
  { unfold GoInt.in_range, GoInt.min_int, GoInt.max_int in Hfit.
    change (2 ^ 63) with 9223372036854775808 in Hfit. lia. }
  destruct (Z.ltb_spec n 0) as [Hneg | Hpos].
  - destruct (digits_of_head 19 (- n) EmptyString) as [c [rest [Heq Hc]]].
    destruct (digits_of_value 20 (- n) EmptyString ltac:(rewrite Hpow; lia))
      as [k [_ Hread]].
    specialize (Hread 0). rewrite Heq in Hread.
    change (Strconv.digits_value (0 * 10 ^ k + - n) EmptyString)
      with (Some (0 * 10 ^ k + - n)) in Hread.
    replace (0 * 10 ^ k + - n) with (- n) in Hread by lia.
    rewrite Heq.
    rewrite (Atoi_minus_digits c rest (- n));
      [f_equal; lia | apply Hc; lia | exact Hread |].
    replace (- - n) with n by lia. exact Hfit.
  - destruct (digits_of_head 19 n EmptyString) as [c [rest [Heq Hc]]].
    destruct (digits_of_value 20 n EmptyString ltac:(rewrite Hpow; lia))
      as [k [_ Hread]].
    specialize (Hread 0). rewrite Heq in Hread.
    change (Strconv.digits_value (0 * 10 ^ k + n) EmptyString)
      with (Some (0 * 10 ^ k + n)) in Hread.
    replace (0 * 10 ^ k + n) with n in Hread by lia.
    rewrite Heq.
    apply Atoi_digits; [apply Hc; lia | exact Hread | exact Hfit].
Qed.

Lemma Atoi_range s : GoInt.in_range (fst (Strconv.Atoi s)).
Proof.
  assert (H0 : GoInt.in_range 0) by (vm_compute; split; discriminate).
  assert (Hmin : GoInt.in_range GoInt.min_int) by (vm_compute; split; discriminate).
  assert (Hmax : GoInt.in_range GoInt.max_int) by (vm_compute; split; discriminate).
  unfold Strconv.Atoi. destruct s as [|c rest]; [exact H0|].
  cbv zeta.
  destruct (if Ascii.eqb c "-" || Ascii.eqb c "+" then rest else String c rest)
    as [|c' rest']; [exact H0|].
  destruct (Strconv.digits_value 0 (String c' rest')) as [v|]; [|exact H0].
  set (n := if Ascii.eqb c "-" then - v else v).
  destruct (Z.ltb_spec n GoInt.min_int); [exact Hmin|].
  destruct (Z.ltb_spec GoInt.max_int n); [exact Hmax|].
  cbn [fst]. unfold GoInt.in_range. lia.
Qed.

(** ** The fee statements, applied twice *)

Lemma template_amount_range fee a0 :
  template_amount fee = Done a0 -> GoInt.in_range a0.
Proof.
  assert (H0 : GoInt.in_range 0) by (vm_compute; split; discriminate).
  unfold template_amount. intros H.
  destruct (negb (slice_len (fee_Amount fee) =? 0)); [|inversion H; subst; exact H0].
  destruct (fee_Amount fee) as [[|[a|] rest]|];
    try (inversion H; subst; exact H0); try discriminate.
  pose proof (Atoi_range (Amount a)) as R.
  destruct (Strconv.Atoi (Amount a)) as [v [e|]]; inversion H; subst;
    [exact H0 | exact R].
Qed.

Lemma clamp_gas_range gas g :
  GoInt.in_range gas -> GoInt.in_range (MaxGas g) -> GoInt.in_range (clamp_gas gas g).
Proof. intros Hg Hm. unfold clamp_gas. destruct (_ && _); assumption. Qed.

Lemma clamp_gas_idem gas g : clamp_gas (clamp_gas gas g) g = clamp_gas gas g.
Proof.
  unfold clamp_gas.
  destruct (Z.eqb_spec (MaxGas g) 0) as [E0 | N0]; cbv beta iota delta [negb andb].
  - reflexivity.
  - destruct (Z.ltb_spec (MaxGas g) gas) as [L | L].
    + rewrite Z.ltb_irrefl. reflexivity.
    + replace (MaxGas g <? gas) with false by (symmetry; apply Z.ltb_ge; lia).
      reflexivity.
Qed.

Lemma fee_amount_range amount gas g :
  GoInt.in_range amount -> GoInt.in_range (MaxFee g) ->
  GoInt.in_range (fee_amount amount gas g).
Proof.
  intros Ha Hm. unfold fee_amount.
  destruct (negb (MaxFee g =? 0)); [exact Hm|].
  destruct (negb (GasPrice g =? 0)); [apply GoIntFacts.wrap64_range | exact Ha].
Qed.

Lemma fee_amount_idem amount gas g :
  fee_amount (fee_amount amount gas g) gas g = fee_amount amount gas g.
Proof.
  unfold fee_amount.
  destruct (negb (MaxFee g =? 0)); [reflexivity|].
  destruct (negb (GasPrice g =? 0)); reflexivity.
Qed.

(** The fee that the fee statements write is a fixed point of theirs. *)
Lemma setFee_idempotent fee g fee' :
  GoInt.in_range (MaxGas g) ->
  GoInt.in_range (MaxFee g) ->
  setFee fee g = Done fee' ->
  setFee fee' g = Done fee'.
Proof.
  intros HG HF H. unfold setFee in H.
  destruct (template_amount fee) as [a0 | m |] eqn:Ha; try discriminate.
  pose proof (template_amount_range _ _ Ha) as Ra.
  assert (Rg : GoInt.in_range (clamp_gas (template_gas fee) g)).
  { apply clamp_gas_range; [apply Atoi_range | exact HG]. }
  assert (Rm : GoInt.in_range (fee_amount a0 (clamp_gas (template_gas fee) g) g)).
  { apply fee_amount_range; assumption. }
  set (gas1 := clamp_gas (template_gas fee) g) in *.
  set (amt1 := fee_amount a0 gas1 g) in *.
  inversion H as [Hfee]. clear H.
  unfold setFee. rewrite template_amount_first. cbn [Amount].
  rewrite (Atoi_Itoa amt1 Rm). cbn [fst snd].
  unfold template_gas. cbn [Gas]. rewrite (Atoi_Itoa gas1 Rg). cbn [fst].
  unfold gas1 at 1 2. rewrite clamp_gas_idem. fold gas1.
  unfold amt1 at 1. rewrite fee_amount_idem. reflexivity.
Qed.

(** ** Counting what a run has done *)

Lemma gained_app p s s' evs :
  trace s' = (trace s ++ evs)%list -> gained p s s' = Z.of_nat (count p evs).
Proof. intros H. unfold gained. rewrite H, count_app. lia. Qed.

Lemma gained_trans p s s1 s2 :
  gained p s s2 = gained p s s1 + gained p s1 s2.
Proof. unfold gained. lia. Qed.

Lemma gained_refl p s : gained p s s = 0.
Proof. unfold gained. lia. Qed.

Ltac tally :=
  unfold count;
  cbn [filter is_any_http is_sleep is_setAccount List.length app];
  lia.

Section MorePipelineProperties.

Context {E : Externals}.

(** *** From [SendTransaction] to its two halves *)

Lemma SendTransaction_validate_error txn s payload e sv :
  ValidateTransaction txn s = (Done (payload, Some e), sv) ->
  SendTransaction txn s = (Done (None, Some e), sv).
Proof.
  intros Hv.
  unfold SendTransaction, worker, ProcessTransaction. unfold bind at 1. unfold bind at 1.
  assert (Hv0 : ValidateTransaction (set_txn_broadcastRetries 0 txn) s
                = (Done (payload, Some e), sv)) by exact Hv.
  rewrite Hv0. reflexivity.
Qed.

Lemma SendTransaction_broadcast txn s payload sv :
  ValidateTransaction txn s = (Done (payload, None), sv) ->
  SendTransaction txn s = BroadcastTransaction payload (txn_GasInfo txn) sv.
Proof.
  intros Hv.
  unfold SendTransaction, worker, ProcessTransaction. unfold bind at 1. unfold bind at 1.
  assert (Hv0 : ValidateTransaction (set_txn_broadcastRetries 0 txn) s
                = (Done (payload, None), sv)) by exact Hv.
  rewrite Hv0. unfold bind at 1. cbn [txn_GasInfo set_txn_broadcastRetries].
  destruct (BroadcastTransaction payload (txn_GasInfo txn) sv) as [[[res e] | m |] s2];
    reflexivity.
Qed.

Lemma ValidateTransaction_done_state txn s r sv :
  ValidateTransaction txn s = (Done r, sv) -> sv = validated s txn.
Proof.
  intros Hv. apply ValidateTransaction_state in Hv.
  destruct Hv as [[_ Hs] | [_ [_ Ho]]]; [exact Hs | discriminate].
Qed.

(** One attempt: the client is as it was, at most one request, no sleep and
    no lookup. *)
Lemma broadcast_attempt_gains txn gasInfo s o s' :
  broadcast_attempt txn gasInfo s = (o, s') ->
  client s' = client s
  /\ 0 <= gained is_any_http s s' <= 1
  /\ gained is_sleep s s' = 0
  /\ gained is_setAccount s s' = 0.
Proof.
  intros H. apply broadcast_attempt_effects in H.
  destruct H as [Hc [Ht | [body Ht]]]; (split; [exact Hc|]);
    rewrite !(gained_app _ _ _ _ Ht); cbn; lia.
Qed.

Lemma broadcast_attempt_early_nil txn gasInfo s x e s' :
  broadcast_attempt txn gasInfo s = (Done (inl (x, e)), s') -> x = None.
Proof.
  unfold broadcast_attempt. unfold bind at 1. rewrite makeRandomString_run.
  intros H.
  destruct txn as [txn|]; [|discriminate].
  destruct gasInfo as [gasInfo|]; [|inversion H; reflexivity].
  cbn [Fee set_Memo] in H.
  destruct (Fee txn) as [fee|]; [|discriminate].
  unfold bind at 1, lift_outcome at 1 in H.
  destruct (setFee fee gasInfo) as [fee' | m |]; [|discriminate..].
  unfold bind at 1 in H.
  destruct (SignTransaction _ _) as [osig s1].
  destruct osig as [[signature [e0|]] | m |];
    [inversion H; reflexivity | | discriminate..].
  unfold bind at 1, get_client at 1 in H. unfold bind at 1 in H.
  rewrite APIMutate_run in H.
  repeat break_run H; inversion H; reflexivity.
Qed.

(** What [BroadcastTransaction] does with a response that is no conflict
    and has a code other than 0. *)
Lemma BroadcastTransaction_fatal txn gasInfo s p' g' r s1 :
  broadcast_attempt txn gasInfo s = (Done (inr (p', g', r)), s1) ->
  Code r <> 0 ->
  Strings.Contains (RawLog r) conflict_marker = false ->
  BroadcastTransaction txn gasInfo s = (Done (None, Some (Errorf (RawLog r))), s1).
Proof.
  intros Hattempt Hcode Hlog.
  unfold BroadcastTransaction, retry_budget. unfold bind at 1, get_client at 1.
  cbn [BroadcastTransaction_rec]. unfold bind at 1. rewrite Hattempt.
  apply Z.eqb_neq in Hcode. rewrite Hcode, Hlog. reflexivity.
Qed.

Lemma BroadcastTransaction_early txn gasInfo s early s1 :
  broadcast_attempt txn gasInfo s = (Done (inl early), s1) ->
  BroadcastTransaction txn gasInfo s = (Done early, s1).
Proof.
  intros Hattempt.
  unfold BroadcastTransaction, retry_budget. unfold bind at 1, get_client at 1.
  cbn [BroadcastTransaction_rec]. unfold bind at 1. rewrite Hattempt. reflexivity.
Qed.

(** X3. Only a conflict is retried. Once validation has handed back a
    payload, a broadcast that fails in any other way ends the submission at
    once: an attempt that returns before a response is read (no gas policy, a
    signing error, a transport error, an error envelope, a body that cannot
    be decoded) gives its error and no bytes; a response with a code other
    than 0 and without the conflict marker gives its raw log as the error.
    In both cases the client is as it was before the submission, sequence
    and retry counter included, and the submission made at most two requests,
    no sleep and no account lookup. *)
Theorem only_a_conflict_is_retried txn s p sv :
  ValidateTransaction txn s = (Done (Some p, None), sv) ->
  (forall early s1,
      broadcast_attempt (Some p) (txn_GasInfo txn) sv = (Done (inl early), s1) ->
      SendTransaction txn s = (Done early, s1)
      /\ fst early = None /\ snd early <> None
      /\ client s1 = client s
      /\ 1 <= gained is_any_http s s1 <= 2
      /\ gained is_sleep s s1 = 0
      /\ gained is_setAccount s s1 = 0)
  /\ (forall p' g' r s1,
         broadcast_attempt (Some p) (txn_GasInfo txn) sv = (Done (inr (p', g', r)), s1) ->
         Code r <> 0 ->
         Strings.Contains (RawLog r) conflict_marker = false ->
         SendTransaction txn s = (Done (None, Some (Errorf (RawLog r))), s1)
         /\ client s1 = client s
         /\ gained is_any_http s s1 = 2
         /\ gained is_sleep s s1 = 0
         /\ gained is_setAccount s s1 = 0).
Proof.
  intros Hv.
  pose proof (ValidateTransaction_done_state _ _ _ _ Hv) as Hsv.
  assert (Gv : forall q, gained q s sv
                         = Z.of_nat (count q [EvHttp (ApiRequestMethod txn)
                                                (validate_url s txn)
                                                (validate_request (client s) txn)])).
  { intros q. apply gained_app. subst sv. reflexivity. }
  assert (Cv : client sv = client s) by (subst sv; reflexivity).
  rewrite (SendTransaction_broadcast _ _ _ _ Hv).
  split.
  - intros [x e] s1 Hattempt.
    pose proof (broadcast_attempt_gains _ _ _ _ _ Hattempt) as [Hc [Hh [Hsl Hsa]]].
    split; [apply BroadcastTransaction_early; exact Hattempt|].
    split; [exact (broadcast_attempt_early_nil _ _ _ _ _ _ Hattempt)|].
    split; [exact (broadcast_attempt_early_error _ _ _ _ _ _ Hattempt)|].
    split; [congruence|].
    rewrite !(gained_trans _ s sv s1), !Gv, Hsl, Hsa. tally.
  - intros p' g' r s1 Hattempt Hcode Hlog.
    split; [apply (BroadcastTransaction_fatal _ _ _ _ _ _ _ Hattempt Hcode Hlog)|].
    pose proof (broadcast_attempt_inv _ _ _ _ _ Hattempt)
      as [Hc [[_ Hno] | [q [g [fee [fee' [sg [_ [_ [_ [_ [Ht _]]]]]]]]]]]].
    + exfalso. exact (Hno _ eq_refl).
    + split; [congruence|].
      rewrite !(gained_trans _ s sv s1), !Gv, !(gained_app _ _ _ _ Ht).
      tally.
Qed.

(** X4. A record that fails validation goes no further. When the validate
    request cannot be made to work (the round trip fails, the answer is an
    error envelope or cannot be read, or its body does not decode),
    [SendTransaction] returns that error and no bytes, and all that has
    happened is the one validate request: the clock was not read, nothing
    was signed or sent to [/txs], and the client is as it was. *)
Theorem failed_validation_sends_nothing txn s :
  http_NewRequest_ok (ApiRequestMethod txn) (validate_url s txn) = true ->
  (forall e,
      http_Do (trace s) (ApiRequestMethod txn) (validate_url s txn)
        (validate_request (client s) txn) = inr e ->
      SendTransaction txn s = (Done (None, Some e), validated s txn))
  /\ (forall res b e,
         http_Do (trace s) (ApiRequestMethod txn) (validate_url s txn)
           (validate_request (client s) txn) = inl res ->
         parseResponse res = (b, Some e) ->
         SendTransaction txn s = (Done (None, Some e), validated s txn))
  /\ (forall res body,
         http_Do (trace s) (ApiRequestMethod txn) (validate_url s txn)
           (validate_request (client s) txn) = inl res ->
         parseResponse res = (Some body, None) ->
         Unmarshal dec_TransactionValidateResponse
           zero_TransactionValidateResponse body = None ->
         SendTransaction txn s = (Done (None, Some json_error), validated s txn))
  /\ (forall payload e sv,
         ValidateTransaction txn s = (Done (payload, Some e), sv) ->
         SendTransaction txn s = (Done (None, Some e), sv)
         /\ client sv = client s
         /\ trace sv
            = (trace s ++ [EvHttp (ApiRequestMethod txn) (validate_url s txn)
                             (validate_request (client s) txn)])%list).
Proof.
  intros Hnew.
  pose proof (ValidateTransaction_run txn s Hnew) as Hrun.
  split; [|split; [|split]].
  - intros e Hdo. rewrite Hdo in Hrun.
    exact (SendTransaction_validate_error _ _ _ _ _ Hrun).
  - intros res b e Hdo Hparse. rewrite Hdo, Hparse in Hrun.
    destruct b; exact (SendTransaction_validate_error _ _ _ _ _ Hrun).
  - intros res body Hdo Hparse Hdec. rewrite Hdo, Hparse, Hdec in Hrun.
    exact (SendTransaction_validate_error _ _ _ _ _ Hrun).
  - intros payload e sv Hv.
    split; [exact (SendTransaction_validate_error _ _ _ _ _ Hv)|].
    apply ValidateTransaction_done_state in Hv. subst sv.
    split; reflexivity.
Qed.

(** X5. A record whose method [http.NewRequest] turns down stops the
    process: [APIMutate] does not check the error of [http.NewRequest] and
    sets a header on the nil request. [SendTransaction] panics with a nil
    dereference before any request is sent, and nothing has changed. *)
Theorem rejected_request_panics txn s :
  http_NewRequest_ok (ApiRequestMethod txn) (validate_url s txn) = false ->
  SendTransaction txn s = (Panic nil_deref, s)
  /\ APIMutate (ApiRequestMethod txn) (ApiRequestEndpoint txn)
       (validate_request (client s) txn) s = (Panic nil_deref, s).
Proof.
  intros Hnew. split.
  - unfold SendTransaction, worker, ProcessTransaction.
    unfold bind at 1. unfold bind at 1.
    unfold ValidateTransaction. unfold bind at 1, get_client at 1.
    unfold bind at 1. rewrite APIMutate_run.
    cbn [ApiRequestMethod ApiRequestEndpoint set_txn_broadcastRetries].
    fold (validate_url s txn). rewrite Hnew. reflexivity.
  - rewrite APIMutate_run. fold (validate_url s txn). rewrite Hnew. reflexivity.
Qed.

(** X6. When the key cannot sign, nothing is broadcast. After validation,
    the attempt reads the clock for the memo, resolves the fee, and returns
    the error of [Sign] with no bytes: no request goes to [/txs], and the
    sequence and the retry counter are as they were. *)
Theorem signing_error_sends_nothing txn s p sv g fee fee' e :
  ValidateTransaction txn s = (Done (Some p, None), sv) ->
  txn_GasInfo txn = Some g ->
  Fee p = Some fee ->
  setFee fee g = Done fee' ->
  privateKey_Sign (privateKey (client s))
    (signing_hash (client s)
       (set_Fee (Some fee') (set_Memo (memo_of_seed (time_Now (trace sv))) p)))
  = inr e ->
  SendTransaction txn s
  = (Done (None, Some e), log (EvNow (time_Now (trace sv))) sv)
  /\ SignTransaction
       (set_Fee (Some fee') (set_Memo (memo_of_seed (time_Now (trace sv))) p)) s
     = (Done (""%string, Some e), s)
  /\ gained is_any_http s (log (EvNow (time_Now (trace sv))) sv) = 1.
Proof.
  intros Hv Hgas Hfee HsetFee Hsign.
  pose proof (ValidateTransaction_done_state _ _ _ _ Hv) as Hsv.
  assert (Cv : client sv = client s) by (subst sv; reflexivity).
  split; [|split].
  - rewrite (SendTransaction_broadcast _ _ _ _ Hv), Hgas.
    apply BroadcastTransaction_early.
    unfold broadcast_attempt. unfold bind at 1. rewrite makeRandomString_run.
    cbn [Fee set_Memo]. rewrite Hfee.
    unfold bind at 1, lift_outcome at 1. rewrite HsetFee.
    unfold bind at 1. unfold SignTransaction at 1.
    unfold bind at 1, get_client at 1. cbn [client log]. rewrite Cv.
    fold (set_Memo (memo_of_seed (time_Now (trace sv))) p).
    rewrite Hsign. reflexivity.
  - unfold SignTransaction. unfold bind at 1, get_client at 1.
    rewrite Hsign. reflexivity.
  - rewrite (gained_app _ s _ [EvHttp (ApiRequestMethod txn) (validate_url s txn)
                                 (validate_request (client s) txn);
                               EvNow (time_Now (trace sv))]).
    + tally.
    + subst sv. unfold log, validated, log. cbn [trace]. rewrite <- app_assoc.
      reflexivity.
Qed.

(** *** One conflict *)

(** A conflict below the retry limit: the counter goes up, the client
    sleeps and looks the account up; an error of the lookup is returned,
    and otherwise the function calls itself on the payload it has just
    sent. *)
Lemma BroadcastTransaction_rec_conflict fuel txn gasInfo s p1 g1 r1 s1 :
  broadcast_attempt txn gasInfo s = (Done (inr (p1, g1, r1)), s1) ->
  Code r1 <> 0 ->
  Strings.Contains (RawLog r1) conflict_marker = true ->
  GoInt.in_range (broadcastRetries (client s)) ->
  broadcastRetries (client s) + 1 < BROADCAST_MAX_RETRIES ->
  broadcastRetries (increment_broadcastRetries (client s))
  = broadcastRetries (client s) + 1
  /\ BroadcastTransaction_rec (S fuel) txn gasInfo s
     = match ledger_Account (trace s1 ++ [EvSleep BROADCAST_RETRY_INTERVAL])%list with
       | inr e =>
           (Done (None, Some e),
            {| client := increment_broadcastRetries (client s);
               trace := (trace s1 ++ [EvSleep BROADCAST_RETRY_INTERVAL;
                                      EvSetAccount])%list |})
       | inl a =>
           BroadcastTransaction_rec fuel (Some p1) (Some g1)
             {| client := set_account a (increment_broadcastRetries (client s));
                trace := (trace s1 ++ [EvSleep BROADCAST_RETRY_INTERVAL;
                                       EvSetAccount])%list |}
       end.
Proof.
  intros Hattempt Hcode Hlog Hfit Hlow.
  pose proof (broadcast_attempt_effects _ _ _ _ _ Hattempt) as [Hclient _].
  assert (Hinc : broadcastRetries (increment_broadcastRetries (client s))
                 = broadcastRetries (client s) + 1).
  { apply increment_broadcastRetries_spec.
    unfold GoInt.in_range, GoInt.min_int, GoInt.max_int, BROADCAST_MAX_RETRIES in *.
    lia. }
  split; [exact Hinc|].
  cbn [BroadcastTransaction_rec]. unfold bind at 1. rewrite Hattempt.
  apply Z.eqb_neq in Hcode. rewrite Hcode, Hlog.
  unfold bind at 1, modify_client at 1. unfold bind at 1, get_client at 1.
  cbn [client]. rewrite Hclient, Hinc.
  replace (BROADCAST_MAX_RETRIES <=? broadcastRetries (client s) + 1) with false
    by (symmetry; apply Z.leb_gt; lia).
  unfold bind at 1, emit at 1. unfold bind at 1. rewrite setAccount_run.
  cbn [trace client].
  destruct (ledger_Account _) as [a | e].
  - rewrite <- app_assoc. reflexivity.
  - unfold log. cbn [trace client]. rewrite <- app_assoc. reflexivity.
Qed.

Lemma BroadcastTransaction_rec_success fuel txn gasInfo s p' g' r s1 :
  broadcast_attempt txn gasInfo s = (Done (inr (p', g', r)), s1) ->
  Code r = 0 ->
  BroadcastTransaction_rec (S fuel) txn gasInfo s
  = (Done (if String.eqb (Data r) ""
           then (Some ""%string, None)
           else (Some (fst (Hex.DecodeString (Data r))),
                 snd (Hex.DecodeString (Data r)))),
     {| client := increment_Sequence (client s); trace := trace s1 |}).
Proof.
  intros Hattempt Hcode.
  pose proof (broadcast_attempt_effects _ _ _ _ _ Hattempt) as [Hclient _].
  cbn [BroadcastTransaction_rec]. unfold bind at 1. rewrite Hattempt.
  rewrite Hcode. cbn [Z.eqb].
  unfold bind, modify_client, ret. rewrite Hclient.
  destruct (String.eqb (Data r) ""); [reflexivity|].
  destruct (Hex.DecodeString (Data r)); reflexivity.
Qed.

Lemma retry_budget_succ r :
  r + 1 < BROADCAST_MAX_RETRIES ->
  exists n, retry_budget r = S (S n).
Proof.
  intros H. unfold retry_budget.
  exists (Nat.pred (Z.to_nat (BROADCAST_MAX_RETRIES - 1 - r))).
  unfold BROADCAST_MAX_RETRIES in *. lia.
Qed.

(** X7. A conflict whose account lookup fails ends the submission. After a
    conflict response below the retry limit the client adds 1 to its retry
    counter, sleeps for the retry interval and asks the ledger for the
    account; when that lookup fails, [SendTransaction] returns the error of
    the lookup and no bytes. Nothing is sent again, the account is as it
    was, and the counter keeps the 1 it gained. *)
Theorem failed_lookup_ends_the_retries txn s p sv p1 g1 r1 s1 e :
  ValidateTransaction txn s = (Done (Some p, None), sv) ->
  broadcast_attempt (Some p) (txn_GasInfo txn) sv = (Done (inr (p1, g1, r1)), s1) ->
  Code r1 <> 0 ->
  Strings.Contains (RawLog r1) conflict_marker = true ->
  GoInt.in_range (broadcastRetries (client s)) ->
  broadcastRetries (client s) + 1 < BROADCAST_MAX_RETRIES ->
  ledger_Account (trace s1 ++ [EvSleep BROADCAST_RETRY_INTERVAL])%list = inr e ->
  exists s2,
    SendTransaction txn s = (Done (None, Some e), s2)
    /\ trace s2
       = (trace s1 ++ [EvSleep BROADCAST_RETRY_INTERVAL; EvSetAccount])%list
    /\ account (client s2) = account (client s)
    /\ broadcastRetries (client s2) = broadcastRetries (client s) + 1
    /\ gained is_any_http s s2 = 2
    /\ gained is_sleep s s2 = 1.
Proof.
  intros Hv Hattempt Hcode Hlog Hfit Hlow Hledger.
  pose proof (ValidateTransaction_done_state _ _ _ _ Hv) as Hsv.
  assert (Cv : client sv = client s) by (subst sv; reflexivity).
  rewrite <- Cv in Hfit, Hlow.
  destruct (retry_budget_succ _ Hlow) as [n Hn].
  destruct (BroadcastTransaction_rec_conflict (S n) _ _ _ _ _ _ _
              Hattempt Hcode Hlog Hfit Hlow) as [Hinc Hrun].
  rewrite Hledger in Hrun.
  eexists. split.
  - rewrite (SendTransaction_broadcast _ _ _ _ Hv).
    unfold BroadcastTransaction. unfold bind at 1, get_client at 1.
    rewrite Hn. exact Hrun.
  - cbn [trace client]. split; [reflexivity|].
    split; [rewrite Cv; reflexivity|].
    split; [rewrite Hinc, Cv; reflexivity|].
    pose proof (broadcast_attempt_inv _ _ _ _ _ Hattempt)
      as [_ [[_ Hno] | [q [g [fee [fee' [sg [_ [_ [_ [_ [Ht _]]]]]]]]]]]].
    + exfalso. exact (Hno _ eq_refl).
    + assert (Ht2 : forall c,
                 trace {| client := c;
                          trace := (trace s1 ++ [EvSleep BROADCAST_RETRY_INTERVAL;
                                                 EvSetAccount])%list |}
                 = (trace s
                    ++ [EvHttp (ApiRequestMethod txn) (validate_url s txn)
                          (validate_request (client s) txn);
                        EvNow (time_Now (trace sv));
                        EvHttp "POST" (txs_url sv)
                          (broadcast_request (sent_payload sv q fee' sg));
                        EvSleep BROADCAST_RETRY_INTERVAL; EvSetAccount])%list).
      { intros c. cbn [trace]. rewrite Ht. subst sv.
        unfold validated at 1, log. cbn [trace]. rewrite <- !app_assoc. reflexivity. }
      rewrite !(gained_app _ _ _ _ (Ht2 _)). split; tally.
Qed.

(** X8. A retry starts from what the ledger says. After a conflict the
    account of the client is replaced by the one the ledger reports, so the
    retry is signed with the ledger's account number and sequence, whatever
    the client held before. When the retry is accepted, the sequence of the
    client is the ledger's plus 1; the retry counter keeps the 1 it gained
    at the conflict and is not put back by the success. *)
Theorem retry_starts_from_the_ledger txn s p sv p1 g1 r1 s1 a p2 g2 r2 s3 :
  ValidateTransaction txn s = (Done (Some p, None), sv) ->
  broadcast_attempt (Some p) (txn_GasInfo txn) sv = (Done (inr (p1, g1, r1)), s1) ->
  Code r1 <> 0 ->
  Strings.Contains (RawLog r1) conflict_marker = true ->
  GoInt.in_range (broadcastRetries (client s)) ->
  broadcastRetries (client s) + 1 < BROADCAST_MAX_RETRIES ->
  ledger_Account (trace s1 ++ [EvSleep BROADCAST_RETRY_INTERVAL])%list = inl a ->
  broadcast_attempt (Some p1) (Some g1)
    {| client := set_account a (increment_broadcastRetries (client s));
       trace := (trace s1 ++ [EvSleep BROADCAST_RETRY_INTERVAL; EvSetAccount])%list |}
  = (Done (inr (p2, g2, r2)), s3) ->
  Code r2 = 0 ->
  GoInt.in_range (Sequence a + 1) ->
  exists s4 sg,
    SendTransaction txn s
    = (Done (if String.eqb (Data r2) ""
             then (Some ""%string, None)
             else (Some (fst (Hex.DecodeString (Data r2))),
                   snd (Hex.DecodeString (Data r2)))), s4)
    /\ Signatures p2 = Some [Some sg]
    /\ sig_AccountNumber sg = Strconv.Itoa (AccountNumber a)
    /\ sig_Sequence sg = Strconv.Itoa (Sequence a)
    /\ AccountNumber (account (client s4)) = AccountNumber a
    /\ sequence_of s4 = Sequence a + 1
    /\ broadcastRetries (client s4) = broadcastRetries (client s) + 1
    /\ trace s4 = trace s3.
Proof.
  intros Hv Hattempt Hcode Hlog Hfit Hlow Hledger Hretry Hcode2 Hseq.
  pose proof (ValidateTransaction_done_state _ _ _ _ Hv) as Hsv.
  assert (Cv : client sv = client s) by (subst sv; reflexivity).
  rewrite <- Cv in Hfit, Hlow, Hretry.
  destruct (retry_budget_succ _ Hlow) as [n Hn].
  destruct (BroadcastTransaction_rec_conflict (S n) _ _ _ _ _ _ _
              Hattempt Hcode Hlog Hfit Hlow) as [Hinc Hrun].
  rewrite Hledger in Hrun.
  rewrite (BroadcastTransaction_rec_success n _ _ _ _ _ _ _ Hretry Hcode2) in Hrun.
  pose proof (broadcast_attempt_inv _ _ _ _ _ Hretry)
    as [_ [[_ Hno] | [q [g [fee [fee' [sg [_ [_ [_ [_ [_ Hsent]]]]]]]]]]]].
  { exfalso. exact (Hno _ eq_refl). }
  destruct (Hsent _ _ _ eq_refl) as [Hp2 _].
  eexists. eexists. split.
  - rewrite (SendTransaction_broadcast _ _ _ _ Hv).
    unfold BroadcastTransaction. unfold bind at 1, get_client at 1.
    rewrite Hn. exact Hrun.
  - split; [rewrite Hp2; reflexivity|].
    split; [reflexivity|]. split; [reflexivity|].
    split; [reflexivity|].
    split.
    + unfold sequence_of. cbn [client].
      rewrite increment_Sequence_spec; [reflexivity | exact Hseq].
    + split; [|reflexivity].
      cbn [client increment_Sequence set_account broadcastRetries account].
      rewrite <- Cv. exact Hinc.
Qed.

(** *** What any run stays within *)

Lemma attempts_left_pos r : 1 <= Z.of_nat (attempts_left r).
Proof. unfold attempts_left. lia. Qed.

Lemma attempts_left_succ r :
  r + 1 < BROADCAST_MAX_RETRIES ->
  Z.of_nat (attempts_left r) = Z.of_nat (attempts_left (r + 1)) + 1.
Proof. unfold attempts_left, BROADCAST_MAX_RETRIES. lia. Qed.

(** A run that ends where the attempt ended, or there with another account
    or one more on the counter. *)
Lemma within_budget_one_attempt s s1 s' :
  client s1 = client s ->
  0 <= gained is_any_http s s1 <= 1 ->
  gained is_sleep s s1 = 0 ->
  gained is_setAccount s s1 = 0 ->
  trace s' = trace s1 ->
  options (client s') = options (client s) ->
  privateKey (client s') = privateKey (client s) ->
  Address (client s') = Address (client s) ->
  broadcastRetries (client s) <= broadcastRetries (client s')
    <= broadcastRetries (client s) + 1 ->
  within_budget s s'.
Proof.
  intros Hc Hh Hsl Hsa Ht Ho Hk Ha Hr.
  assert (G : forall q, gained q s s' = gained q s s1).
  { intros q. unfold gained. rewrite Ht. reflexivity. }
  pose proof (attempts_left_pos (broadcastRetries (client s))).
  unfold within_budget. rewrite !G, Hsl, Hsa.
  split; [lia|]. split; [lia|]. split; [reflexivity|]. split; [lia|].
  split; [split; assumption | assumption].
Qed.

Lemma BroadcastTransaction_rec_within_budget fuel : forall txn gasInfo s o s',
  GoInt.in_range (broadcastRetries (client s)) ->
  broadcastRetries (client s) < GoInt.max_int ->
  BroadcastTransaction_rec fuel txn gasInfo s = (o, s') ->
  within_budget s s'.
Proof.
  induction fuel as [|fuel IH]; intros txn gasInfo s o s' Hfit Hmax H.
  - inversion H; subst.
    apply (within_budget_one_attempt s' s' s'); try reflexivity;
      rewrite ?gained_refl; lia.
  - cbn [BroadcastTransaction_rec] in H. unfold bind at 1 in H.
    destruct (broadcast_attempt txn gasInfo s) as [oa s1] eqn:Hattempt.
    pose proof (broadcast_attempt_gains _ _ _ _ _ Hattempt) as [Hc [Hh [Hsl Hsa]]].
    assert (Hinc : broadcastRetries (increment_broadcastRetries (client s1))
                   = broadcastRetries (client s) + 1).
    { rewrite Hc. apply increment_broadcastRetries_spec.
      unfold GoInt.in_range, GoInt.min_int, GoInt.max_int in *. lia. }
    destruct oa as [[early | [[p' g'] r]] | m |].
    + inversion H; subst.
      apply (within_budget_one_attempt s s' s'); try assumption; try reflexivity;
        try (rewrite Hc; reflexivity); rewrite Hc; lia.
    + destruct (Code r =? 0).
      * unfold bind, modify_client, ret in H.
        assert (Hs' : s' = {| client := increment_Sequence (client s1);
                              trace := trace s1 |}).
        { destruct (String.eqb (Data r) ""); [inversion H; reflexivity|].
          destruct (Hex.DecodeString (Data r)); inversion H; reflexivity. }
        subst s'.
        apply (within_budget_one_attempt s s1 _); try assumption; try reflexivity;
          cbn [client increment_Sequence set_account options privateKey Address
                 broadcastRetries]; rewrite Hc; try reflexivity; lia.
      * destruct (Strings.Contains (RawLog r) conflict_marker).
        -- unfold bind at 1, modify_client at 1 in H.
           unfold bind at 1, get_client at 1 in H. cbn [client] in H.
           rewrite Hinc in H.
           destruct (Z.leb_spec BROADCAST_MAX_RETRIES (broadcastRetries (client s) + 1))
             as [Hstop | Hgo].
           ++ inversion H; subst.
              apply (within_budget_one_attempt s s1 _); try assumption;
                try reflexivity;
                cbn [client increment_broadcastRetries set_broadcastRetries options
                       privateKey Address];
                try (rewrite Hc; reflexivity).
              rewrite Hinc. lia.
           ++ unfold bind at 1, emit at 1 in H. cbn [client trace] in H.
              unfold bind at 1 in H. rewrite setAccount_run in H.
              cbn [trace client] in H.
              pose proof (attempts_left_succ _ Hgo) as Hleft.
              pose proof (attempts_left_pos (broadcastRetries (client s) + 1)) as Hpos.
              destruct (ledger_Account _) as [a | e].
              ** apply IH in H;
                   [| cbn [client set_account broadcastRetries]; rewrite Hinc;
                      unfold GoInt.in_range, GoInt.min_int, GoInt.max_int,
                        BROADCAST_MAX_RETRIES in *; lia
                    | cbn [client set_account broadcastRetries]; rewrite Hinc;
                      unfold GoInt.max_int, BROADCAST_MAX_RETRIES in *; lia].
                 destruct H as [B1 [B2 [B3 [B4 [[B5 B6] B7]]]]].
                 cbn [client set_account broadcastRetries options privateKey Address
                        increment_broadcastRetries set_broadcastRetries] in B1, B2, B4,
                   B5, B6, B7.
                 change (GoInt.add (broadcastRetries (client s1)) 1)
                   with (broadcastRetries (increment_broadcastRetries (client s1)))
                   in B1, B2, B4.
                 rewrite Hinc in B1, B2, B4.
                 match type of B3 with
                 | gained _ ?s2 _ = _ =>
                     assert (G : forall q,
                                gained q s s'
                                = gained q s s1
                                  + Z.of_nat (count q [EvSleep BROADCAST_RETRY_INTERVAL;
                                                       EvSetAccount])
                                  + gained q s2 s')
                 end.
                 { intros q. unfold gained. cbn [trace].
                   change [EvSleep BROADCAST_RETRY_INTERVAL; EvSetAccount]
                     with ([EvSleep BROADCAST_RETRY_INTERVAL] ++ [EvSetAccount])%list.
                   rewrite !count_app. lia. }
                 unfold within_budget. rewrite !G, Hsl, Hsa.
                 split; [tally|]. split; [tally|]. split; [tally|].
                 split; [tally|].
                 unfold same_identity.
                 rewrite B5, B6, B7, Hc. split; [split|]; reflexivity.
              ** inversion H; subst. unfold log. cbn [client trace].
                 match goal with
                 | |- within_budget _ ?s2 =>
                     assert (G : forall q,
                                gained q s s2
                                = gained q s s1
                                  + Z.of_nat (count q [EvSleep BROADCAST_RETRY_INTERVAL;
                                                       EvSetAccount]))
                 end.
                 { intros q. unfold gained. cbn [trace].
                   change [EvSleep BROADCAST_RETRY_INTERVAL; EvSetAccount]
                     with ([EvSleep BROADCAST_RETRY_INTERVAL] ++ [EvSetAccount])%list.
                   rewrite !count_app. lia. }
                 unfold within_budget. rewrite !G, Hsl, Hsa.
                 cbn [client increment_broadcastRetries set_broadcastRetries options
                        privateKey Address broadcastRetries].
                 change (GoInt.add (broadcastRetries (client s1)) 1)
                   with (broadcastRetries (increment_broadcastRetries (client s1))).
                 rewrite Hinc, Hc.
                 split; [tally|]. split; [tally|]. split; [tally|].
                 split; [tally|]. split; [split|]; reflexivity.
        -- inversion H; subst.
           apply (within_budget_one_attempt s s' s'); try assumption; try reflexivity;
             try (rewrite Hc; reflexivity); rewrite Hc; lia.
    + inversion H; subst.
      apply (within_budget_one_attempt s s' s'); try assumption; try reflexivity;
        try (rewrite Hc; reflexivity); rewrite Hc; lia.
    + inversion H; subst.
      apply (within_budget_one_attempt s s' s'); try assumption; try reflexivity;
        try (rewrite Hc; reflexivity); rewrite Hc; lia.
Qed.

Lemma SendTransaction_no_request txn s :
  http_NewRequest_ok (ApiRequestMethod txn) (validate_url s txn) = false ->
  SendTransaction txn s = (Panic nil_deref, s).
Proof.
  intros Hnew.
  unfold SendTransaction, worker, ProcessTransaction.
  unfold bind at 1. unfold bind at 1.
  unfold ValidateTransaction. unfold bind at 1, get_client at 1.
  unfold bind at 1. rewrite APIMutate_run.
  cbn [ApiRequestMethod ApiRequestEndpoint set_txn_broadcastRetries].
  fold (validate_url s txn). rewrite Hnew. reflexivity.
Qed.

(** X9. Every submission ends, and within a budget, whatever the validate
    endpoint, the ledger and the key do. With the retry counter of the
    client at [r] (an [int] below the largest), [SendTransaction] returns or
    panics after at most one validate request and [max 1 (10 - r)]
    broadcasts, with fewer sleeps than broadcasts and one account lookup
    after each sleep. The counter never goes down: it has grown by the number
    of sleeps, or by one more. The key, the options and the address of the
    client are never changed. For a counter that is not negative this is at
    most 11 requests, 9 sleeps of one second and 9 lookups. *)
Theorem submission_stays_within_budget txn s o s' :
  GoInt.in_range (broadcastRetries (client s)) ->
  broadcastRetries (client s) < GoInt.max_int ->
  SendTransaction txn s = (o, s') ->
  o <> OutOfFuel
  /\ gained is_any_http s s'
     <= 1 + Z.of_nat (attempts_left (broadcastRetries (client s)))
  /\ 0 <= gained is_sleep s s'
       < Z.of_nat (attempts_left (broadcastRetries (client s)))
  /\ gained is_setAccount s s' = gained is_sleep s s'
  /\ broadcastRetries (client s) + gained is_sleep s s'
     <= broadcastRetries (client s')
     <= broadcastRetries (client s) + gained is_sleep s s' + 1
  /\ same_identity (client s) (client s')
  /\ Address (client s') = Address (client s)
  /\ (0 <= broadcastRetries (client s) ->
      gained is_any_http s s' <= 11
      /\ gained is_sleep s s' <= 9
      /\ gained is_setAccount s s' <= 9).
Proof.
  intros Hfit Hmax H.
  assert (Hnum : forall s1,
             within_budget s1 s' ->
             client s1 = client s ->
             (forall q, gained q s s'
                        = Z.of_nat (count q [EvHttp (ApiRequestMethod txn)
                                               (validate_url s txn)
                                               (validate_request (client s) txn)])
                          + gained q s1 s') ->
             gained is_any_http s s'
             <= 1 + Z.of_nat (attempts_left (broadcastRetries (client s)))
             /\ 0 <= gained is_sleep s s'
                  < Z.of_nat (attempts_left (broadcastRetries (client s)))
             /\ gained is_setAccount s s' = gained is_sleep s s'
             /\ broadcastRetries (client s) + gained is_sleep s s'
                <= broadcastRetries (client s')
                <= broadcastRetries (client s) + gained is_sleep s s' + 1
             /\ same_identity (client s) (client s')
             /\ Address (client s') = Address (client s)
             /\ (0 <= broadcastRetries (client s) ->
                 gained is_any_http s s' <= 11
                 /\ gained is_sleep s s' <= 9
                 /\ gained is_setAccount s s' <= 9)).
  { intros s1 [B1 [B2 [B3 [B4 [B5 B6]]]]] Hc G.
    rewrite Hc in B1, B2, B4, B5, B6.
    rewrite !G.
    assert (K : 0 <= broadcastRetries (client s) ->
                Z.of_nat (attempts_left (broadcastRetries (client s))) <= 10).
    { unfold attempts_left, BROADCAST_MAX_RETRIES. lia. }
    split; [tally|]. split; [tally|]. split; [tally|]. split; [tally|].
    split; [exact B5|]. split; [exact B6|].
    intros Hpos. specialize (K Hpos). split; [tally | split; tally]. }
  destruct (http_NewRequest_ok (ApiRequestMethod txn) (validate_url s txn)) eqn:Hnew.
  - pose proof (ValidateTransaction_run txn s Hnew) as Hv.
    match type of Hv with _ = (Done ?R, _) => remember R as res eqn:HR end.
    clear HR.
    assert (G : forall q s2,
               trace s2 = trace (validated s txn) ->
               gained q s s'
               = Z.of_nat (count q [EvHttp (ApiRequestMethod txn)
                                      (validate_url s txn)
                                      (validate_request (client s) txn)])
                 + gained q s2 s').
    { intros q s2 Ht. unfold gained. rewrite Ht. unfold validated, log.
      cbn [trace]. rewrite count_app. lia. }
    destruct res as [payload [e|]].
    + rewrite (SendTransaction_validate_error _ _ _ _ _ Hv) in H.
      inversion H; subst o s'.
      split; [discriminate|].
      apply (Hnum (validated s txn)); [| reflexivity | intros q; apply G; reflexivity].
      apply (within_budget_one_attempt _ (validated s txn) _); try reflexivity;
        rewrite ?gained_refl; lia.
    + rewrite (SendTransaction_broadcast _ _ _ _ Hv) in H.
      split.
      * pose proof (BroadcastTransaction_total payload (txn_GasInfo txn)
                      (validated s txn) Hfit Hmax) as Ht.
        rewrite H in Ht. exact Ht.
      * apply (Hnum (validated s txn)); [| reflexivity | intros q; apply G; reflexivity].
        unfold BroadcastTransaction in H. unfold bind at 1, get_client at 1 in H.
        apply BroadcastTransaction_rec_within_budget in H; assumption.
  - rewrite (SendTransaction_no_request _ _ Hnew) in H. inversion H; subst o s'.
    split; [discriminate|].
    pose proof (attempts_left_pos (broadcastRetries (client s))) as Hpos.
    rewrite !gained_refl.
    split; [lia|]. split; [lia|]. split; [reflexivity|]. split; [lia|].
    split; [split; reflexivity|]. split; [reflexivity|]. intros _. lia.
Qed.

(** *** A submission without an error *)

Lemma BroadcastTransaction_rec_result fuel : forall txn gasInfo s res s',
  BroadcastTransaction_rec fuel txn gasInfo s = (Done (res, None), s') ->
  res <> None /\ 1 <= gained is_any_http s s'.
Proof.
  induction fuel as [|fuel IH]; intros txn gasInfo s res s' H; [discriminate|].
  cbn [BroadcastTransaction_rec] in H. unfold bind at 1 in H.
  destruct (broadcast_attempt txn gasInfo s) as [oa s1] eqn:Hattempt.
  pose proof (broadcast_attempt_gains _ _ _ _ _ Hattempt) as [Hc [Hh _]].
  destruct oa as [[[x e] | [[p' g'] r]] | m |]; [| | discriminate..].
  - inversion H; subst.
    exfalso. exact (broadcast_attempt_early_error _ _ _ _ _ _ Hattempt eq_refl).
  - pose proof (broadcast_attempt_inv _ _ _ _ _ Hattempt)
      as [_ [[_ Hno] | [q [g [fee [fee' [sg [_ [_ [_ [_ [Ht _]]]]]]]]]]]];
      [exfalso; exact (Hno _ eq_refl)|].
    assert (H1 : gained is_any_http s s1 = 1).
    { rewrite (gained_app _ _ _ _ Ht). tally. }
    destruct (Code r =? 0).
    + unfold bind, modify_client, ret in H.
      destruct (String.eqb (Data r) "").
      * inversion H; subst. split; [discriminate|].
        unfold gained in *. cbn [trace]. lia.
      * destruct (Hex.DecodeString (Data r)). inversion H; subst.
        split; [discriminate|]. unfold gained in *. cbn [trace]. lia.
    + destruct (Strings.Contains (RawLog r) conflict_marker); [|discriminate].
      unfold bind at 1, modify_client at 1 in H.
      unfold bind at 1, get_client at 1 in H. cbn [client] in H.
      destruct (BROADCAST_MAX_RETRIES <=? _); [discriminate|].
      unfold bind at 1, emit at 1 in H. cbn [client trace] in H.
      unfold bind at 1 in H. rewrite setAccount_run in H. cbn [trace client] in H.
      destruct (ledger_Account _) as [a | e]; [|discriminate].
      apply IH in H. destruct H as [Hres Hgain].
      split; [exact Hres|].
      unfold gained, count in *. cbn [trace] in Hgain.
      rewrite !filter_app, !length_app in Hgain.
      cbn [filter is_any_http List.length] in Hgain. lia.
Qed.

(** X10. A submission that returns no error returns bytes. When
    [SendTransaction] returns with a nil error, the result is not the nil
    slice (it is empty when the response had no data), and at least two
    requests were made: the validate request and a broadcast. With X3 and
    X4: a nil result comes with an error. *)
Theorem no_error_means_a_result txn s res s' :
  SendTransaction txn s = (Done (res, None), s') ->
  res <> None /\ 2 <= gained is_any_http s s'.
Proof.
  intros H.
  destruct (http_NewRequest_ok (ApiRequestMethod txn) (validate_url s txn)) eqn:Hnew.
  - pose proof (ValidateTransaction_run txn s Hnew) as Hv.
    match type of Hv with _ = (Done ?R, _) => remember R as r eqn:HR end.
    clear HR. destruct r as [payload [e|]].
    + rewrite (SendTransaction_validate_error _ _ _ _ _ Hv) in H. discriminate.
    + rewrite (SendTransaction_broadcast _ _ _ _ Hv) in H.
      unfold BroadcastTransaction in H. unfold bind at 1, get_client at 1 in H.
      apply BroadcastTransaction_rec_result in H. destruct H as [Hres Hgain].
      split; [exact Hres|].
      unfold gained, count in *. unfold validated, log in Hgain.
      cbn [trace] in Hgain. rewrite !filter_app, !length_app in Hgain.
      cbn [filter is_any_http List.length] in Hgain. lia.
  - rewrite (SendTransaction_no_request _ _ Hnew) in H. discriminate.
Qed.

(** *** Reading a response *)

Lemma parseResponse_body_or_error res :
  (exists e, parseResponse res = (None, Some e))
  \/ (BodyErr res = None /\ parseResponse res = (Some (Body res), None)).
Proof.
  unfold parseResponse.
  destruct (BodyErr res) as [e|]; [left; eexists; reflexivity|].
  destruct (Unmarshal dec_ErrorResponse zero_ErrorResponse (Body res)) as [errRes|];
    [|left; eexists; reflexivity].
  destruct (negb (String.eqb (Error errRes) ""));
    [left; eexists; reflexivity | right; split; reflexivity].
Qed.

(** X11. What a query gives back. [APIQuery] makes exactly one GET request
    to the endpoint's URL, leaves the client as it is and never panics. It
    returns either an error and no bytes, or no error and the body of the
    response byte for byte; never both and never neither. The same holds for
    [parseResponse]. The status code of the response plays no part: two
    responses with the same body are read alike, and a body that is not JSON
    is an error whatever the status. *)
Theorem query_gives_body_or_error :
  (forall endpoint s,
      exists r,
        APIQuery endpoint s
        = (Done r, log (EvHttp "GET" (Endpoint (options (client s)) ++ endpoint) "") s)
        /\ ((exists e, r = (None, Some e))
            \/ (exists res,
                   http_Do (trace s) "GET"
                     (Endpoint (options (client s)) ++ endpoint) "" = inl res
                   /\ BodyErr res = None
                   /\ r = (Some (Body res), None))))
  /\ (forall res,
         (exists e, parseResponse res = (None, Some e))
         \/ parseResponse res = (Some (Body res), None))
  /\ (forall res res',
         Body res = Body res' -> BodyErr res = BodyErr res' ->
         parseResponse res = parseResponse res')
  /\ (forall res,
         BodyErr res = None -> json_parse (Body res) = None ->
         parseResponse res = (None, Some json_error)).
Proof.
  split; [|split; [|split]].
  - intros endpoint s.
    unfold APIQuery, bind, get_client, get_trace, emit, ret, log.
    destruct (http_Do _ _ _ _) as [res | e] eqn:Hdo.
    + eexists. split; [reflexivity|].
      destruct (parseResponse_body_or_error res) as [[e He] | [Hread Hbody]].
      * left. exists e. exact He.
      * right. exists res. split; [reflexivity|]. split; [exact Hread | exact Hbody].
    + eexists. split; [reflexivity|]. left. eexists. reflexivity.
  - intros res.
    destruct (parseResponse_body_or_error res) as [He | [_ Hbody]]; [left | right];
      assumption.
  - intros res res' Hb He. unfold parseResponse. rewrite Hb, He. reflexivity.
  - intros res Hread Hparse. unfold parseResponse, Unmarshal.
    rewrite Hread, Hparse. reflexivity.
Qed.

(** *** The payload from one attempt to the next *)

(** X12. A retry sends the fee of the attempt before it. The fee that the
    fee statements write (gas and amount as decimal strings) is read back
    by the next call as the same numbers, and resolving it again under the
    same gas policy changes nothing: applied to its own result, the fee
    block returns it. So when an attempt has sent a payload and that
    payload is sent again, as a retry does, the second request carries the
    same fee, the same messages and the same gas policy. *)
Theorem fee_is_stable_across_retries :
  (forall fee g fee',
      GoInt.in_range (MaxGas g) ->
      GoInt.in_range (MaxFee g) ->
      setFee fee g = Done fee' ->
      setFee fee' g = Done fee')
  /\ (forall txn gasInfo s p1 g1 r1 s1 s2 p2 g2 r2 s3,
         broadcast_attempt txn gasInfo s = (Done (inr (p1, g1, r1)), s1) ->
         GoInt.in_range (MaxGas g1) ->
         GoInt.in_range (MaxFee g1) ->
         broadcast_attempt (Some p1) (Some g1) s2 = (Done (inr (p2, g2, r2)), s3) ->
         Fee p2 = Fee p1 /\ Msg p2 = Msg p1 /\ g2 = g1).
Proof.
  split; [exact setFee_idempotent|].
  intros txn gasInfo s p1 g1 r1 s1 s2 p2 g2 r2 s3 H1 HG HF H2.
  pose proof (broadcast_attempt_inv _ _ _ _ _ H1)
    as [_ [[_ Hno] | [q [g [fee [fee' [sg [_ [_ [_ [Hset [_ Hsent]]]]]]]]]]]];
    [exfalso; exact (Hno _ eq_refl)|].
  destruct (Hsent _ _ _ eq_refl) as [Hp1 Hg1]. subst g.
  pose proof (broadcast_attempt_inv _ _ _ _ _ H2)
    as [_ [[_ Hno] | [q' [g' [fee2 [fee2' [sg' [Hq' [Hg' [Hfee2 [Hset2 [_ Hsent2]]]]]]]]]]]];
    [exfalso; exact (Hno _ eq_refl)|].
  inversion Hq'; subst q'. inversion Hg'; subst g'.
  destruct (Hsent2 _ _ _ eq_refl) as [Hp2 Hg2].
  assert (Hf1 : Fee p1 = Some fee') by (rewrite Hp1; reflexivity).
  rewrite Hf1 in Hfee2. inversion Hfee2; subst fee2.
  rewrite (setFee_idempotent _ _ _ HG HF Hset) in Hset2.
  inversion Hset2; subst fee2'.
  split; [rewrite Hf1, Hp2; reflexivity|].
  split; [rewrite Hp2; reflexivity | exact Hg2].
Qed.

(** *** Random strings *)

(** X13. [makeRandomString] for any length: it reads the clock once, and
    returns as many characters as asked for, none when the length is zero or
    negative, every one of them a letter or a digit of the 62-character
    alphabet. The string is a function of the clock reading and the length
    alone: two calls that read the same time return the same string. *)
Theorem makeRandomString_any_length length s :
  exists m,
    makeRandomString length s = (Done m, log (EvNow (time_Now (trace s))) s)
    /\ Z.of_nat (String.length m) = Z.max 0 length
    /\ Forall (fun c => In c random_chars) (list_ascii_of_string m)
    /\ (forall s2, time_Now (trace s2) = time_Now (trace s) ->
                   fst (makeRandomString length s2) = Done m).
Proof.
  exists (string_of_list_ascii (random_runes (time_Now (trace s)) 0 (Z.to_nat length))).
  split; [reflexivity|]. split; [|split].
  - rewrite string_of_list_length, random_runes_length. lia.
  - rewrite list_ascii_of_string_of_list_ascii. apply random_runes_alphabet.
  - intros s2 Hclock.
    unfold makeRandomString, bind, get_trace, emit, ret. cbn [fst].
    rewrite Hclock. reflexivity.
Qed.

End MorePipelineProperties.

(** ** The key-value listing *)

Section KeyValuesProperties.

Context {E : Externals}.

Variable KeyValuesResponseResult : Type.
Variable KeyValuesResponseResultKeyValue : Type.
Variable zero_KeyValuesResponseResult : KeyValuesResponseResult.
Variable dec_KeyValuesResponseResult : dec KeyValuesResponseResult.
Variable res_KeyValues :
  KeyValuesResponseResult -> option (list (option KeyValuesResponseResultKeyValue)).

(** X14. [TxKeyValues] after its submission. An error of [SendTransaction]
    is returned with a nil slice, also when bytes came with it; without an
    error the bytes are unmarshalled and the field [KeyValues] is returned,
    or the error of the unmarshalling. Without a gas policy the call fails
    with "gas_info is required" once validation has answered. And a listing
    that the ledger accepts with a response that carries no data fails all
    the same: the empty result is not JSON (when the parser rejects the
    empty text, as [encoding/json] does), so the caller gets the error of
    [json.Unmarshal] while the sequence of the account has moved on by 1. *)
Theorem TxKeyValues_after_the_submission gasInfo s :
  (forall b e s',
      SendTransaction (keyvalues_transaction gasInfo) s = (Done (b, Some e), s') ->
      TxKeyValues _ _ zero_KeyValuesResponseResult dec_KeyValuesResponseResult
        res_KeyValues gasInfo s
      = (Done (None, Some e), s'))
  /\ (forall body s',
         SendTransaction (keyvalues_transaction gasInfo) s
         = (Done (Some body, None), s') ->
         TxKeyValues _ _ zero_KeyValuesResponseResult dec_KeyValuesResponseResult
           res_KeyValues gasInfo s
         = (Done match Unmarshal dec_KeyValuesResponseResult
                         zero_KeyValuesResponseResult body with
                 | None => (None, Some json_error)
                 | Some res => (res_KeyValues res, None)
                 end, s'))
  /\ (forall p sv,
         gasInfo = None ->
         ValidateTransaction (keyvalues_transaction gasInfo) s
         = (Done (Some p, None), sv) ->
         TxKeyValues _ _ zero_KeyValuesResponseResult dec_KeyValuesResponseResult
           res_KeyValues gasInfo s
         = (Done (None, Some (Errorf "gas_info is required")),
            log (EvNow (time_Now (trace sv))) sv))
  /\ (forall p sv p' g' r s1,
         json_parse "" = None ->
         ValidateTransaction (keyvalues_transaction gasInfo) s
         = (Done (Some p, None), sv) ->
         broadcast_attempt (Some p) gasInfo sv = (Done (inr (p', g', r)), s1) ->
         Code r = 0 ->
         Data r = ""%string ->
         GoInt.in_range (sequence_of s + 1) ->
         exists s2,
           TxKeyValues _ _ zero_KeyValuesResponseResult dec_KeyValuesResponseResult
             res_KeyValues gasInfo s
           = (Done (None, Some json_error), s2)
           /\ sequence_of s2 = sequence_of s + 1
           /\ trace s2 = trace s1).
Proof.
  split; [|split; [|split]].
  - intros b e s' Hsend. unfold TxKeyValues. unfold bind at 1.
    rewrite Hsend. reflexivity.
  - intros body s' Hsend. unfold TxKeyValues. unfold bind at 1.
    rewrite Hsend.
    destruct (Unmarshal _ _ body); reflexivity.
  - intros p sv Hgas Hv. subst gasInfo.
    unfold TxKeyValues. unfold bind at 1.
    rewrite (SendTransaction_broadcast _ _ _ _ Hv).
    cbn [txn_GasInfo keyvalues_transaction].
    rewrite BroadcastTransaction_no_gas. reflexivity.
  - intros p sv p' g' r s1 Hparse Hv Hattempt Hcode Hdata Hseq.
    pose proof (ValidateTransaction_done_state _ _ _ _ Hv) as Hsv.
    assert (Cv : client sv = client s) by (subst sv; reflexivity).
    eexists. split; [|split].
    + unfold TxKeyValues. unfold bind at 1.
      rewrite (SendTransaction_broadcast _ _ _ _ Hv).
      cbn [txn_GasInfo keyvalues_transaction].
      rewrite (BroadcastTransaction_success _ _ _ _ _ _ _ Hattempt Hcode).
      rewrite Hdata. change (String.eqb "" "") with true.
      cbv beta iota. unfold Unmarshal. rewrite Hparse. reflexivity.
    + unfold sequence_of. cbn [client]. rewrite Cv.
      apply increment_Sequence_spec. exact Hseq.
    + reflexivity.
Qed.

End KeyValuesProperties.

(** ** A response without a code *)

(** A member that is not stored in the field [code] leaves the code of a
    broadcast response as it was. *)
Lemma dec_members_no_code ms : forall cur r,
  members_for "code" ms = [] ->
  dec_TransactionBroadcastResponse (JObj ms) cur = Some r ->
  Code r = Code cur.
Proof.
  unfold dec_TransactionBroadcastResponse, dec_struct.
  match goal with
  | |- forall cur r, _ -> dec_members ?l ms cur = _ -> _ => set (fs := l)
  end.
  assert (Hfield : forall k d v cur cur',
             key_matches "code" k = false ->
             find_field fs k = Some d ->
             d v cur = Some cur' ->
             Code cur' = Code cur).
  { intros k d v cur cur' Hk Hfind Hd.
    unfold key_matches in Hk. apply orb_false_iff in Hk. destruct Hk as [Hk1 Hk2].
    unfold fs, find_field, find_exact, find_fold, fld in Hfind.
    rewrite Hk1, Hk2 in Hfind.
    repeat match type of Hfind with
           | context [if ?b then _ else _] => destruct b
           end;
      try discriminate;
      inversion Hfind; subst d; clear Hfind;
      match type of Hd with
      | context [match ?x with _ => _ end] => destruct x
      end;
      try discriminate; inversion Hd; reflexivity. }
  induction ms as [|[k v] ms IH]; intros cur r Hcode Hdec.
  - inversion Hdec. reflexivity.
  - unfold members_for in Hcode. cbn [filter fst] in Hcode.
    destruct (key_matches "code" k) eqn:Hk; [discriminate|].
    cbn [dec_members] in Hdec.
    destruct (find_field fs k) as [d|] eqn:Hfind.
    + destruct (d v cur) as [cur'|] eqn:Hd; [|discriminate].
      rewrite (IH cur' r Hcode Hdec).
      exact (Hfield k d v cur cur' Hk Hfind Hd).
    + exact (IH cur r Hcode Hdec).
Qed.

Section ResponseWithoutCode.

Context {E : Externals}.

(** One attempt against a ledger that gives one answer to every broadcast. *)
Lemma broadcast_attempt_answered p g s res r :
  fee_readable p ->
  signer_ok (privateKey (client s)) ->
  http_NewRequest_ok "POST" (txs_url s) = true ->
  (forall tr body, http_Do tr "POST" (txs_url s) body = inl res) ->
  parseResponse res = (Some (Body res), None) ->
  Unmarshal dec_TransactionBroadcastResponse zero_TransactionBroadcastResponse
    (Body res) = Some r ->
  exists p' s1,
    broadcast_attempt (Some p) (Some g) s = (Done (inr (p', g, r)), s1).
Proof.
  intros [fee [a0 [Hfee Ha0]]] Hsign Hnew Hdo Hparse Hdec.
  unfold broadcast_attempt. unfold bind at 1. rewrite makeRandomString_run.
  cbn [Fee set_Memo]. rewrite Hfee.
  unfold bind at 1, lift_outcome at 1.
  unfold setFee. rewrite Ha0.
  unfold bind at 1.
  match goal with |- context [SignTransaction ?q ?st] =>
    destruct (SignTransaction_ok q st Hsign) as [signature Hsig]; rewrite Hsig end.
  unfold bind at 1, get_client at 1. unfold bind at 1.
  rewrite APIMutate_run.
  change (Endpoint (options (client (log (EvNow (time_Now (trace s))) s))) ++ TX_COMMAND)%string
    with (txs_url s).
  rewrite Hnew, Hdo, Hparse, Hdec.
  do 2 eexists. reflexivity.
Qed.

(** X15. Success is the absence of a code. When the answer to a broadcast
    is a JSON object without an [error] member and without a [code] member
    (in any spelling of upper and lower case) that decodes into the response
    struct, its code is read as 0 and [BroadcastTransaction] takes the
    transaction as accepted: the sequence goes up by 1 and the data is
    returned, with no sleep, no lookup and no retry, whatever the raw log
    of the response says. *)
Theorem response_without_code_is_accepted p g s res ms r :
  fee_readable p ->
  signer_ok (privateKey (client s)) ->
  http_NewRequest_ok "POST" (txs_url s) = true ->
  (forall tr body, http_Do tr "POST" (txs_url s) body = inl res) ->
  BodyErr res = None ->
  json_parse (Body res) = Some (JObj ms) ->
  members_for "error" ms = [] ->
  members_for "code" ms = [] ->
  dec_TransactionBroadcastResponse (JObj ms) zero_TransactionBroadcastResponse
  = Some r ->
  GoInt.in_range (sequence_of s + 1) ->
  Code r = 0
  /\ exists s',
       BroadcastTransaction (Some p) (Some g) s
       = (Done (if String.eqb (Data r) ""
                then (Some ""%string, None)
                else (Some (fst (Hex.DecodeString (Data r))),
                      snd (Hex.DecodeString (Data r)))), s')
       /\ sequence_of s' = sequence_of s + 1
       /\ broadcastRetries (client s') = broadcastRetries (client s)
       /\ gained is_sleep s s' = 0
       /\ gained is_setAccount s s' = 0.
Proof.
  intros Hfee Hsign Hnew Hdo Hread Hparse Herror Hcode Hdec Hseq.
  assert (Hzero : Code r = 0) by exact (dec_members_no_code ms _ _ Hcode Hdec).
  split; [exact Hzero|].
  assert (Hbody : parseResponse res = (Some (Body res), None)).
  { apply (parseResponse_no_error res ms Hread Hparse). left. exact Herror. }
  assert (Hun : Unmarshal dec_TransactionBroadcastResponse
                  zero_TransactionBroadcastResponse (Body res) = Some r).
  { unfold Unmarshal. rewrite Hparse. exact Hdec. }
  destruct (broadcast_attempt_answered p g s res r Hfee Hsign Hnew Hdo Hbody Hun)
    as [p' [s1 Hattempt]].
  pose proof (broadcast_attempt_gains _ _ _ _ _ Hattempt) as [Hc [_ [Hsl Hsa]]].
  eexists. split; [apply (BroadcastTransaction_success _ _ _ _ _ _ _ Hattempt Hzero)|].
  split; [unfold sequence_of; cbn [client]; apply increment_Sequence_spec; exact Hseq|].
  split; [reflexivity|].
  unfold gained in *. cbn [trace]. split; assumption.
Qed.

End ResponseWithoutCode.

(** * The further properties on the example worlds *)

(** A lease of 4 seconds is no block; one of 1 minute 7 seconds is 13. *)
Lemma ToBlocks_rounds_toward_zero_witness :
  ToBlocks (mkLeaseInfo 0 0 0 4) = 0
  /\ 5 * ToBlocks (mkLeaseInfo 0 0 1 7) <= 67 < 5 * ToBlocks (mkLeaseInfo 0 0 1 7) + 5.
Proof.
  split.
  - destruct (ToBlocks_rounds_toward_zero (mkLeaseInfo 0 0 0 4)) as [_ [_ [H _]]].
    + vm_compute. split; discriminate.
    + apply H. vm_compute. split; reflexivity.
  - destruct (ToBlocks_rounds_toward_zero (mkLeaseInfo 0 0 1 7)) as [H _].
    + vm_compute. split; discriminate.
    + apply H. vm_compute. discriminate.
Defined.

Lemma serializeSig_fits_or_panics_witness :
  (exists b,
      serializeSig {| sigR := 258; sigS := 77 |} = Done b
      /\ List.length b = 64%nat
      /\ be_value (firstn 32 b) = 258
      /\ be_value (skipn 32 b) = 77)
  /\ serializeSig {| sigR := 2 ^ 256; sigS := 77 |} = Panic slice_bounds.
Proof.
  split.
  - apply (proj1 (serializeSig_fits_or_panics {| sigR := 258; sigS := 77 |}));
      vm_compute; reflexivity.
  - apply (proj1 (proj2 (serializeSig_fits_or_panics {| sigR := 2 ^ 256; sigS := 77 |}))).
    left. vm_compute. discriminate.
Defined.

Lemma only_a_conflict_is_retried_witness :
  exists s1,
    SendTransaction (E := W_fatal) (create (Some gas0)) state0
    = (Done (None, Some (Errorf "insufficient fee")), s1)
    /\ client s1 = client0
    /\ gained is_any_http state0 s1 = 2
    /\ gained is_sleep state0 s1 = 0
    /\ gained is_setAccount state0 s1 = 0.
Proof.
  eexists.
  eapply (proj2 (@only_a_conflict_is_retried W_fatal (create (Some gas0)) state0
                   payload0 _ ltac:(vm_compute; reflexivity))
            _ _ fatal_decoded).
  - vm_compute. reflexivity.
  - discriminate.
  - vm_compute. reflexivity.
Defined.

Lemma failed_validation_sends_nothing_witness :
  SendTransaction (E := W_validate_down) (create (Some gas0)) state0
  = (Done (None, Some (LibError "connection refused")),
     validated (E := W_validate_down) state0 (create (Some gas0))).
Proof.
  apply (proj1 (@failed_validation_sends_nothing W_validate_down
                  (create (Some gas0)) state0 ltac:(reflexivity))).
  reflexivity.
Defined.

Lemma rejected_request_panics_witness :
  SendTransaction (E := W_strict_methods) odd_method state0 = (Panic nil_deref, state0).
Proof.
  apply (proj1 (@rejected_request_panics W_strict_methods odd_method state0
                  ltac:(vm_compute; reflexivity))).
Defined.

Lemma signing_error_sends_nothing_witness :
  SendTransaction (E := W_sign_fails) (create (Some gas0)) state0
  = (Done (None, Some (LibError "signing failed")),
     log (EvNow 1000) (validated (E := W_sign_fails) state0 (create (Some gas0)))).
Proof.
  eapply (proj1 (@signing_error_sends_nothing W_sign_fails (create (Some gas0)) state0
                   payload0 _ gas0 _ _ (LibError "signing failed")
                   ltac:(vm_compute; reflexivity) ltac:(reflexivity)
                   ltac:(reflexivity) ltac:(vm_compute; reflexivity)
                   ltac:(reflexivity))).
Defined.

Lemma failed_lookup_ends_the_retries_witness :
  exists s2,
    SendTransaction (E := W_ledger_down) (create (Some gas0)) state0
    = (Done (None, Some (LibError "account lookup failed")), s2)
    /\ account (client s2) = account0
    /\ broadcastRetries (client s2) = 0 + 1
    /\ gained is_any_http state0 s2 = 2
    /\ gained is_sleep state0 s2 = 1.
Proof.
  edestruct (@failed_lookup_ends_the_retries W_ledger_down)
    with (txn := create (Some gas0)) (s := state0) (p := payload0)
         (r1 := conflict_decoded) (e := LibError "account lookup failed")
    as [s2 [Hrun [_ [Hacc [Hcount [Hhttp Hsleep]]]]]].
  - vm_compute. reflexivity.
  - vm_compute. reflexivity.
  - discriminate.
  - vm_compute. reflexivity.
  - vm_compute. split; discriminate.
  - vm_compute. reflexivity.
  - reflexivity.
  - exists s2. split; [exact Hrun|]. split; [exact Hacc|].
    split; [exact Hcount|]. split; [exact Hhttp | exact Hsleep].
Defined.

(** The client holds sequence 41, the ledger says 50: the retry is signed
    with 50 and the client ends at 51. *)
Lemma retry_starts_from_the_ledger_witness :
  exists s4 sg p2,
    SendTransaction (E := W_resync) (create (Some gas0)) state0
    = (Done (Some "", None), s4)
    /\ Signatures p2 = Some [Some sg]
    /\ sig_Sequence sg = "50"
    /\ sequence_of s4 = 50 + 1
    /\ broadcastRetries (client s4) = 0 + 1.
Proof.
  edestruct (@retry_starts_from_the_ledger W_resync)
    with (txn := create (Some gas0)) (s := state0) (p := payload0)
         (r1 := conflict_decoded) (a := {| AccountNumber := 3; Sequence := 50 |})
         (r2 := success_decoded "")
    as [s4 [sg [Hrun [Hsig [_ [Hseq [_ [Hfinal [Hcount _]]]]]]]]].
  - vm_compute. reflexivity.
  - vm_compute. reflexivity.
  - discriminate.
  - vm_compute. reflexivity.
  - vm_compute. split; discriminate.
  - vm_compute. reflexivity.
  - reflexivity.
  - vm_compute. reflexivity.
  - reflexivity.
  - vm_compute. split; discriminate.
  - exists s4, sg. eexists. split; [exact Hrun|]. split; [exact Hsig|].
    split; [exact Hseq|]. split; [exact Hfinal | exact Hcount].
Defined.

(** Against the ledger that always reports a conflict, from a counter of 0. *)
Lemma submission_stays_within_budget_witness :
  exists o s',
    SendTransaction (E := W_conflict) (create (Some gas0)) state0 = (o, s')
    /\ o <> OutOfFuel
    /\ gained is_any_http state0 s' <= 11
    /\ gained is_sleep state0 s' <= 9
    /\ gained is_setAccount state0 s' <= 9.
Proof.
  do 2 eexists.
  assert (H : forall o s',
             SendTransaction (E := W_conflict) (create (Some gas0)) state0 = (o, s') ->
             o <> OutOfFuel
             /\ gained is_any_http state0 s' <= 11
             /\ gained is_sleep state0 s' <= 9
             /\ gained is_setAccount state0 s' <= 9).
  { intros o s' Hrun.
    destruct (@submission_stays_within_budget W_conflict (create (Some gas0)) state0
                o s' ltac:(vm_compute; split; discriminate)
                ltac:(vm_compute; reflexivity) Hrun)
      as [Hend [_ [_ [_ [_ [_ [_ Hnum]]]]]]].
    split; [exact Hend|]. apply Hnum. vm_compute. discriminate. }
  split; [vm_compute; reflexivity | eapply H; vm_compute; reflexivity].
Defined.

Lemma no_error_means_a_result_witness :
  exists res s',
    SendTransaction (E := W_success) (create (Some gas0)) state0 = (Done (res, None), s')
    /\ res <> None
    /\ 2 <= gained is_any_http state0 s'.
Proof.
  do 2 eexists.
  assert (H : forall res s',
             SendTransaction (E := W_success) (create (Some gas0)) state0
             = (Done (res, None), s') ->
             res <> None /\ 2 <= gained is_any_http state0 s').
  { intros res s'. apply (@no_error_means_a_result W_success). }
  split; [vm_compute; reflexivity | eapply H; vm_compute; reflexivity].
Defined.

(** A query whose answer has no error member, under status 500. *)
Lemma query_gives_body_or_error_witness :
  parseResponse (E := W_success)
    {| StatusCode := 500; Body := render success; BodyErr := None |}
  = parseResponse (E := W_success)
      {| StatusCode := 200; Body := render success; BodyErr := None |}
  /\ parseResponse (E := W_success)
       {| StatusCode := 200; Body := "<html>"; BodyErr := None |}
     = (None, Some json_error).
Proof.
  split.
  - apply (proj1 (proj2 (proj2 (@query_gives_body_or_error W_success))));
      reflexivity.
  - apply (proj2 (proj2 (proj2 (@query_gives_body_or_error W_success))));
      [reflexivity | vm_compute; reflexivity].
Defined.

Lemma fee_is_stable_across_retries_witness :
  setFee {| fee_Amount := Some [Some {| Amount := "150"; Denom := "ubnt" |}];
            Gas := "30" |} gas0
  = Done {| fee_Amount := Some [Some {| Amount := "150"; Denom := "ubnt" |}];
            Gas := "30" |}.
Proof.
  apply (proj1 (@fee_is_stable_across_retries W_success)
           {| fee_Amount := Some [Some {| Amount := "7"; Denom := "ubnt" |}];
              Gas := "50" |}).
  - vm_compute. split; discriminate.
  - vm_compute. split; discriminate.
  - vm_compute. reflexivity.
Defined.

Lemma makeRandomString_any_length_witness :
  exists m,
    makeRandomString (E := W_success) (-3) state0
    = (Done m, log (EvNow 1000) state0)
    /\ Z.of_nat (String.length m) = 0.
Proof.
  destruct (@makeRandomString_any_length W_success (-3) state0) as [m [Hrun [Hlen _]]].
  exists m. split; [exact Hrun | exact Hlen].
Defined.

(** A listing that the ledger accepts without data. *)
Lemma TxKeyValues_after_the_submission_witness :
  exists s2,
    TxKeyValues (E := W_success) listing KeyValue None dec_listing (fun r => r)
      (Some gas0) state0
    = (Done (None, Some json_error), s2)
    /\ sequence_of s2 = 41 + 1.
Proof.
  destruct (@TxKeyValues_after_the_submission W_success listing KeyValue None
              dec_listing (fun r => r) (Some gas0) state0) as [_ [_ [_ H]]].
  edestruct H with (p := payload0) (r := success_decoded "")
    as [s2 [Hrun [Hseq _]]].
  - reflexivity.
  - vm_compute. reflexivity.
  - vm_compute. reflexivity.
  - reflexivity.
  - reflexivity.
  - vm_compute. split; discriminate.
  - exists s2. split; [exact Hrun | exact Hseq].
Defined.

Lemma no_code_world_signs : signer_ok (E := W_no_code) 77.
Proof.
  intros hash. exists {| sigR := 258; sigS := 77 |}.
  split; [reflexivity|]. split; vm_compute; lia.
Defined.

(** The ledger answers with a log that reports a failed signature check,
    and no code: the transaction counts as accepted. *)
Lemma response_without_code_is_accepted_witness :
  Strings.Contains (RawLog no_code_decoded) conflict_marker = true
  /\ exists s',
       BroadcastTransaction (E := W_no_code) (Some payload0) (Some gas0) state0
       = (Done (Some "", None), s')
       /\ sequence_of s' = 41 + 1
       /\ gained is_sleep state0 s' = 0.
Proof.
  split; [vm_compute; reflexivity|].
  destruct (@response_without_code_is_accepted W_no_code payload0 gas0 state0
              {| StatusCode := 200; Body := render no_code; BodyErr := None |}
              [("height", JStr "0"); ("txhash", JStr "77AA");
               ("raw_log", JStr "signature verification failed")]
              no_code_decoded)
    as [_ [s' [Hrun [Hseq [_ [Hsleep _]]]]]].
  - eexists. exists 7. split; [reflexivity | vm_compute; reflexivity].
  - exact no_code_world_signs.
  - reflexivity.
  - intros tr body. reflexivity.
  - reflexivity.
  - vm_compute. reflexivity.
  - vm_compute. reflexivity.
  - vm_compute. reflexivity.
  - vm_compute. reflexivity.
  - vm_compute. split; discriminate.
  - exists s'. split; [exact Hrun|]. split; [exact Hseq | exact Hsleep].
Defined.
